(** * rootless-personio: attendance client

    A shallow embedding of [pkg/personio/attendance.go] (both revisions that
    ship with the repository: the older one that formats its own query
    string, and the newer one that owns the day-ID cache), together with the
    parts of Go's [time], [net/url] and [github.com/google/uuid] packages
    those functions call.

    Layout of the development:
    - [Civil]: the proleptic Gregorian calendar used by [time.Time];
    - [GoTime]: instants, locations, [Add], [Truncate], [UTC], [Format];
    - [Personio]: the client, its effects (HTTP executor, UUID source,
      logger) as a state-and-error monad, and the attendance operations;
    - [Fixtures]: concrete clients, servers and instants;
    - facts about the calendar, about time and about the effects of the
      operations, and then the properties of the specification. *)

From Stdlib Require Import ZArith Lia List String Ascii Bool.
From stdpp Require Import gmap strings list fin_maps sorting.

Local Open Scope Z_scope.

(** ** Bounded universal checks, decided by evaluation *)

Fixpoint all_from (n : nat) (z : Z) (f : Z -> bool) : bool :=
  match n with
  | O => true
  | S k => if f z then all_from k (z + 1) f else false
  end.

Definition all_below (n : Z) (f : Z -> bool) : bool :=
  all_from (Z.to_nat n) 0 f.

(** ** The civil calendar behind [time.Time] *)

Module Civil.

(** Days are counted from 1970-01-01 (day 0). A 400-year era has 146097
    days; inside an era the year is shifted to start on March 1st, so that
    the leap day is the last day of the shifted year. *)

Definition isLeap (y : Z) : bool :=
  ((y mod 4 =? 0) && negb (y mod 100 =? 0)) || (y mod 400 =? 0).

Definition daysIn (y m : Z) : Z :=
  if m =? 2 then (if isLeap y then 29 else 28)
  else if (m =? 4) || (m =? 6) || (m =? 9) || (m =? 11) then 30
  else 31.

(** The first day of a year of the era, the years running from March. *)
Definition yearStart (yoe : Z) : Z := 365 * yoe + yoe / 4 - yoe / 100.

Definition doe_of_civil (yoe m d : Z) : Z :=
  let mp := if 2 <? m then m - 3 else m + 9 in
  let doy := (153 * mp + 2) / 5 + d - 1 in
  yearStart yoe + doy.

Definition days_from_civil (y m d : Z) : Z :=
  let y' := if m <=? 2 then y - 1 else y in
  let era := y' / 400 in
  let yoe := y' mod 400 in
  era * 146097 + doe_of_civil yoe m d - 719468.

(** The year of the era a day of the era lies in. *)
Definition yoe_of (doe : Z) : Z :=
  (doe - doe / 1460 + doe / 36524 - doe / 146096) / 365.

(** Month and day from the day of the year, the year running from March. *)
Definition civil_of_doy (yoe doy : Z) : Z * Z * Z :=
  let mp := (5 * doy + 2) / 153 in
  let d := doy - (153 * mp + 2) / 5 + 1 in
  let m := if mp <? 10 then mp + 3 else mp - 9 in
  (if m <=? 2 then yoe + 1 else yoe, m, d).

Definition civil_of_doe (doe : Z) : Z * Z * Z :=
  let yoe := yoe_of doe in
  civil_of_doy yoe (doe - yearStart yoe).

Definition civil_from_days (z : Z) : Z * Z * Z :=
  let z' := z + 719468 in
  let era := z' / 146097 in
  let doe := z' mod 146097 in
  let '(y, m, d) := civil_of_doe doe in
  (y + era * 400, m, d).

(** The month after [(y, m)]. *)
Definition nextMonth (y m : Z) : Z * Z :=
  if m =? 12 then (y + 1, 1) else (y, m + 1).

(** What is checked of a day of the era, of a year of the era (by its
    first and its last day), of a day of the year, and of the months in
    sequence. *)

Definition check_doe (doe : Z) : bool :=
  let '(y, m, d) := civil_of_doe doe in
  let yoe := if m <=? 2 then y - 1 else y in
  (1 <=? m) && (m <=? 12) && (1 <=? d) && (d <=? daysIn y m)
  && (0 <=? yoe) && (yoe <? 400)
  && (doe_of_civil yoe m d =? doe).

(** The last day of a year of the era; the last year ends with the era. *)
Definition yearEnd (yoe : Z) : Z :=
  if yoe =? 399 then 146096 else yearStart (yoe + 1) - 1.

Definition check_year (yoe : Z) : bool :=
  (yoe_of (yearStart yoe) =? yoe) && (yoe_of (yearEnd yoe) =? yoe)
  && (yearEnd yoe - yearStart yoe =? (if isLeap (yoe + 1) then 365 else 364)).

Definition check_doy (doy : Z) : bool :=
  let '(_, m, d) := civil_of_doy 0 doy in
  (1 <=? m) && (m <=? 12) && (1 <=? d)
  && ((153 * (if 2 <? m then m - 3 else m + 9) + 2) / 5 + d - 1 =? doy)
  && (if m =? 2 then d =? doy - 336 else d <=? daysIn 0 m).

Definition check_month_end (ym : Z) : bool :=
  let y := ym / 12 in
  let m := ym mod 12 + 1 in
  let '(y', m') := nextMonth y m in
  days_from_civil y m (daysIn y m) + 1 =? days_from_civil y' m' 1.

(** The first day of the month with index [i], counting months from
    January of year 0. *)
Definition monthStart (i : Z) : Z := days_from_civil (i / 12) (i mod 12 + 1) 1.

Definition monthLength (i : Z) : Z := daysIn (i / 12) (i mod 12 + 1).

End Civil.

(** ** Go's [time] package, as far as the client uses it *)

Module GoTime.

(** [time.Duration]: a count of nanoseconds. *)
Definition Duration := Z.
Definition Nanosecond : Duration := 1.
Definition Second : Duration := 1000000000 * Nanosecond.
Definition Minute : Duration := 60 * Second.
Definition Hour : Duration := 60 * Minute.

(** [*time.Location]: zones with a fixed offset, in seconds east of UTC.
    Zones whose offset changes during the year are outside this model. *)
Record Location := FixedZone { zoneOffset : Z }.
Definition UTCLoc : Location := FixedZone 0.

(** [time.Time]: an instant (nanoseconds since 1970-01-01T00:00:00Z) and
    the location its wall clock is read in. The instant is an unbounded
    integer here; Go's range of about 292 billion years is not modelled. *)
Record Time := mkTime { unixNano : Z; location : Location }.

Definition Add (t : Time) (d : Duration) : Time :=
  mkTime (unixNano t + d) (location t).

Definition Before (t u : Time) : bool := unixNano t <? unixNano u.

Definition UTC (t : Time) : Time := mkTime (unixNano t) UTCLoc.

(** [t.Local()], where [local] is the zone of the process. *)
Definition Local (t : Time) (local : Location) : Time := mkTime (unixNano t) local.

(** Seconds between 0001-01-01T00:00:00Z (the zero [Time]) and the Unix
    epoch. *)
Definition unixToInternal : Z := 62135596800.

(** [t.Truncate(d)] rounds [t] down to a multiple of [d] since the zero
    time; a non-positive [d] leaves [t] as it is. *)
Definition Truncate (t : Time) (d : Duration) : Time :=
  if d <=? 0 then t
  else
    let r := (unixNano t + unixToInternal * Second) mod d in
    Add t (- r).

(** Wall-clock seconds since the epoch, read in [t]'s location. *)
Definition abs (t : Time) : Z := unixNano t / Second + zoneOffset (location t).

Definition secondsPerDay : Z := 86400.

Definition Date (t : Time) : Z * Z * Z :=
  Civil.civil_from_days (abs t / secondsPerDay).

Definition Year (t : Time) : Z := fst (fst (Date t)).
Definition Month (t : Time) : Z := snd (fst (Date t)).
Definition Day (t : Time) : Z := snd (Date t).

Definition Clock (t : Time) : Z * Z * Z :=
  let s := abs t mod secondsPerDay in
  (s / 3600, (s mod 3600) / 60, s mod 60).

Definition Nanosecond_of (t : Time) : Z := unixNano t mod Second.

(** Midnight of a civil day, in a location. *)
Definition midnight (z : Z) (loc : Location) : Time :=
  mkTime ((z * secondsPerDay - zoneOffset loc) * Second) loc.

(** [norm hi lo base] carries the overflow of [lo] into [hi]. *)
Definition norm (hi lo base : Z) : Z * Z := (hi + lo / base, lo mod base).

(** [time.Date(year, month, day, hour, min, sec, nsec, loc)]; values out of
    range are normalised, so that month 13 is January of the next year and
    day 0 the last day of the month before. *)
Definition time_Date (year month day hour min sec nsec : Z) (loc : Location)
  : Time :=
  let '(year, m) := norm year (month - 1) 12 in
  let month := m + 1 in
  let '(sec, nsec) := norm sec nsec 1000000000 in
  let '(min, sec) := norm min sec 60 in
  let '(hour, min) := norm hour min 60 in
  let '(day, hour) := norm day hour 24 in
  let d := Civil.days_from_civil year month 1 + (day - 1) in
  let unix := d * secondsPerDay + hour * 3600 + min * 60 + sec - zoneOffset loc in
  mkTime (unix * Second + nsec) loc.

Definition AddDate (t : Time) (years months days : Z) : Time :=
  let '(year, month, day) := Date t in
  let '(hour, min, sec) := Clock t in
  time_Date (year + years) (month + months) (day + days)
            hour min sec (Nanosecond_of t) (location t).

(** *** Formatting *)

Definition digit (d : Z) : ascii := ascii_of_nat (48 + Z.to_nat d).

Fixpoint utoa_aux (fuel : nat) (u : Z) (acc : string) : string :=
  match fuel with
  | O => acc
  | S k =>
      let acc' := String (digit (u mod 10)) acc in
      if u <? 10 then acc' else utoa_aux k (u / 10) acc'
  end.

(** Decimal digits of a non-negative number; the fuel exceeds their count. *)
Definition utoa (u : Z) : string := utoa_aux (S (Z.to_nat (Z.log2 u))) u "".

Fixpoint zeros (n : nat) : string :=
  match n with O => "" | S k => String "0" (zeros k) end.

(** [appendInt]: sign, then the digits padded with zeros to [width]. *)
Definition appendInt (x : Z) (width : nat) : string :=
  let s := utoa (Z.abs x) in
  (if x <? 0 then "-" else "") +:+ zeros (width - String.length s) +:+ s.

(** [strconv.Itoa] / the [%d] verb. *)
Definition itoa (x : Z) : string := appendInt x 0.

Fixpoint trimZeros (rev_digits : list ascii) : list ascii :=
  match rev_digits with
  | c :: rest => if Ascii.eqb c "0" then trimZeros rest else rev_digits
  | [] => []
  end.

(** The [.999999999] element: nothing for a whole second, otherwise the
    fraction without its trailing zeros. *)
Definition appendNano9 (nanosec : Z) : string :=
  if nanosec =? 0 then ""
  else
    "." +:+ string_of_list_ascii
              (rev (trimZeros (rev (list_ascii_of_string (appendInt nanosec 9))))).

(** The [Z07:00] element: [Z] for UTC, otherwise the signed offset. *)
Definition appendISO8601ColonTZ (offset : Z) : string :=
  if offset =? 0 then "Z"
  else
    let zone := Z.quot offset 60 in
    (if zone <? 0 then "-" else "+")
    +:+ appendInt (Z.quot (Z.abs zone) 60) 2 +:+ ":"
    +:+ appendInt (Z.rem (Z.abs zone) 60) 2.

(** A layout, cut into the elements [Time.Format] recognises; text that is
    no element is copied as it stands. *)
Inductive chunk :=
| stdLongYear         (* 2006 *)
| stdZeroMonth        (* 01 *)
| stdZeroDay          (* 02 *)
| stdHour             (* 15 *)
| stdZeroMinute       (* 04 *)
| stdZeroSecond       (* 05 *)
| stdFracSecond9      (* .999999999 *)
| stdISO8601ColonTZ   (* Z07:00 *)
| literal (s : string).

Definition formatChunk (t : Time) (c : chunk) : string :=
  let '(year, month, day) := Date t in
  let '(hour, min, sec) := Clock t in
  match c with
  | stdLongYear => appendInt year 4
  | stdZeroMonth => appendInt month 2
  | stdZeroDay => appendInt day 2
  | stdHour => appendInt hour 2
  | stdZeroMinute => appendInt min 2
  | stdZeroSecond => appendInt sec 2
  | stdFracSecond9 => appendNano9 (Nanosecond_of t)
  | stdISO8601ColonTZ => appendISO8601ColonTZ (zoneOffset (location t))
  | literal s => s
  end.

Definition Format (t : Time) (layout : list chunk) : string :=
  fold_right (fun c acc => formatChunk t c +:+ acc) "" layout.

(** ["2006-01-02"] *)
Definition DateOnly : list chunk :=
  [stdLongYear; literal "-"; stdZeroMonth; literal "-"; stdZeroDay].

(** ["2006-01-02T15:04:05Z"]: a lone [Z] is no layout element, it is copied. *)
Definition layoutSecondsZ : list chunk :=
  [stdLongYear; literal "-"; stdZeroMonth; literal "-"; stdZeroDay;
   literal "T"; stdHour; literal ":"; stdZeroMinute; literal ":";
   stdZeroSecond; literal "Z"].

(** [time.RFC3339Nano], ["2006-01-02T15:04:05.999999999Z07:00"]. *)
Definition RFC3339Nano : list chunk :=
  [stdLongYear; literal "-"; stdZeroMonth; literal "-"; stdZeroDay;
   literal "T"; stdHour; literal ":"; stdZeroMinute; literal ":";
   stdZeroSecond; stdFracSecond9; stdISO8601ColonTZ].

(** [Time.MarshalJSON]: the RFC 3339 text, refused for years that do not
    fit four digits. *)
Definition MarshalJSON (t : Time) : option string :=
  if (Year t <? 0) || (10000 <=? Year t) then None
  else Some (Format t RFC3339Nano).

End GoTime.

(** ** The attendance client *)

Module Personio.
Import GoTime.

(** *** Identifiers *)

(** [uuid.UUID]: sixteen bytes, read here as one 128-bit number whose most
    significant byte is byte 0. The numbers that stand for identifiers are
    those below 2^128, [validUUID]; [UUID_String] reads the 128 lowest bits
    only, so that it tells identifiers apart among these and not beyond. *)
Definition UUID := Z.
Definition uuid_Nil : UUID := 0.

Definition validUUID (u : UUID) : Prop := 0 <= u < 2 ^ 128.

Definition hexDigit (d : Z) : ascii :=
  if d <? 10 then ascii_of_nat (48 + Z.to_nat d)
  else ascii_of_nat (87 + Z.to_nat d).

(** The [n] lowest hexadecimal digits of [u], most significant first. *)
Fixpoint hex (n : nat) (u : Z) : string :=
  match n with
  | O => ""
  | S k => hex k (u / 16) +:+ String (hexDigit (u mod 16)) ""
  end.

(** [UUID.String]: xxxxxxxx-xxxx-xxxx-xxxx-xxxxxxxxxxxx. *)
Definition UUID_String (u : UUID) : string :=
  hex 8 (u / 2 ^ 96) +:+ "-" +:+ hex 4 (u / 2 ^ 80) +:+ "-"
  +:+ hex 4 (u / 2 ^ 64) +:+ "-" +:+ hex 4 (u / 2 ^ 48) +:+ "-" +:+ hex 12 u.

(** [uuid.New] turns 128 random bits into a version-4 identifier: the high
    nibble of byte 6 becomes 4 and the two top bits of byte 8 become 10. *)
Definition uuid_fromRandom (raw : Z) : UUID :=
  let cleared := Z.ldiff (raw mod 2 ^ 128)
                         (Z.lor (Z.shiftl 15 76) (Z.shiftl 3 62)) in
  Z.lor cleared (Z.lor (Z.shiftl 4 76) (Z.shiftl 2 62)).

(** *** JSON documents, as trees *)

#[warnings="-register-all"]
Inductive json :=
| JNull
| JBool (b : bool)
| JNumber (n : Z)
| JString (s : string)
| JArray (items : list json)
| JObject (fields : list (string * json)).

(** *** Wire types of [attendance.go] *)

Record CalendarDayAttributes := {
  BreakMin : Z;
  DurationMin : Z;
  Status : string;
  Day : string               (* ex: "2023-01-20" *)
}.

Record CalendarDay := {
  CalendarDay_ID : UUID;
  Attributes : CalendarDayAttributes
}.

(** Of [AttendanceCalendar] the client reads [AttendanceDays.Data] only; the
    periods, absences and holidays travel to the caller untouched and are
    left out. *)
Record AttendanceCalendar := {
  AttendanceDays : list CalendarDay
}.

(** [PeriodType] is a string; the empty string is the unset type. *)
Definition PeriodType := string.
Definition PeriodTypeWork : PeriodType := "work".
Definition PeriodTypeBreak : PeriodType := "break".

Record Period := {
  ID : UUID;
  Period_PeriodType : PeriodType;
  Comment : option string;
  ProjectID : option Z;
  Start : Time;
  End_ : Time;
  LegacyBreakMin : Z
}.

Definition GetComment (p : Period) : string := default "" (Comment p).
Definition GetProjectID (p : Period) : Z := default 0 (ProjectID p).

(** An element of [PersonioPeriods]. *)
Record PersonioPeriod := {
  PP_ID : string;
  PP_Type : string;
  PP_Start : Time;
  PP_End : Time;
  PP_LegacyBreakMin : Z;
  PP_Comment : string;
  PP_PeriodType : string;
  PP_CreatedAt : Time;
  PP_UpdatedAt : Time;
  PP_EmployeeID : Z;
  PP_CreatedBy : Z;
  PP_AttendanceDayID : string
}.

(** *** Errors and results *)

Inductive error :=
| ErrNotLoggedIn
| ErrTransport (msg : string)
| ErrStatus (code : Z)
| ErrDecode
| ErrMarshal (msg : string)
| ErrAuthChallengeRequired (csrf : string)
| ErrAuthFailure
| ErrWrap (context : string) (cause : error).   (* fmt.Errorf("...: %w", err) *)

(** What a Go call comes back with: a value, a non-nil [error], or a
    run-time panic. *)
Inductive outcome (A : Type) :=
| Ok (a : A)
| Err (e : error)
| Panic (msg : string).
Arguments Ok {A} a.
Arguments Err {A} e.
Arguments Panic {A} msg.

(** *** The HTTP executor and the other effects *)

Record Request := {
  Method : string;
  URL : string;
  Body : option json
}.

(** What the server's login page answers, already decoded. *)
Record LoginReply := {
  newDeviceChallenge : option string;   (* the CSRF token of a challenge *)
  replyCookie : option string;
  replyEmployeeID : option Z
}.

(** A response body, already decoded into the shape it has. *)
Inductive payload :=
| PayloadCalendar (cal : AttendanceCalendar)
| PayloadPeriods (periods : list PersonioPeriod)
| PayloadPeriodsResult (results : Z)     (* only the length is read *)
| PayloadLogin (reply : LoginReply)
| PayloadJSON (doc : json)
| PayloadMalformed.

Record Response := {
  StatusCode : Z;
  Payload : payload
}.

Inductive exchange :=
| Replied (resp : Response)
| TransportFailed (msg : string).

(** Everything a call leaves behind outside the client: requests put on the
    wire and log lines. *)
Inductive Event :=
| Sent (req : Request)
| LogDebug (msg day : string) (id : UUID)    (* log.Debug().Str("day").Stringer("uuid").Msg *)
| LogPrintf (msg : string) (n : Z).          (* log.Printf(msg, n) *)

(** The world around the client: the server (which may answer a request
    depending on all that happened before), the random source behind
    [uuid.New], the process's local time zone, and the trace so far. *)
Record World := {
  transport : list Event -> Request -> exchange;
  entropy : nat -> Z;
  localZone : Location;
  drawn : nat;
  trace : list Event
}.

Definition record (e : Event) (w : World) : World :=
  {| transport := transport w; entropy := entropy w; localZone := localZone w;
     drawn := drawn w; trace := trace w ++ [e] |}.

Definition draw (w : World) : World :=
  {| transport := transport w; entropy := entropy w; localZone := localZone w;
     drawn := S (drawn w); trace := trace w |}.

(** The requests in a trace, and how many there are. *)
Definition requests (tr : list Event) : list Request :=
  omap (fun e => match e with Sent r => Some r | _ => None end) tr.

Definition sentCount (w : World) : nat := length (requests (trace w)).

(** *** The client *)

Inductive AuthState := LoggedOut | AwaitingDeviceChallenge | LoggedIn.

(** In [dayIDCache] a key mapped to [None] is a day known to have no
    identifier yet (a nil pointer in the Go map); a key that is absent has
    not been looked up. The map itself is allocated by the constructor. *)
Record Client := {
  authenticationState : AuthState;
  sessionCookie : string;
  EmployeeID : Z;
  dayIDCache : gmap string (option UUID)
}.

Definition withCache (c : Client) (m : gmap string (option UUID)) : Client :=
  {| authenticationState := authenticationState c;
     sessionCookie := sessionCookie c;
     EmployeeID := EmployeeID c;
     dayIDCache := m |}.

(** *** Calls: state of client and world, result or error *)

Definition M (A : Type) : Type := Client -> World -> outcome A * Client * World.

Definition ret {A} (a : A) : M A := fun c w => (Ok a, c, w).
Definition fail {A} (e : error) : M A := fun c w => (Err e, c, w).

Definition bind {A B} (m : M A) (k : A -> M B) : M B :=
  fun c w =>
    match m c w with
    | (Ok a, c', w') => k a c' w'
    | (Err e, c', w') => (Err e, c', w')
    | (Panic s, c', w') => (Panic s, c', w')
    end.

Notation "'let*' x ':=' m 'in' k" := (bind m (fun x => k))
  (at level 10, x name, m at level 100, k at level 200).

(** A step that cannot touch client or world. *)
Definition lift {A} (o : outcome A) : M A := fun c w => (o, c, w).

(** [if err != nil { return fmt.Errorf(ctx, err) }] *)
Definition wrapErr {A} (f : error -> error) (m : M A) : M A :=
  fun c w =>
    match m c w with
    | (Err e, c', w') => (Err (f e), c', w')
    | r => r
    end.

Definition getClient : M Client := fun c w => (Ok c, c, w).
Definition getCache : M (gmap string (option UUID)) :=
  fun c w => (Ok (dayIDCache c), c, w).
Definition getLocal : M Location := fun c w => (Ok (localZone w), c, w).

(** [c.dayIDCache[day] = id] *)
Definition setDayID (day : string) (id : option UUID) : M unit :=
  fun c w => (Ok tt, withCache c (<[day := id]> (dayIDCache c)), w).

Definition emit (e : Event) : M unit := fun c w => (Ok tt, c, record e w).

Definition uuid_New : M UUID :=
  fun c w => (Ok (uuid_fromRandom (entropy w (drawn w))), c, draw w).

(** Modelled from the spec: the client's login check, whose code is not
    among the sources. "Fails fast with a descriptive error if state is not
    LoggedIn"; the error kind is NotLoggedIn. *)
Definition assertLoggedIn : M unit :=
  fun c w =>
    match authenticationState c with
    | LoggedIn => (Ok tt, c, w)
    | _ => (Err ErrNotLoggedIn, c, w)
    end.

(** Modelled from the spec: the HTTP executor, [send(method, path, query,
    body, headers) -> (statusCode, jsonBody) | TransportError], whose code is
    not among the sources. The request goes on the wire and the server's
    answer, or the transport's failure, comes back. *)
Definition RawJSON (req : Request) : M Response :=
  fun c w =>
    match transport w (trace w) req with
    | Replied resp => (Ok resp, c, record (Sent req) w)
    | TransportFailed msg => (Err (ErrTransport msg), c, record (Sent req) w)
    end.

Definition isSuccess (status : Z) : bool := (200 <=? status) && (status <? 300).

(** Modelled from the spec: [ParseResponseJSON[T]], whose code is not among
    the sources. A non-success status is a RemoteAPIError; otherwise the body
    is decoded into [T]. *)
Definition ParseResponseJSON {T} (decode : payload -> option T)
    (resp : Response) : M T :=
  if isSuccess (StatusCode resp) then
    match decode (Payload resp) with
    | Some v => ret v
    | None => fail ErrDecode
    end
  else fail (ErrStatus (StatusCode resp)).

Definition asCalendar (p : payload) : option AttendanceCalendar :=
  match p with PayloadCalendar cal => Some cal | _ => None end.

Definition asPeriods (p : payload) : option (list PersonioPeriod) :=
  match p with PayloadPeriods ps => Some ps | _ => None end.

Definition asPeriodsResult (p : payload) : option Z :=
  match p with PayloadPeriodsResult n => Some n | _ => None end.

(** [ParseResponseJSON[any]] takes every well-formed document. *)
Definition asAny (p : payload) : option unit :=
  match p with PayloadMalformed => None | _ => Some tt end.

(** *** [net/url]: query values *)

(** [url.Values] is a Go map from key to the list of its values; [None] is
    the nil map, into which nothing can be stored. *)
Definition Values := option (gmap string (list string)).

Definition Values_nil : Values := None.       (* var v url.Values *)
Definition Values_empty : Values := Some ∅.   (* url.Values{} *)

(** [v.Set(key, value)], that is [v[key] = []string{value}]. *)
Definition Values_Set (v : Values) (key value : string) : outcome Values :=
  match v with
  | None => Panic "assignment to entry in nil map"
  | Some m => Ok (Some (<[key := [value]]> m))
  end.

(** [v.Add(key, value)], that is [v[key] = append(v[key], value)]. *)
Definition Values_Add (v : Values) (key value : string) : outcome Values :=
  match v with
  | None => Panic "assignment to entry in nil map"
  | Some m => Ok (Some (<[key := default [] (m !! key) ++ [value]]> m))
  end.

(** A run of [Set] (or [Add]) statements, in program order. *)
Fixpoint Values_apply (op : Values -> string -> string -> outcome Values)
    (v : Values) (stmts : list (string * string)) : outcome Values :=
  match stmts with
  | [] => Ok v
  | (key, value) :: rest =>
      match op v key value with
      | Ok v' => Values_apply op v' rest
      | other => other
      end
  end.

Definition isAlnum (c : ascii) : bool :=
  let n := Z.of_nat (nat_of_ascii c) in
  ((48 <=? n) && (n <=? 57)) || ((65 <=? n) && (n <=? 90))
  || ((97 <=? n) && (n <=? 122)).

(** [shouldEscape(c, encodeQueryComponent)] *)
Definition shouldEscape (c : ascii) : bool :=
  negb (isAlnum c
        || Ascii.eqb c "-" || Ascii.eqb c "_" || Ascii.eqb c "."
        || Ascii.eqb c "~").

Definition upperHexDigit (d : Z) : ascii :=
  if d <? 10 then ascii_of_nat (48 + Z.to_nat d)
  else ascii_of_nat (55 + Z.to_nat d).

Fixpoint QueryEscape (s : string) : string :=
  match s with
  | EmptyString => ""
  | String c rest =>
      let n := Z.of_nat (nat_of_ascii c) in
      (if Ascii.eqb c " " then "+"
       else if shouldEscape c
            then String "%" (String (upperHexDigit (n / 16))
                                    (String (upperHexDigit (n mod 16)) ""))
            else String c "")
      +:+ QueryEscape rest
  end.

Definition string_le (a b : string) : Prop := String.leb a b = true.

#[local] Instance string_le_dec (a b : string) : Decision (string_le a b).
Proof. unfold string_le. apply _. Defined.

Fixpoint joinWith (sep : string) (parts : list string) : string :=
  match parts with
  | [] => ""
  | [p] => p
  | p :: rest => p +:+ sep +:+ joinWith sep rest
  end.

(** [v.Encode()]: ["k=v"] pairs, keys sorted, joined by [&]. *)
Definition Values_Encode (v : Values) : string :=
  match v with
  | None => ""
  | Some m =>
      let keys := merge_sort string_le (map fst (map_to_list m)) in
      joinWith "&"
        (flat_map (fun k => map (fun x => QueryEscape k +:+ "=" +:+ QueryEscape x)
                                (default [] (m !! k)))
                  keys)
  end.

(** [http.NewRequest]; the methods and paths the client passes are constant
    and well-formed, so no error arises here. *)
Definition NewRequest (method url : string) (body : option json) : Request :=
  {| Method := method; URL := url; Body := body |}.

(** *** Reading the calendar *)

(** ["2006-01-02"] *)
Definition timeDateOnlyLayout : list chunk := DateOnly.

(** The two [queryParams.Set] statements of [GetAttendanceCalendar]. *)
Definition calendarQuery (startDate endDate : Time) : list (string * string) :=
  [("start_date", Format startDate timeDateOnlyLayout);
   ("end_date", Format endDate timeDateOnlyLayout)].

Definition calendarPath (employeeID : Z) (queryParams : Values) : string :=
  "/svc/attendance-bff/attendance-calendar/" +:+ itoa employeeID +:+ "?"
  +:+ Values_Encode queryParams.

Definition GetAttendanceCalendar (employeeID : Z) (startDate endDate : Time)
  : M AttendanceCalendar :=
  let* _ := assertLoggedIn in
  let* queryParams :=
    lift (Values_apply Values_Set Values_empty (calendarQuery startDate endDate)) in
  let req := NewRequest "GET" (calendarPath employeeID queryParams) None in
  let* resp := RawJSON req in
  ParseResponseJSON asCalendar resp.

Definition GetMyAttendanceCalendar (startDate endDate : Time)
  : M AttendanceCalendar :=
  let* c := getClient in
  GetAttendanceCalendar (EmployeeID c) startDate endDate.

(** *** The day-ID cache *)

(** Modelled from the spec: [util.TimeFullMonth], whose code is not among
    the sources: "computes the full calendar-month window containing date".
    The window runs from the first day of the month to its last day, both at
    midnight in the date's own location. *)
Definition TimeFullMonth (t : Time) : Time * Time :=
  let '(year, month, _) := Date t in
  let startDate := time_Date year month 1 0 0 0 0 (location t) in
  (startDate, AddDate startDate 0 1 (-1)).

(** First loop of [cacheDayIDs]: the days the server knows. *)
Fixpoint cacheKnownDays (days : list CalendarDay) : M unit :=
  match days with
  | [] => ret tt
  | day :: rest =>
      let id := CalendarDay_ID day in
      let* _ := setDayID (Day (Attributes day)) (Some id) in
      let* _ := emit (LogDebug "Cached existing UUID for day."
                               (Day (Attributes day)) id) in
      cacheKnownDays rest
  end.

(** Second loop of [cacheDayIDs]:
    [for date := startDate; date.Before(loopEnd); date = date.Add(24h)]. *)
Fixpoint setUnknownDays (fuel : nat) (date loopEnd : Time) : M unit :=
  match fuel with
  | O => ret tt
  | S fuel' =>
      if Before date loopEnd then
        let dateString := Format date timeDateOnlyLayout in
        let* cache := getCache in
        let* _ := match cache !! dateString with
                  | Some _ => ret tt
                  | None => setDayID dateString None
                  end in
        setUnknownDays fuel' (Add date (24 * Hour)) loopEnd
      else ret tt
  end.

(** The number of times the loop test can succeed. *)
Definition loopFuel (startDate loopEnd : Time) : nat :=
  Z.to_nat ((unixNano loopEnd - unixNano startDate + 24 * Hour - 1) / (24 * Hour)).

Definition cacheDayIDs (days : list CalendarDay) (startDate endDate : Time)
  : M unit :=
  let* _ := cacheKnownDays days in
  let loopEnd := Add endDate (24 * Hour) in
  setUnknownDays (loopFuel startDate loopEnd) startDate loopEnd.

Definition GetDayUUID (date : Time) : M (option UUID) :=
  let dateString := Format date timeDateOnlyLayout in
  let* cache := getCache in
  match cache !! dateString with
  | Some id => ret id
  | None =>
      let '(startDate, endDate) := TimeFullMonth date in
      let* cal :=
        wrapErr (ErrWrap ("get days for range "
                          +:+ Format startDate timeDateOnlyLayout +:+ "-"
                          +:+ Format endDate timeDateOnlyLayout))
                (GetMyAttendanceCalendar startDate endDate) in
      let* _ := cacheDayIDs (AttendanceDays cal) startDate endDate in
      let* cache := getCache in
      ret (default None (cache !! dateString))
  end.

Definition GetOrNewDayUUID (date : Time) : M UUID :=
  let* id := wrapErr (ErrWrap "get day UUID") (GetDayUUID date) in
  match id with
  | Some id => ret id
  | None =>
      let* newID := uuid_New in
      let dateString := Format date timeDateOnlyLayout in
      let* _ := setDayID dateString (Some newID) in
      let* _ := emit (LogDebug "Randomized new UUID for day." dateString newID) in
      ret newID
  end.

(** *** Writing attendance *)

(** One turn of the loop at the head of [SetAttendance]. *)
Definition normalizePeriod (p : Period) : M Period :=
  let* id := if decide (ID p = uuid_Nil) then uuid_New else ret (ID p) in
  ret {| ID := id;
         Period_PeriodType :=
           if String.eqb (Period_PeriodType p) "" then PeriodTypeWork
           else Period_PeriodType p;
         Comment := Comment p;
         ProjectID := ProjectID p;
         Start := UTC (Truncate (Start p) Second);
         End_ := UTC (Truncate (End_ p) Second);
         LegacyBreakMin := LegacyBreakMin p |}.

(** [for i := range periods { ... }] *)
Fixpoint normalizePeriods (periods : list Period) : M (list Period) :=
  match periods with
  | [] => ret []
  | p :: rest =>
      let* p' := normalizePeriod p in
      let* rest' := normalizePeriods rest in
      ret (p' :: rest')
  end.

Definition optionJSON {A} (f : A -> json) (o : option A) : json :=
  match o with Some a => f a | None => JNull end.

(** [json.Marshal] of one [Period]; [time.Time] refuses years outside
    0..9999. *)
Definition Period_MarshalJSON (p : Period) : outcome json :=
  match MarshalJSON (Start p), MarshalJSON (End_ p) with
  | Some start, Some end_ =>
      Ok (JObject [("id", JString (UUID_String (ID p)));
                   ("period_type", JString (Period_PeriodType p));
                   ("comment", optionJSON JString (Comment p));
                   ("project_id", optionJSON JNumber (ProjectID p));
                   ("start", JString start);
                   ("end", JString end_);
                   ("legacy_break_min", JNumber (LegacyBreakMin p))])
  | _, _ => Err (ErrMarshal "Time.MarshalJSON: year outside of range [0,9999]")
  end.

Fixpoint Periods_MarshalJSON (periods : list Period) : outcome (list json) :=
  match periods with
  | [] => Ok []
  | p :: rest =>
      match Period_MarshalJSON p with
      | Ok j =>
          match Periods_MarshalJSON rest with
          | Ok js => Ok (j :: js)
          | other => other
          end
      | Err e => Err e
      | Panic s => Panic s
      end
  end.

(** [json.Marshal(map[string]any{"employee_id": ..., "periods": ...})]; the
    keys of a map are written in sorted order. *)
Definition attendanceBody (employeeID : Z) (periods : list Period)
  : outcome json :=
  match Periods_MarshalJSON periods with
  | Ok js => Ok (JObject [("employee_id", JNumber employeeID);
                          ("periods", JArray js)])
  | Err e => Err e
  | Panic s => Panic s
  end.

Definition dayPath (dayID : UUID) : string :=
  "/api/v1/attendances/days/" +:+ UUID_String dayID.

Definition SetAttendance (date : Time) (periods : list Period) : M unit :=
  let* _ := assertLoggedIn in
  let* periods := normalizePeriods periods in
  let* c := getClient in
  let* body := lift (attendanceBody (EmployeeID c) periods) in
  let* dayID := GetOrNewDayUUID date in
  let req := NewRequest "PUT" (dayPath dayID) (Some body) in
  let* resp := RawJSON req in
  (* Currently don't care about the response *)
  ParseResponseJSON asAny resp.

(** *** Working times *)

Definition toLocal (local : Location) (p : PersonioPeriod) : PersonioPeriod :=
  {| PP_ID := PP_ID p; PP_Type := PP_Type p;
     PP_Start := Local (PP_Start p) local;
     PP_End := Local (PP_End p) local;
     PP_LegacyBreakMin := PP_LegacyBreakMin p;
     PP_Comment := PP_Comment p;
     PP_PeriodType := PP_PeriodType p;
     PP_CreatedAt := Local (PP_CreatedAt p) local;
     PP_UpdatedAt := Local (PP_UpdatedAt p) local;
     PP_EmployeeID := PP_EmployeeID p;
     PP_CreatedBy := PP_CreatedBy p;
     PP_AttendanceDayID := PP_AttendanceDayID p |}.

Definition GetWorkingTimes (from to : Time) : M (list PersonioPeriod) :=
  let* _ := assertLoggedIn in
  let* c := getClient in
  let* q := lift (Values_apply Values_Add Values_empty
                    [("filter[startDate]", Format from DateOnly);
                     ("filter[endDate]", Format to DateOnly);
                     ("filter[employee]", itoa (EmployeeID c))]) in
  let req := NewRequest "GET" ("/api/v1/attendances/periods?" +:+ Values_Encode q)
                        None in
  let* resp := RawJSON req in
  let* res := ParseResponseJSON asPeriods resp in
  let* local := getLocal in
  ret (map (toLocal local) res).

(** The one-element payload of [SetWorkingTimes]. *)
Definition workingTimesBody (id : UUID) (employeeID : Z) (from to : Time)
  : json :=
  JArray [JObject [("id", JString (UUID_String id));
                   ("employee_id", JNumber employeeID);
                   ("start", JString (Format from layoutSecondsZ));
                   ("end", JString (Format to layoutSecondsZ));
                   ("activity_id", JNull);
                   ("comment", JString "");
                   ("project_id", JNull)]].

Definition SetWorkingTimes (from to : Time) : M unit :=
  let* _ := assertLoggedIn in
  let* id := uuid_New in
  let* c := getClient in
  let body := workingTimesBody id (EmployeeID c) from to in
  let req := NewRequest "POST" "/api/v1/attendances/periods" (Some body) in
  let* resp := RawJSON req in
  let* results := ParseResponseJSON asPeriodsResult resp in
  emit (LogPrintf "Got %d results" results).

(** *** The older revision of [attendance.go]

    It differs in [GetAttendanceCalendar]: the query values are declared but
    not allocated, and both parameters are set from [startDate]. Its
    [GetWorkingTimes] and [SetWorkingTimes] read as the ones above. *)

Module Legacy.

Definition calendarQuery (startDate endDate : Time) : list (string * string) :=
  [("start_date", Format startDate DateOnly);
   ("end_date", Format startDate DateOnly)].

(** The body of [GetAttendanceCalendar], as a function of the value that
    [queryParams] is declared with. *)
Definition GetAttendanceCalendarFrom (declared : Values)
    (employeeID : Z) (startDate endDate : Time) : M AttendanceCalendar :=
  let* _ := assertLoggedIn in
  let* queryParams :=
    lift (Values_apply Values_Set declared (calendarQuery startDate endDate)) in
  let req := NewRequest "GET" (calendarPath employeeID queryParams) None in
  let* resp := RawJSON req in
  ParseResponseJSON asCalendar resp.

(** [var queryParams url.Values]: the declaration allocates nothing. *)
Definition GetAttendanceCalendar (employeeID : Z) (startDate endDate : Time)
  : M AttendanceCalendar :=
  GetAttendanceCalendarFrom Values_nil employeeID startDate endDate.

Definition GetMyAttendanceCalendar (startDate endDate : Time)
  : M AttendanceCalendar :=
  let* c := getClient in
  GetAttendanceCalendar (EmployeeID c) startDate endDate.

Definition GetWorkingTimes := Personio.GetWorkingTimes.
Definition SetWorkingTimes := Personio.SetWorkingTimes.

End Legacy.

(** *** Logging in *)

Record Credentials := {
  email : string;
  password : string;
  csrfToken : option string;
  emailToken : option string
}.

Definition withSession (c : Client) (st : AuthState) (cookie : string)
    (employee : Z) : Client :=
  {| authenticationState := st; sessionCookie := cookie;
     EmployeeID := employee; dayIDCache := dayIDCache c |}.

Definition loginRequest (creds : Credentials) : Request :=
  NewRequest "POST" "/login/index"
    (Some (JObject [("email", JString (email creds));
                    ("password", JString (password creds));
                    ("token", optionJSON JString (emailToken creds));
                    ("_token", optionJSON JString (csrfToken creds))])).

(** Modelled from the spec: the login handshake, whose code is not among the
    sources. A reply that reports a new-device challenge leads to
    AwaitingDeviceChallenge and the error that carries the CSRF token; a
    reply with a session cookie and an employee identifier leads to LoggedIn;
    anything else is an authentication failure. A transport failure is
    passed on and leaves the session as it was. *)
Definition Login (creds : Credentials) : M unit :=
  let* resp := RawJSON (loginRequest creds) in
  fun c w =>
    match Payload resp with
    | PayloadLogin reply =>
        match newDeviceChallenge reply with
        | Some csrf =>
            (Err (ErrAuthChallengeRequired csrf),
             withSession c AwaitingDeviceChallenge (sessionCookie c) (EmployeeID c),
             w)
        | None =>
            match replyCookie reply, replyEmployeeID reply with
            | Some cookie, Some employee =>
                (Ok tt, withSession c LoggedIn cookie employee, w)
            | _, _ => (Err ErrAuthFailure, c, w)
            end
        end
    | _ => (Err ErrAuthFailure, c, w)
    end.

(** *** Runs of the client *)

(** The calls a program can make on one client. *)
Inductive Call :=
| CallLogin (creds : Credentials)
| CallGetAttendanceCalendar (employeeID : Z) (startDate endDate : Time)
| CallGetMyAttendanceCalendar (startDate endDate : Time)
| CallGetDayUUID (date : Time)
| CallGetOrNewDayUUID (date : Time)
| CallSetAttendance (date : Time) (periods : list Period)
| CallGetWorkingTimes (from to : Time)
| CallSetWorkingTimes (from to : Time).

Definition discard {A} (m : M A) : M unit :=
  let* _ := m in ret tt.

Definition perform (call : Call) : M unit :=
  match call with
  | CallLogin creds => Login creds
  | CallGetAttendanceCalendar employeeID startDate endDate =>
      discard (GetAttendanceCalendar employeeID startDate endDate)
  | CallGetMyAttendanceCalendar startDate endDate =>
      discard (GetMyAttendanceCalendar startDate endDate)
  | CallGetDayUUID date => discard (GetDayUUID date)
  | CallGetOrNewDayUUID date => discard (GetOrNewDayUUID date)
  | CallSetAttendance date periods => SetAttendance date periods
  | CallGetWorkingTimes from to => discard (GetWorkingTimes from to)
  | CallSetWorkingTimes from to => SetWorkingTimes from to
  end.

(** A run: one call after the other on the same client; the program goes on
    after an error and ends at a panic. *)
Fixpoint run (calls : list Call) (c : Client) (w : World) : Client * World :=
  match calls with
  | [] => (c, w)
  | call :: rest =>
      match perform call c w with
      | (Panic _, c', w') => (c', w')
      | (_, c', w') => run rest c' w'
      end
  end.

(** *** Vocabulary of the properties *)

(** The world after [n] more identifiers were drawn and [evs] happened. *)
Definition advance (n : nat) (evs : list Event) (w : World) : World :=
  {| transport := transport w; entropy := entropy w; localZone := localZone w;
     drawn := n + drawn w; trace := trace w ++ evs |}.

(** What happened between an earlier world and a later one. *)
Definition since (w w' : World) : list Event :=
  drop (length (trace w)) (trace w').

(** The log line [GetOrNewDayUUID] writes when it makes up an identifier. *)
Definition isMint (day : string) (e : Event) : bool :=
  match e with
  | LogDebug msg d _ =>
      String.eqb msg "Randomized new UUID for day." && String.eqb d day
  | _ => false
  end.

Definition mints (day : string) (evs : list Event) : nat :=
  length (List.filter (isMint day) evs).

(** Whether the cache holds an identifier for a day. *)
Definition hasID (day : string) (c : Client) : bool :=
  match dayIDCache c !! day with
  | Some (Some _) => true
  | _ => false
  end.

(** How many identifiers may still be made up for a day: none once it has
    one. *)
Definition mintBudget (day : string) (c : Client) : nat :=
  if hasID day c then 0%nat else 1%nat.

Definition sameMonth (a b : Time) : bool :=
  (Year a =? Year b) && (Month a =? Month b).

(** The only requests among the events are GETs. *)
Definition readOnly (e : Event) : Prop :=
  match e with
  | Sent req => Method req = "GET"
  | _ => True
  end.

(** The log line of [cacheDayIDs] for a day the server knows. *)
Definition cachedLog (d : CalendarDay) : Event :=
  LogDebug "Cached existing UUID for day." (Day (Attributes d)) (CalendarDay_ID d).

(** The log line of [GetOrNewDayUUID] for an identifier it made up. *)
Definition mintLog (day : string) (id : UUID) : Event :=
  LogDebug "Randomized new UUID for day." day id.

Definition anyEvent (e : Event) : Prop := True.

(** The events of a day-ID lookup: GETs and log lines other than the one
    for a made-up identifier. *)
Definition lookupEvent (e : Event) : Prop :=
  readOnly e /\ forall day, isMint day e = false.

(** What the loop at the head of [SetAttendance] makes of a period. *)
Definition normalizes (p p' : Period) : Prop :=
  Period_PeriodType p'
  = (if String.eqb (Period_PeriodType p) "" then PeriodTypeWork
     else Period_PeriodType p)
  /\ Start p' = UTC (Truncate (Start p) Second)
  /\ End_ p' = UTC (Truncate (End_ p) Second)
  /\ Comment p' = Comment p /\ ProjectID p' = ProjectID p
  /\ LegacyBreakMin p' = LegacyBreakMin p
  /\ (ID p <> uuid_Nil -> ID p' = ID p).

(** [t'] is [t] cut to the whole second and read in UTC. *)
Definition wholeSecondUTC (t t' : Time) : Prop :=
  location t' = UTCLoc /\ Nanosecond_of t' = 0
  /\ unixNano t' <= unixNano t < unixNano t' + Second.

(** The body of a write of attendance. *)
Definition attendanceJSON (employeeID : Z) (periods : list json) : json :=
  JObject [("employee_id", JNumber employeeID); ("periods", JArray periods)].

(** Two day-ID lookups one after the other, and the requests they cost. *)
Definition twoLookups (d1 d2 : Time) (c : Client) (w : World) : nat :=
  let '(_, c1, w1) := GetDayUUID d1 c w in
  let '(_, _, w2) := GetDayUUID d2 c1 w1 in
  (sentCount w2 - sentCount w)%nat.

Definition jsonField (key : string) (j : json) : option json :=
  match j with
  | JObject fields => snd <$> List.find (fun kv => String.eqb (fst kv) key) fields
  | _ => None
  end.

(** A step of the client that only ever adds to the cache and to the trace:
    the events satisfy [P]; every made-up identifier for [day] is paid for
    out of the day's budget; an identifier the cache holds for [day] stays,
    unless the server itself reported one for that day (the log line of
    [cacheDayIDs] is among the events); and no cache entry goes away. *)
Definition grows (P : Event -> Prop) (day : string)
    (c : Client) (w : World) (c' : Client) (w' : World) : Prop :=
  (exists n evs,
      w' = advance n evs w /\ Forall P evs
      /\ (mints day evs + mintBudget day c' <= mintBudget day c)%nat
      /\ (forall id, dayIDCache c !! day = Some (Some id) ->
                     dayIDCache c' !! day = Some (Some id)
                     \/ exists id', List.In (LogDebug "Cached existing UUID for day."
                                                      day id') evs))
  /\ (forall k, is_Some (dayIDCache c !! k) -> is_Some (dayIDCache c' !! k)).

(** A call all of whose results are related to its start by [I]. *)
Definition obeys {A} (I : Client -> World -> Client -> World -> Prop)
    (m : M A) : Prop :=
  forall c w r c' w', m c w = (r, c', w') -> I c w c' w'.

(** *** More vocabulary: the cache after a calendar answer, sessions *)

(** The identifier the answer gives for a day: that of the last element
    that names the day, as the loop of [cacheDayIDs] overwrites. *)
Fixpoint lastListed (day : string) (days : list CalendarDay) : option UUID :=
  match days with
  | [] => None
  | d :: rest =>
      match lastListed day rest with
      | Some id => Some id
      | None =>
          if String.eqb (Day (Attributes d)) day then Some (CalendarDay_ID d)
          else None
      end
  end.

(** The request [GetAttendanceCalendar] builds: the query values after the
    two [Set], encoded behind the path. *)
Definition calendarRequest (employeeID : Z) (startDate endDate : Time) : Request :=
  NewRequest "GET"
    (calendarPath employeeID
       (Some (<["end_date" := [Format endDate timeDateOnlyLayout]]>
                (<["start_date" := [Format startDate timeDateOnlyLayout]]> ∅))))
    None.

(** [t'] is the instant [t], shown in the zone [loc]. *)
Definition sameInstantIn (loc : Location) (t t' : Time) : Prop :=
  unixNano t' = unixNano t /\ location t' = loc.

(** [q] is the period [p] with its four times shown in the zone [loc]. *)
Definition localized (loc : Location) (p q : PersonioPeriod) : Prop :=
  sameInstantIn loc (PP_Start p) (PP_Start q)
  /\ sameInstantIn loc (PP_End p) (PP_End q)
  /\ sameInstantIn loc (PP_CreatedAt p) (PP_CreatedAt q)
  /\ sameInstantIn loc (PP_UpdatedAt p) (PP_UpdatedAt q)
  /\ PP_ID q = PP_ID p /\ PP_Type q = PP_Type p
  /\ PP_LegacyBreakMin q = PP_LegacyBreakMin p
  /\ PP_Comment q = PP_Comment p /\ PP_PeriodType q = PP_PeriodType p
  /\ PP_EmployeeID q = PP_EmployeeID p /\ PP_CreatedBy q = PP_CreatedBy p
  /\ PP_AttendanceDayID q = PP_AttendanceDayID p.

(** The text of a civil date, as the layout 2006-01-02 writes it. *)
Definition dateText (year month day : Z) : string :=
  appendInt year 4 +:+ "-" +:+ appendInt month 2 +:+ "-" +:+ appendInt day 2.

(** The calendar query for the whole month of a date: from the first day of
    the month to its last. *)
Definition monthQuery (c : Client) (date : Time) : Request :=
  {| Method := "GET";
     URL := "/svc/attendance-bff/attendance-calendar/" +:+ itoa (EmployeeID c)
            +:+ "?end_date="
            +:+ dateText (Year date) (Month date)
                         (Civil.daysIn (Year date) (Month date))
            +:+ "&start_date=" +:+ dateText (Year date) (Month date) 1;
     Body := None |}.

(** The two ways to resolve a date through the day-ID cache, with what they
    return read as an optional identifier. *)
Inductive Lookup := ByGetDayUUID | ByGetOrNewDayUUID.

Definition resolve (how : Lookup) (date : Time) : M (option UUID) :=
  match how with
  | ByGetDayUUID => GetDayUUID date
  | ByGetOrNewDayUUID => let* id := GetOrNewDayUUID date in ret (Some id)
  end.

(** A relation between the client before and after a call, whatever
    becomes of the world. *)
Definition onClient (R : Client -> Client -> Prop)
    (c : Client) (w : World) (c' : Client) (w' : World) : Prop := R c c'.

(** The calls that read or write the day-ID cache. *)
Definition usesDayCache (call : Call) : bool :=
  match call with
  | CallGetDayUUID _ | CallGetOrNewDayUUID _ | CallSetAttendance _ _ => true
  | _ => false
  end.

(** Two clients with the same session: they may differ in the cache only. *)
Definition sameSession (c c' : Client) : Prop :=
  authenticationState c' = authenticationState c
  /\ sessionCookie c' = sessionCookie c
  /\ EmployeeID c' = EmployeeID c.

(** What a lookup through the day-ID cache may do, case by case: the events
    it adds and the requests among them, what it returns, and what it leaves
    in the cache. *)
Definition lookupCourse {A} (date : Time) (c : Client) (w : World)
    (r : outcome A) (c1 : Client) (w1 : World) : Prop :=
  exists n evs,
    w1 = advance n evs w
    /\ sameSession c c1
    /\ (forall k, is_Some (dayIDCache c !! k) -> is_Some (dayIDCache c1 !! k))
    /\ match dayIDCache c !! Format date DateOnly with
       | Some _ => requests evs = [] /\ exists v, r = Ok v
       | None =>
           match authenticationState c with
           | LoggedIn =>
               requests evs = [monthQuery c date]
               /\ ((exists e, r = Err e) /\ c1 = c
                   \/ (exists v, r = Ok v)
                      /\ forall d, sameMonth date d = true ->
                                   is_Some (dayIDCache c1 !! Format d DateOnly))
           | _ => requests evs = [] /\ c1 = c /\ exists e, r = Err e
           end
       end.

Definition isLogin (call : Call) : bool :=
  match call with CallLogin _ => true | _ => false end.

(** Reading back what [appendInt] writes: the value of a run of digits
    after the value [acc] of the digits before it, and a signed number. *)
Fixpoint digitsValue (acc : Z) (s : string) : Z :=
  match s with
  | EmptyString => acc
  | String c rest =>
      digitsValue (acc * 10 + (Z.of_nat (nat_of_ascii c) - 48)) rest
  end.

Definition readInt (s : string) : Z :=
  match s with
  | EmptyString => 0
  | String c rest =>
      if Ascii.eqb c "-" then - digitsValue 0 rest else digitsValue 0 s
  end.

(** The errors of a request that went out: the transport failed, or the
    answer was no success or could not be decoded. *)
Definition isRemoteError (e : error) : bool :=
  match e with
  | ErrTransport _ | ErrStatus _ | ErrDecode => true
  | _ => false
  end.

(** Text that [QueryEscape] has nothing to do on. *)
Definition plain (s : string) : bool :=
  forallb (fun c => negb (shouldEscape c)) (list_ascii_of_string s).

(** A year that [Time.MarshalJSON] takes. *)
Definition marshalable (t : Time) : bool :=
  (0 <=? Year t) && (Year t <? 10000).

End Personio.

(** ** Helpers: [pkg/util] *)

Module Util.

(** The pairs of a [strings.Replacer], old string and new, in argument
    order. *)
Definition Replacer := list (string * string).

Definition camelCaseReplacer : Replacer :=
  [("ID", "Id"); ("URL", "Url"); ("HTTP", "Http"); ("JSON", "Json");
   ("JQ", "Jq"); ("YAML", "Yaml"); ("YQ", "Yq"); ("GitHub", "Github");
   ("PR", "Pr"); ("API", "Api"); ("PEM", "Pem"); ("DER", "Pem");
   ("RSA", "Rsa")].

(** The pair a replacer applies where the text left is [s]: the first, in
    argument order, whose old string [s] starts with. *)
Definition Replacer_lookup (r : Replacer) (s : string) : option (string * string) :=
  List.find (fun p => String.prefix (fst p) s) r.

(** [r.Replace(s)] for a replacer none of whose old strings is empty: the
    text is read from left to right; where an old string starts, its new
    string is written and the old one skipped; otherwise one byte is copied.
    [skip] counts the bytes of an old string still to be skipped. *)
Fixpoint Replacer_from (r : Replacer) (skip : nat) (s : string) : string :=
  match s with
  | EmptyString => EmptyString
  | String b rest =>
      match skip with
      | S k => Replacer_from r k rest
      | O =>
          match Replacer_lookup r s with
          | Some (old, new) =>
              new +:+ Replacer_from r (String.length old - 1) rest
          | None => String b (Replacer_from r 0 rest)
          end
      end
  end.

Definition Replacer_Replace (r : Replacer) (s : string) : string :=
  Replacer_from r 0 s.

(** [byte(unicode.ToLower(rune(b)))]: the byte is read as the code point of
    the same number, so that the capital letters of Latin-1 are lowered as
    well as those of ASCII. *)
Definition toLowerByte (b : ascii) : ascii :=
  let n := nat_of_ascii b in
  if ((65 <=? n) && (n <=? 90) || (192 <=? n) && (n <=? 214)
      || (216 <=? n) && (n <=? 222))%nat
  then ascii_of_nat (n + 32)
  else b.

(** [ToCamelCase]; [None] is the panic of [b[0]] on an empty slice. *)
Definition ToCamelCase (s : string) : option string :=
  if (String.length s =? 0)%nat then Some s
  else
    match Replacer_Replace camelCaseReplacer s with
    | String b rest => Some (String (toLowerByte b) rest)
    | EmptyString => None
    end.

(** A capital letter of ASCII. *)
Definition isUpperASCII (b : ascii) : bool :=
  ((65 <=? nat_of_ascii b) && (nat_of_ascii b <=? 90))%nat.

(** A byte that lowering changes. *)
Definition isCapital (b : ascii) : bool := negb (Ascii.eqb (toLowerByte b) b).

End Util.

(** ** The output format: [pkg/config] *)

Module Config.

Definition OutFormat := string.

Definition OutFormatPretty : OutFormat := "pretty".
Definition OutFormatJSON : OutFormat := "json".
Definition OutFormatYAML : OutFormat := "yaml".

Definition OutFormat_String (f : OutFormat) : string := f.

(** ["unknown output format: %q, must be one of: pretty, json, yaml"] *)
Inductive SetError := UnknownOutputFormat (value : string).

(** [f.Set(value)]: the value [*f] has afterwards, and the error if any. *)
Definition OutFormat_Set (f : OutFormat) (value : string)
  : OutFormat * option SetError :=
  if String.eqb value OutFormatPretty then (OutFormatPretty, None)
  else if String.eqb value OutFormatJSON then (OutFormatJSON, None)
  else if String.eqb value OutFormatYAML then (OutFormatYAML, None)
  else (f, Some (UnknownOutputFormat value)).

Definition OutFormat_Type (f : OutFormat) : string := "out-format".

Definition OutFormat_UnmarshalText (f : OutFormat) (text : string)
  : OutFormat * option SetError :=
  OutFormat_Set f text.

Record Schema := {
  Schema_Type : string;
  Schema_Title : string;
  Schema_Enum : list OutFormat
}.

Definition OutFormat_JSONSchema : Schema :=
  {| Schema_Type := "string";
     Schema_Title := "Output format";
     Schema_Enum := [OutFormatPretty; OutFormatJSON; OutFormatYAML] |}.

End Config.

(** ** Concrete clients, servers and instants *)

Module Fixtures.
Import GoTime Personio.

Definition loggedIn : Client :=
  {| authenticationState := LoggedIn; sessionCookie := "personio_session";
     EmployeeID := 991824; dayIDCache := ∅ |}.

Definition loggedOut : Client :=
  {| authenticationState := LoggedOut; sessionCookie := "";
     EmployeeID := 0; dayIDCache := ∅ |}.

Definition day20 : CalendarDay :=
  {| CalendarDay_ID := 0xd5bb4b32c4994f79a53493481505bd60;
     Attributes := {| BreakMin := 0; DurationMin := 480; Status := "empty";
                      Day := "2023-01-20" |} |}.

(** A server that answers every request with the January calendar. *)
Definition calendarServer (history : list Event) (req : Request) : exchange :=
  Replied {| StatusCode := 200;
             Payload := PayloadCalendar {| AttendanceDays := [day20] |} |}.

(** A server that answers every request with 503 Service Unavailable. *)
Definition unavailableServer (history : list Event) (req : Request) : exchange :=
  Replied {| StatusCode := 503; Payload := PayloadMalformed |}.

(** A server that serves the calendar and refuses every write with 500. *)
Definition readOnlyServer (history : list Event) (req : Request) : exchange :=
  if String.eqb (Method req) "GET" then calendarServer history req
  else Replied {| StatusCode := 500; Payload := PayloadMalformed |}.

(** A server whose login page asks for the new-device tokens, and sets a
    session cookie all the same. *)
Definition challengingServer (history : list Event) (req : Request) : exchange :=
  Replied {| StatusCode := 200;
             Payload := PayloadLogin
                          {| newDeviceChallenge := Some "csrf-5f2a";
                             replyCookie := Some "personio_session";
                             replyEmployeeID := Some 991824 |} |}.

Definition worldOf (server : list Event -> Request -> exchange) : World :=
  {| transport := server; entropy := fun n => 2 ^ 100 + Z.of_nat n;
     localZone := FixedZone 3600; drawn := 0; trace := [] |}.

Definition credentials : Credentials :=
  {| email := "firstname.lastname@example.com"; password := "SuperSecretPassword1234";
     csrfToken := None; emailToken := None |}.

(** 2023-01-18T13:00:00.750Z and 2023-01-18T17:00:00Z *)
Definition jan18_1300 : Time := time_Date 2023 1 18 13 0 0 750000000 UTCLoc.
Definition jan18_1700 : Time := time_Date 2023 1 18 17 0 0 0 UTCLoc.

(** 2023-01-19T09:00:00+01:00 *)
Definition jan19_0900_cet : Time := time_Date 2023 1 19 9 0 0 0 (FixedZone 3600).

(** 2023-01-18T13:00:00+01:00 and 2023-01-18T17:00:00+01:00 *)
Definition jan18_1300_cet : Time := time_Date 2023 1 18 13 0 0 0 (FixedZone 3600).
Definition jan18_1700_cet : Time := time_Date 2023 1 18 17 0 0 0 (FixedZone 3600).

Definition untypedPeriod : Period :=
  {| ID := uuid_Nil; Period_PeriodType := ""; Comment := None; ProjectID := None;
     Start := jan18_1300; End_ := jan18_1700; LegacyBreakMin := 0 |}.

Definition breakPeriod : Period :=
  {| ID := 0x46365bc8482a41b28d3668491140edd9; Period_PeriodType := PeriodTypeBreak;
     Comment := Some "lunch"; ProjectID := None;
     Start := jan18_1300_cet; End_ := jan18_1700_cet; LegacyBreakMin := 0 |}.

(** The identifiers the random source of [worldOf] yields first and
    second. *)
Definition firstID : UUID := uuid_fromRandom (2 ^ 100).
Definition secondID : UUID := uuid_fromRandom (2 ^ 100 + 1).

(** The write of [untypedPeriod] and [breakPeriod] for 2023-01-18, on a
    client that had to make up the identifiers of the first period and of
    the day. *)
Definition jan18Write : Request :=
  NewRequest "PUT" "/api/v1/attendances/days/00000010-0000-4000-8000-000000000001"
    (Some (attendanceJSON 991824
       [JObject [("id", JString "00000010-0000-4000-8000-000000000000");
                 ("period_type", JString "work");
                 ("comment", JNull);
                 ("project_id", JNull);
                 ("start", JString "2023-01-18T13:00:00Z");
                 ("end", JString "2023-01-18T17:00:00Z");
                 ("legacy_break_min", JNumber 0)];
        JObject [("id", JString "46365bc8-482a-41b2-8d36-68491140edd9");
                 ("period_type", JString "break");
                 ("comment", JString "lunch");
                 ("project_id", JNull);
                 ("start", JString "2023-01-18T12:00:00Z");
                 ("end", JString "2023-01-18T16:00:00Z");
                 ("legacy_break_min", JNumber 0)]])).

(** The working-time record [SetWorkingTimes] sends for 13:00 to 17:00 at
    +01:00. *)
Definition jan18WorkingTimes : Request :=
  NewRequest "POST" "/api/v1/attendances/periods"
    (Some (JArray
       [JObject [("id", JString "00000010-0000-4000-8000-000000000000");
                 ("employee_id", JNumber 991824);
                 ("start", JString "2023-01-18T13:00:00Z");
                 ("end", JString "2023-01-18T17:00:00Z");
                 ("activity_id", JNull);
                 ("comment", JString "");
                 ("project_id", JNull)]])).

(** The last day of January and a day of February, and a server that has
    no day in the calendar of January, names 2023-01-31 in the calendar of
    February and refuses every write with 500. *)
Definition jan31_0900 : Time := time_Date 2023 1 31 9 0 0 0 UTCLoc.
Definition feb10_0900 : Time := time_Date 2023 2 10 9 0 0 0 UTCLoc.

Definition day31 : CalendarDay :=
  {| CalendarDay_ID := 0x0a1b2c3d4e5f40718293a4b5c6d7e8f9;
     Attributes := {| BreakMin := 0; DurationMin := 0; Status := "empty";
                      Day := "2023-01-31" |} |}.

Definition relistingServer (history : list Event) (req : Request) : exchange :=
  if String.eqb (Method req) "GET" then
    if String.eqb (URL req)
         "/svc/attendance-bff/attendance-calendar/991824?end_date=2023-02-28&start_date=2023-02-01"
    then Replied {| StatusCode := 200;
                    Payload := PayloadCalendar {| AttendanceDays := [day31] |} |}
    else Replied {| StatusCode := 200;
                    Payload := PayloadCalendar {| AttendanceDays := [] |} |}
  else Replied {| StatusCode := 500; Payload := PayloadMalformed |}.

(** A period as the server stores it, with its times in UTC, and a server
    that answers every request with it. *)
Definition storedPeriod : PersonioPeriod :=
  {| PP_ID := "8f2b1c1e-5d3a-4b8e-9a51-0c2d3e4f5a6b"; PP_Type := "attendance-period";
     PP_Start := jan18_1300; PP_End := jan18_1700;
     PP_LegacyBreakMin := 0; PP_Comment := ""; PP_PeriodType := "work";
     PP_CreatedAt := jan18_1700; PP_UpdatedAt := jan18_1700;
     PP_EmployeeID := 991824; PP_CreatedBy := 991824;
     PP_AttendanceDayID := "d5bb4b32-c499-4f79-a534-93481505bd60" |}.

Definition periodsServer (history : list Event) (req : Request) : exchange :=
  Replied {| StatusCode := 200; Payload := PayloadPeriods [storedPeriod] |}.

End Fixtures.
(** * Facts *)

Lemma all_from_spec (n : nat) (z : Z) (f : Z -> bool) :
  all_from n z f = true -> forall x, z <= x < z + Z.of_nat n -> f x = true.
Proof.
  revert z. induction n as [|k IH]; intros z Hall x Hx; [lia|].
  simpl in Hall. destruct (f z) eqn:Hz; [|discriminate].
  destruct (Z.eq_dec x z) as [->|Hne]; [exact Hz|].
  apply (IH (z + 1)); [exact Hall|lia].
Qed.

Lemma all_below_spec (n : Z) (f : Z -> bool) :
  all_below n f = true -> forall x, 0 <= x < n -> f x = true.
Proof.
  intros Hall x Hx. apply (all_from_spec _ _ _ Hall). lia.
Qed.

(** ** The calendar *)

Module CivilFacts.
Import Civil.

(** *** One era: its years by their ends, the days of a year one by one *)

Lemma check_year_era : all_below 400 check_year = true.
Proof. vm_compute. reflexivity. Qed.

Lemma check_doy_year : all_below 366 check_doy = true.
Proof. vm_compute. reflexivity. Qed.

Lemma yoe_of_step (a : Z) : 0 <= a < 146096 -> yoe_of a <= yoe_of (a + 1).
Proof.
  intros Ha. unfold yoe_of. apply Z.div_le_mono; [lia|].
  Z.div_mod_to_equations. lia.
Qed.

Lemma yoe_of_mono (a b : Z) : 0 <= a <= b -> b <= 146096 -> yoe_of a <= yoe_of b.
Proof.
  intros Hab Hb. replace b with (a + Z.of_nat (Z.to_nat (b - a))) in * by lia.
  induction (Z.to_nat (b - a)) as [|n IH]; [rewrite Z.add_0_r; lia|].
  etransitivity; [apply IH; lia|].
  replace (a + Z.of_nat (S n)) with (a + Z.of_nat n + 1) by lia.
  apply yoe_of_step. lia.
Qed.

Lemma yearStart_next (yoe : Z) :
  0 <= yoe < 399 -> yearStart (yoe + 1) = yearEnd yoe + 1.
Proof.
  intros Hy. unfold yearEnd.
  destruct (yoe =? 399) eqn:E; [apply Z.eqb_eq in E; lia|]. lia.
Qed.

(** Every day of the era lies in one of its years. *)
Lemma year_cover (n : nat) (doe : Z) :
  (n < 400)%nat -> 0 <= doe <= yearEnd (Z.of_nat n) ->
  exists yoe, 0 <= yoe <= Z.of_nat n /\ yearStart yoe <= doe <= yearEnd yoe.
Proof.
  induction n as [|n IH]; intros Hn Hdoe.
  - exists 0. split; [lia|]. split; [|exact (proj2 Hdoe)].
    change (yearStart 0) with 0. lia.
  - destruct (Z_le_gt_dec doe (yearEnd (Z.of_nat n))) as [Hle|Hgt].
    + destruct (IH ltac:(lia) ltac:(lia)) as (yoe & Hy & Hin).
      exists yoe. split; [lia|exact Hin].
    + exists (Z.of_nat (S n)). split; [lia|]. split; [|lia].
      replace (Z.of_nat (S n)) with (Z.of_nat n + 1) by lia.
      rewrite yearStart_next by lia. lia.
Qed.

Lemma yoe_of_year (doe : Z) :
  0 <= doe < 146097 ->
  0 <= yoe_of doe < 400
  /\ 0 <= doe - yearStart (yoe_of doe)
     <= (if isLeap (yoe_of doe + 1) then 365 else 364).
Proof.
  intros Hdoe.
  destruct (year_cover 399 doe ltac:(lia) ltac:(change (yearEnd (Z.of_nat 399)) with 146096; lia))
    as (yoe & Hy & Hin).
  assert (Hy' : 0 <= yoe < 400) by lia.
  pose proof (all_below_spec _ _ check_year_era _ Hy') as Hchk.
  unfold check_year in Hchk.
  apply andb_prop in Hchk as [Hchk Hlen]. apply andb_prop in Hchk as [Hs He].
  apply Z.eqb_eq in Hs, He, Hlen.
  assert (Hend : yearEnd yoe <= 146096).
  { unfold yearEnd. destruct (yoe =? 399) eqn:E; [lia|].
    apply Z.eqb_neq in E. unfold yearStart. Z.div_mod_to_equations. lia. }
  assert (Hstart : 0 <= yearStart yoe).
  { unfold yearStart. Z.div_mod_to_equations. lia. }
  assert (Heq : yoe_of doe = yoe).
  { pose proof (yoe_of_mono (yearStart yoe) doe ltac:(lia) ltac:(lia)).
    pose proof (yoe_of_mono doe (yearEnd yoe) ltac:(lia) ltac:(lia)). lia. }
  rewrite Heq. split; [lia|]. lia.
Qed.

Lemma check_doe_all (doe : Z) : 0 <= doe < 146097 -> check_doe doe = true.
Proof.
  intros Hdoe. destruct (yoe_of_year doe Hdoe) as (Hyoe & Hdoy).
  unfold check_doe, civil_of_doe.
  set (yoe := yoe_of doe) in *. set (doy := doe - yearStart yoe) in *.
  assert (Hdoy' : 0 <= doy < 366) by (destruct (isLeap (yoe + 1)); lia).
  pose proof (all_below_spec _ _ check_doy_year _ Hdoy') as Hchk.
  unfold check_doy in Hchk. unfold civil_of_doy in *.
  set (mp := (5 * doy + 2) / 153) in *.
  set (d := doy - (153 * mp + 2) / 5 + 1) in *.
  set (m := if mp <? 10 then mp + 3 else mp - 9) in *.
  repeat (apply andb_prop in Hchk; destruct Hchk as [Hchk ?]).
  apply Z.leb_le in Hchk. 
  repeat match goal with H : (_ <=? _) = true |- _ => apply Z.leb_le in H end.
  match goal with H : (_ =? doy) = true |- _ => apply Z.eqb_eq in H; rename H into Hround end.
  assert (Hyear : (if m <=? 2 then (if m <=? 2 then yoe + 1 else yoe) - 1
                   else (if m <=? 2 then yoe + 1 else yoe)) = yoe)
    by (destruct (m <=? 2); lia).
  rewrite Hyear.
  assert (Hdays : d <= daysIn (if m <=? 2 then yoe + 1 else yoe) m).
  { destruct (m =? 2) eqn:Em.
    - apply Z.eqb_eq in Em. rewrite Em. change (2 <=? 2) with true. cbv iota.
      unfold daysIn. change (2 =? 2) with true. cbv iota.
      match goal with H : (d =? _) = true |- _ => apply Z.eqb_eq in H end.
      destruct (isLeap (yoe + 1)); lia.
    - match goal with H : (d <=? _) = true |- _ => apply Z.leb_le in H; rename H into Hd end.
      unfold daysIn in *. rewrite Em in *. exact Hd. }
  repeat (apply andb_true_intro; split);
    try (apply Z.leb_le; lia); try (apply Z.ltb_lt; lia).
  apply Z.eqb_eq. unfold doe_of_civil. lia.
Qed.

(** *** The months in sequence, checked for one era *)

Lemma check_month_end_era : all_below 4800 check_month_end = true.
Proof. vm_compute. reflexivity. Qed.

(** *** Periodicity: shifting by 400 years shifts by one era *)

Lemma isLeap_period (y e : Z) : isLeap (y + e * 400) = isLeap y.
Proof.
  unfold isLeap.
  replace (y + e * 400) with (y + (e * 100) * 4) at 1 by lia.
  replace (y + e * 400) with (y + (e * 4) * 100) at 1 by lia.
  rewrite !Z.mod_add by lia. reflexivity.
Qed.

Lemma daysIn_period (y e m : Z) : daysIn (y + e * 400) m = daysIn y m.
Proof. unfold daysIn. rewrite isLeap_period. reflexivity. Qed.

Lemma days_from_civil_period (y e m d : Z) :
  days_from_civil (y + e * 400) m d = days_from_civil y m d + e * 146097.
Proof.
  unfold days_from_civil.
  destruct (m <=? 2).
  - replace (y + e * 400 - 1) with (y - 1 + e * 400) by lia.
    rewrite Z.div_add, Z.mod_add by lia. lia.
  - rewrite Z.div_add, Z.mod_add by lia. lia.
Qed.

Lemma days_from_civil_day (y m d k : Z) :
  days_from_civil y m (d + k) = days_from_civil y m d + k.
Proof. unfold days_from_civil, doe_of_civil, yearStart. lia. Qed.

(** *** Round trip and ranges, for every day *)

Lemma civil_from_days_spec (z y m d : Z) :
  civil_from_days z = (y, m, d) ->
  1 <= m <= 12 /\ 1 <= d <= daysIn y m /\ days_from_civil y m d = z.
Proof.
  unfold civil_from_days.
  set (z' := z + 719468).
  assert (Hdoe : 0 <= z' mod 146097 < 146097) by (apply Z.mod_pos_bound; lia).
  pose proof (check_doe_all _ Hdoe) as Hchk.
  unfold check_doe in Hchk.
  destruct (civil_of_doe (z' mod 146097)) as [[y0 m0] d0].
  intros [= <- <- <-].
  repeat (apply andb_prop in Hchk; destruct Hchk as [Hchk ?]).
  rewrite daysIn_period.
  repeat split; try lia.
  rewrite days_from_civil_period. unfold days_from_civil.
  set (yoe := if m0 <=? 2 then y0 - 1 else y0) in *.
  rewrite Z.div_small, Z.mod_small by lia.
  pose proof (Z.div_mod z' 146097 ltac:(lia)). lia.
Qed.

Lemma month_end (y m : Z) :
  1 <= m <= 12 ->
  days_from_civil y m (daysIn y m) + 1 =
  days_from_civil (fst (nextMonth y m)) (snd (nextMonth y m)) 1.
Proof.
  intros Hm.
  set (y0 := y mod 400). set (e := y / 400).
  assert (Hy : y = y0 + e * 400) by (pose proof (Z.div_mod y 400 ltac:(lia)); lia).
  assert (Hy0 : 0 <= y0 < 400) by (apply Z.mod_pos_bound; lia).
  assert (Hrange : 0 <= y0 * 12 + (m - 1) < 4800) by lia.
  pose proof (all_below_spec _ _ check_month_end_era _ Hrange) as Hchk.
  unfold check_month_end in Hchk.
  replace ((y0 * 12 + (m - 1)) / 12) with y0 in Hchk
    by (apply Z.div_unique with (r := m - 1); lia).
  replace ((y0 * 12 + (m - 1)) mod 12 + 1) with m in Hchk
    by (rewrite (Z.add_comm (y0 * 12)), Z.mod_add, Z.mod_small by lia; lia).
  rewrite Hy, daysIn_period, days_from_civil_period.
  unfold nextMonth in *. destruct (m =? 12); simpl in *.
  - replace (y0 + e * 400 + 1) with (y0 + 1 + e * 400) by lia.
    rewrite days_from_civil_period. lia.
  - rewrite days_from_civil_period. lia.
Qed.

(** *** Months follow one another without gap or overlap *)

Lemma daysIn_pos (y m : Z) : 28 <= daysIn y m <= 31.
Proof.
  unfold daysIn.
  destruct (m =? 2); [destruct (isLeap y); lia|].
  destruct ((m =? 4) || (m =? 6) || (m =? 9) || (m =? 11)); lia.
Qed.

Lemma monthIndex_split (y m : Z) :
  1 <= m <= 12 -> (y * 12 + (m - 1)) / 12 = y /\ (y * 12 + (m - 1)) mod 12 + 1 = m.
Proof.
  intros Hm. split.
  - symmetry. apply Z.div_unique with (r := m - 1); lia.
  - rewrite (Z.add_comm (y * 12)), Z.mod_add, Z.mod_small by lia. lia.
Qed.

Lemma monthStart_succ (i : Z) : monthStart (i + 1) = monthStart i + monthLength i.
Proof.
  unfold monthStart, monthLength.
  set (y := i / 12). set (m := i mod 12 + 1).
  assert (Hm : 1 <= m <= 12) by (pose proof (Z.mod_pos_bound i 12); lia).
  assert (Hi : i = y * 12 + (m - 1))
    by (pose proof (Z.div_mod i 12 ltac:(lia)); lia).
  pose proof (month_end y m Hm) as Hend.
  rewrite <- (Z.add_0_r (daysIn y m)) in Hend at 1.
  replace (daysIn y m + 0) with (1 + (daysIn y m - 1)) in Hend by lia.
  rewrite days_from_civil_day in Hend.
  unfold nextMonth in Hend.
  destruct (m =? 12) eqn:H12; simpl in Hend.
  - apply Z.eqb_eq in H12.
    replace (i + 1) with ((y + 1) * 12 + (1 - 1)) by lia.
    destruct (monthIndex_split (y + 1) 1 ltac:(lia)) as [-> ->]. lia.
  - apply Z.eqb_neq in H12.
    replace (i + 1) with (y * 12 + (m + 1 - 1)) by lia.
    destruct (monthIndex_split y (m + 1) ltac:(lia)) as [-> ->]. lia.
Qed.

Lemma monthStart_mono (n : nat) (i : Z) :
  monthStart i + monthLength i <= monthStart (i + 1 + Z.of_nat n).
Proof.
  induction n as [|n IH].
  - rewrite Z.add_0_r, monthStart_succ. lia.
  - replace (i + 1 + Z.of_nat (S n)) with (i + 1 + Z.of_nat n + 1) by lia.
    rewrite monthStart_succ.
    pose proof (daysIn_pos ((i + 1 + Z.of_nat n) / 12)
                           ((i + 1 + Z.of_nat n) mod 12 + 1)).
    unfold monthLength at 2. lia.
Qed.

Lemma monthStart_lt (i j : Z) : i < j -> monthStart i + monthLength i <= monthStart j.
Proof.
  intros Hij. replace j with (i + 1 + Z.of_nat (Z.to_nat (j - i - 1))) by lia.
  apply monthStart_mono.
Qed.

(** A valid date is found again from its day number. *)
Lemma civil_from_days_of_civil (y m d : Z) :
  1 <= m <= 12 -> 1 <= d <= daysIn y m ->
  civil_from_days (days_from_civil y m d) = (y, m, d).
Proof.
  intros Hm Hd.
  destruct (civil_from_days (days_from_civil y m d)) as [[y1 m1] d1] eqn:Hc.
  apply civil_from_days_spec in Hc. destruct Hc as (Hm1 & Hd1 & Heq).
  set (i := y * 12 + (m - 1)). set (i1 := y1 * 12 + (m1 - 1)).
  assert (Hs : days_from_civil y m d = monthStart i + (d - 1)).
  { unfold monthStart, i. destruct (monthIndex_split y m Hm) as [-> ->].
    rewrite <- days_from_civil_day. f_equal. lia. }
  assert (Hs1 : days_from_civil y1 m1 d1 = monthStart i1 + (d1 - 1)).
  { unfold monthStart, i1. destruct (monthIndex_split y1 m1 Hm1) as [-> ->].
    rewrite <- days_from_civil_day. f_equal. lia. }
  assert (Hl : monthLength i = daysIn y m).
  { unfold monthLength, i. destruct (monthIndex_split y m Hm) as [-> ->]. reflexivity. }
  assert (Hl1 : monthLength i1 = daysIn y1 m1).
  { unfold monthLength, i1. destruct (monthIndex_split y1 m1 Hm1) as [-> ->]. reflexivity. }
  assert (Hi : i = i1).
  { destruct (Z.lt_trichotomy i i1) as [Hlt|[Heqi|Hgt]]; [|exact Heqi|].
    - pose proof (monthStart_lt i i1 Hlt). lia.
    - pose proof (monthStart_lt i1 i ltac:(lia)). lia. }
  assert (y1 = y /\ m1 = m) as [-> ->] by (unfold i, i1 in Hi; lia).
  subst i i1. f_equal. lia.
Qed.

End CivilFacts.

(** ** The client's operations *)

Import GoTime Personio.

(** *** The login check *)

Lemma assertLoggedIn_refuses (c : Client) (w : World) :
  authenticationState c <> LoggedIn ->
  assertLoggedIn c w = (Err ErrNotLoggedIn, c, w).
Proof.
  intros Hst. unfold assertLoggedIn.
  destruct (authenticationState c); [reflexivity|reflexivity|congruence].
Qed.

Lemma assertLoggedIn_passes (c : Client) (w : World) :
  authenticationState c = LoggedIn -> assertLoggedIn c w = (Ok tt, c, w).
Proof. intros Hst. unfold assertLoggedIn. rewrite Hst. reflexivity. Qed.

Lemma loggedIn_dec (c : Client) :
  {authenticationState c = LoggedIn} + {authenticationState c <> LoggedIn}.
Proof. destruct (authenticationState c); [right|right|left]; congruence. Qed.

(** A call that starts with the login check stops there when the check
    fails. *)
Lemma login_check_refuses {A} (k : unit -> M A) (c : Client) (w : World) :
  authenticationState c <> LoggedIn ->
  bind assertLoggedIn k c w = (Err ErrNotLoggedIn, c, w).
Proof.
  intros Hst. unfold bind. rewrite (assertLoggedIn_refuses c w Hst). reflexivity.
Qed.

Lemma login_check_passes {A} (k : unit -> M A) (c : Client) (w : World) :
  authenticationState c = LoggedIn ->
  bind assertLoggedIn k c w = k tt c w.
Proof.
  intros Hst. unfold bind. rewrite (assertLoggedIn_passes c w Hst). reflexivity.
Qed.

(** C5. Every operation that needs authentication checks the session first:
    on a session that is not logged in, both revisions of
    GetAttendanceCalendar, GetWorkingTimes, SetAttendance and SetWorkingTimes
    return the NotLoggedIn error and leave client and world as they were,
    so that no request is sent, no identifier drawn and nothing logged. *)
Theorem not_logged_in_fails_fast (c : Client) (w : World) :
  authenticationState c <> LoggedIn ->
  (forall employeeID startDate endDate,
      GetAttendanceCalendar employeeID startDate endDate c w
      = (Err ErrNotLoggedIn, c, w))
  /\ (forall employeeID startDate endDate,
      Legacy.GetAttendanceCalendar employeeID startDate endDate c w
      = (Err ErrNotLoggedIn, c, w))
  /\ (forall from to, GetWorkingTimes from to c w = (Err ErrNotLoggedIn, c, w))
  /\ (forall date periods, SetAttendance date periods c w = (Err ErrNotLoggedIn, c, w))
  /\ (forall from to, SetWorkingTimes from to c w = (Err ErrNotLoggedIn, c, w)).
Proof.
  intros Hst. repeat split; intros.
  - unfold GetAttendanceCalendar. apply login_check_refuses, Hst.
  - unfold Legacy.GetAttendanceCalendar, Legacy.GetAttendanceCalendarFrom.
    apply login_check_refuses, Hst.
  - unfold GetWorkingTimes. apply login_check_refuses, Hst.
  - unfold SetAttendance. apply login_check_refuses, Hst.
  - unfold SetWorkingTimes. apply login_check_refuses, Hst.
Qed.

Lemma not_logged_in_fails_fast_witness :
  authenticationState Fixtures.loggedOut <> LoggedIn
  /\ SetAttendance Fixtures.jan18_1300 [Fixtures.untypedPeriod] Fixtures.loggedOut
                   (Fixtures.worldOf Fixtures.calendarServer)
     = (Err ErrNotLoggedIn, Fixtures.loggedOut,
        Fixtures.worldOf Fixtures.calendarServer).
Proof.
  assert (Hst : authenticationState Fixtures.loggedOut <> LoggedIn)
    by discriminate.
  split; [exact Hst|].
  destruct (not_logged_in_fails_fast Fixtures.loggedOut
              (Fixtures.worldOf Fixtures.calendarServer) Hst)
    as (_ & _ & _ & Hset & _).
  apply Hset.
Defined.

(** *** The older calendar query *)

(** C10. In the older revision the query values are a nil map, so for a
    logged-in client every call of GetAttendanceCalendar panics at the first
    Set, before a request is built or sent: client and world are untouched
    and neither a calendar nor an error comes back. *)
Theorem legacy_calendar_panics (c : Client) (w : World)
    (employeeID : Z) (startDate endDate : Time) :
  authenticationState c = LoggedIn ->
  Legacy.GetAttendanceCalendar employeeID startDate endDate c w
  = (Panic "assignment to entry in nil map", c, w).
Proof.
  intros Hst. unfold Legacy.GetAttendanceCalendar, Legacy.GetAttendanceCalendarFrom.
  rewrite login_check_passes by exact Hst. reflexivity.
Qed.

Lemma legacy_calendar_panics_witness :
  authenticationState Fixtures.loggedIn = LoggedIn
  /\ Legacy.GetAttendanceCalendar 991824 Fixtures.jan18_1300 Fixtures.jan18_1700
       Fixtures.loggedIn (Fixtures.worldOf Fixtures.calendarServer)
     = (Panic "assignment to entry in nil map", Fixtures.loggedIn,
        Fixtures.worldOf Fixtures.calendarServer).
Proof.
  split; [reflexivity|].
  apply (legacy_calendar_panics Fixtures.loggedIn
           (Fixtures.worldOf Fixtures.calendarServer) 991824
           Fixtures.jan18_1300 Fixtures.jan18_1700 eq_refl).
Defined.

Lemma apply_calendarQuery (a b : string) :
  Values_apply Values_Set Values_empty [("start_date", a); ("end_date", b)]
  = Ok (Some (<["end_date" := [b]]> (<["start_date" := [a]]> ∅))).
Proof. reflexivity. Qed.

(** ** Time *)

Module GoTimeFacts.
Import Civil CivilFacts.

Lemma Second_pos : 0 < Second.
Proof. reflexivity. Qed.

Lemma Add_Add (t : Time) (a b : Duration) : Add (Add t a) b = Add t (a + b).
Proof. unfold Add. simpl. f_equal. lia. Qed.

Lemma Add_0 (t : Time) : Add t 0 = t.
Proof. destruct t. unfold Add. simpl. f_equal. lia. Qed.

(** Truncation to the second drops the fraction and nothing else. *)
Lemma Truncate_Second (t : Time) :
  unixNano (Truncate t Second) = unixNano t - unixNano t mod Second
  /\ location (Truncate t Second) = location t.
Proof.
  unfold Truncate. change (Second <=? 0) with false. cbv iota.
  unfold Add. simpl. split; [|reflexivity].
  rewrite Z.mod_add by (pose proof Second_pos; lia). lia.
Qed.

Lemma Truncate_Second_whole (t : Time) :
  Nanosecond_of (Truncate t Second) = 0
  /\ unixNano (Truncate t Second) <= unixNano t < unixNano (Truncate t Second) + Second.
Proof.
  destruct (Truncate_Second t) as [Hu _]. unfold Nanosecond_of. rewrite Hu.
  pose proof (Z.mod_pos_bound (unixNano t) Second Second_pos) as Hb.
  pose proof (Z.div_mod (unixNano t) Second ltac:(pose proof Second_pos; lia)) as Hd.
  split; [|lia].
  replace (unixNano t - unixNano t mod Second)
    with (0 + (unixNano t / Second) * Second) by lia.
  rewrite Z.mod_add by (pose proof Second_pos; lia). reflexivity.
Qed.

(** In UTC and on a whole second the RFC 3339 text has neither fraction nor
    offset: it is the wall clock followed by [Z]. *)
Lemma Format_whole_second_UTC (t : Time) :
  location t = UTCLoc -> Nanosecond_of t = 0 ->
  Format t RFC3339Nano = Format t layoutSecondsZ.
Proof.
  intros Hloc Hns. unfold Format, RFC3339Nano, layoutSecondsZ. simpl.
  unfold formatChunk. rewrite Hloc, Hns.
  destruct (Date t) as [[year month] day], (Clock t) as [[hour min] sec].
  reflexivity.
Qed.

(** The date-only text is read off the civil date. *)
Lemma Format_DateOnly_Date (t u : Time) :
  Date t = Date u -> Format t DateOnly = Format u DateOnly.
Proof.
  intros Heq. unfold Format, DateOnly. simpl. unfold formatChunk. rewrite Heq.
  destruct (Date u) as [[year month] day].
  destruct (Clock t) as [[? ?] ?], (Clock u) as [[? ?] ?]. reflexivity.
Qed.

Lemma abs_midnight_plus (z : Z) (loc : Location) (k : Z) :
  abs (Add (midnight z loc) (k * (24 * Hour))) = (z + k) * secondsPerDay.
Proof.
  unfold abs, Add, midnight. simpl.
  replace ((z * secondsPerDay - zoneOffset loc) * Second + k * (24 * Hour))
    with (((z + k) * secondsPerDay - zoneOffset loc) * Second)
    by (unfold secondsPerDay, Hour, Minute, Second, Nanosecond; lia).
  rewrite Z.div_mul by (pose proof Second_pos; lia). lia.
Qed.

Lemma Date_midnight_plus (z : Z) (loc : Location) (k : Z) :
  Date (Add (midnight z loc) (k * (24 * Hour))) = civil_from_days (z + k).
Proof.
  unfold Date. rewrite abs_midnight_plus.
  rewrite Z.div_mul by (unfold secondsPerDay; lia). reflexivity.
Qed.

Lemma abs_midnight (z : Z) (loc : Location) :
  abs (midnight z loc) = z * secondsPerDay.
Proof.
  pose proof (abs_midnight_plus z loc 0) as H.
  rewrite Z.mul_0_l, Add_0, Z.add_0_r in H. exact H.
Qed.

Lemma Clock_midnight (z : Z) (loc : Location) : Clock (midnight z loc) = (0, 0, 0).
Proof.
  unfold Clock. rewrite abs_midnight.
  rewrite Z.mod_mul by (unfold secondsPerDay; lia). reflexivity.
Qed.

Lemma Nanosecond_midnight (z : Z) (loc : Location) :
  Nanosecond_of (midnight z loc) = 0.
Proof.
  unfold Nanosecond_of, midnight. simpl.
  apply Z.mod_mul. pose proof Second_pos. lia.
Qed.

(** [time.Date] at midnight of the first of a month, and of the day before
    the first of a month. *)
Lemma time_Date_first (y m : Z) (loc : Location) :
  1 <= m <= 12 ->
  time_Date y m 1 0 0 0 0 loc = midnight (days_from_civil y m 1) loc.
Proof.
  intros Hm. unfold time_Date, midnight.
  change (norm 0 0 1000000000) with (0, 0).
  change (norm 0 0 60) with (0, 0).
  change (norm 1 0 24) with (1, 0).
  unfold norm.
  replace ((m - 1) / 12) with 0 by (symmetry; apply Z.div_small; lia).
  replace ((m - 1) mod 12) with (m - 1) by (symmetry; apply Z.mod_small; lia).
  cbv beta iota. replace (y + 0) with y by lia. replace (m - 1 + 1) with m by lia.
  repeat rewrite ?Z.add_0_l, ?Zdiv_0_l, ?Zmod_0_l.
  f_equal. unfold secondsPerDay, Second, Nanosecond. lia.
Qed.

Lemma time_Date_last (y m : Z) (loc : Location) :
  1 <= m <= 12 ->
  time_Date (y + 0) (m + 1) (1 + -1) 0 0 0 0 loc
  = midnight (days_from_civil y m (daysIn y m)) loc.
Proof.
  intros Hm. unfold time_Date, midnight.
  change (norm 0 0 1000000000) with (0, 0).
  change (norm 0 0 60) with (0, 0).
  change (norm (1 + -1) 0 24) with (0, 0).
  unfold norm.
  pose proof (month_end y m Hm) as Hend. unfold nextMonth in Hend.
  replace (m + 1 - 1) with m by lia.
  destruct (m =? 12) eqn:H12; simpl in Hend.
  - apply Z.eqb_eq in H12. subst m.
    change (12 / 12) with 1. change (12 mod 12) with 0. cbv beta iota.
    replace (y + 0 + 1) with (y + 1) by lia. change (0 + 1) with 1.
    change (1 + -1) with 0.
    repeat rewrite ?Z.add_0_l, ?Zdiv_0_l, ?Zmod_0_l.
    f_equal. unfold secondsPerDay, Second, Nanosecond. lia.
  - apply Z.eqb_neq in H12.
    replace (m / 12) with 0 by (symmetry; apply Z.div_small; lia).
    replace (m mod 12) with m by (symmetry; apply Z.mod_small; lia).
    cbv beta iota. replace (y + 0 + 0) with y by lia.
    change (1 + -1) with 0.
    repeat rewrite ?Z.add_0_l, ?Zdiv_0_l, ?Zmod_0_l.
    f_equal. unfold secondsPerDay, Second, Nanosecond. lia.
Qed.

Lemma Date_range (t : Time) :
  1 <= Month t <= 12 /\ 1 <= GoTime.Day t <= daysIn (Year t) (Month t)
  /\ days_from_civil (Year t) (Month t) (GoTime.Day t) = abs t / secondsPerDay.
Proof.
  unfold Year, Month, GoTime.Day.
  destruct (Date t) as [[y m] d] eqn:Hd. simpl.
  unfold Date in Hd. apply civil_from_days_spec in Hd. exact Hd.
Qed.

End GoTimeFacts.

(** ** Effects: what a call may do to client and world *)

Module Effects.

Lemma advance_0_nil (w : World) : advance 0 [] w = w.
Proof. destruct w. unfold advance. simpl. rewrite app_nil_r. reflexivity. Qed.

Lemma record_advance (e : Event) (w : World) : record e w = advance 0 [e] w.
Proof. reflexivity. Qed.

Lemma draw_advance (w : World) : draw w = advance 1 [] w.
Proof. destruct w. unfold advance, draw. simpl. rewrite app_nil_r. reflexivity. Qed.

Lemma advance_advance (n1 n2 : nat) (e1 e2 : list Event) (w : World) :
  advance n2 e2 (advance n1 e1 w) = advance (n2 + n1) (e1 ++ e2) w.
Proof.
  unfold advance. simpl. f_equal; [lia|]. rewrite app_assoc. reflexivity.
Qed.

Lemma since_advance (n : nat) (evs : list Event) (w : World) :
  since w (advance n evs w) = evs.
Proof. unfold since, advance. simpl. apply drop_app_length. Qed.

Lemma since_refl (w : World) : since w w = [].
Proof. rewrite <- (advance_0_nil w) at 2. apply since_advance. Qed.

Lemma mints_app (day : string) (a b : list Event) :
  mints day (a ++ b) = (mints day a + mints day b)%nat.
Proof. unfold mints. rewrite List.filter_app, length_app. reflexivity. Qed.

Lemma withCache_same (c : Client) : withCache c (dayIDCache c) = c.
Proof. destruct c. reflexivity. Qed.

Lemma mintBudget_le_1 (day : string) (c : Client) : (mintBudget day c <= 1)%nat.
Proof. unfold mintBudget. destruct (hasID day c); lia. Qed.

Section Grows.
Variable P : Event -> Prop.
Variable day : string.

Lemma grows_refl (c : Client) (w : World) : grows P day c w c w.
Proof.
  split; [|auto]. exists 0%nat, []. rewrite advance_0_nil.
  split; [reflexivity|]. split; [constructor|]. split; [simpl; lia|auto].
Qed.

Lemma grows_trans (c : Client) (w : World) (c1 : Client) (w1 : World)
    (c2 : Client) (w2 : World) :
  grows P day c w c1 w1 -> grows P day c1 w1 c2 w2 -> grows P day c w c2 w2.
Proof.
  intros [(n1 & e1 & -> & HP1 & Hb1 & Hs1) Hk1]
         [(n2 & e2 & -> & HP2 & Hb2 & Hs2) Hk2].
  split; [|auto].
  exists (n2 + n1)%nat, (e1 ++ e2). rewrite advance_advance.
  split; [reflexivity|]. split; [apply Forall_app; auto|].
  split; [rewrite mints_app; lia|].
  intros id Hid. destruct (Hs1 id Hid) as [Hid1|[id' Hlog]].
  - destruct (Hs2 id Hid1) as [Hid2|[id' Hlog]]; [left; exact Hid2|].
    right. exists id'. apply in_or_app. right. exact Hlog.
  - right. exists id'. apply in_or_app. left. exact Hlog.
Qed.

(** A step that leaves the client alone and adds events that are no
    made-up identifiers. *)
Lemma grows_world (c : Client) (w : World) (n : nat) (evs : list Event) :
  Forall P evs -> mints day evs = 0%nat -> grows P day c w c (advance n evs w).
Proof.
  intros HP Hm. split; [|auto]. exists n, evs.
  split; [reflexivity|]. split; [exact HP|]. split; [lia|auto].
Qed.

Lemma obeys_ret {A} (a : A) : obeys (grows P day) (ret a).
Proof. intros c w r c' w' [= <- <- <-]. apply grows_refl. Qed.

Lemma obeys_fail {A} (e : error) : obeys (grows P day) (@fail A e).
Proof. intros c w r c' w' [= <- <- <-]. apply grows_refl. Qed.

Lemma obeys_lift {A} (o : outcome A) : obeys (grows P day) (lift o).
Proof. intros c w r c' w' [= <- <- <-]. apply grows_refl. Qed.

Lemma obeys_bind {A B} (m : M A) (k : A -> M B) :
  obeys (grows P day) m -> (forall a, obeys (grows P day) (k a)) ->
  obeys (grows P day) (bind m k).
Proof.
  intros Hm Hk c w r c' w' Hrun. unfold bind in Hrun.
  destruct (m c w) as [[r1 c1] w1] eqn:Em. specialize (Hm _ _ _ _ _ Em).
  destruct r1 as [a|e|s].
  - eapply grows_trans; [exact Hm|]. eapply Hk. exact Hrun.
  - injection Hrun as <- <- <-. exact Hm.
  - injection Hrun as <- <- <-. exact Hm.
Qed.

Lemma obeys_wrapErr {A} (f : error -> error) (m : M A) :
  obeys (grows P day) m -> obeys (grows P day) (wrapErr f m).
Proof.
  intros Hm c w r c' w' Hrun. unfold wrapErr in Hrun.
  destruct (m c w) as [[r1 c1] w1] eqn:Em. specialize (Hm _ _ _ _ _ Em).
  destruct r1; injection Hrun as <- <- <-; exact Hm.
Qed.

Lemma obeys_getClient : obeys (grows P day) getClient.
Proof. intros c w r c' w' [= <- <- <-]. apply grows_refl. Qed.

Lemma obeys_getCache : obeys (grows P day) getCache.
Proof. intros c w r c' w' [= <- <- <-]. apply grows_refl. Qed.

Lemma obeys_getLocal : obeys (grows P day) getLocal.
Proof. intros c w r c' w' [= <- <- <-]. apply grows_refl. Qed.

Lemma obeys_assertLoggedIn : obeys (grows P day) assertLoggedIn.
Proof.
  intros c w r c' w' Hrun. unfold assertLoggedIn in Hrun.
  destruct (authenticationState c); injection Hrun as <- <- <-; apply grows_refl.
Qed.

Lemma obeys_uuid_New : obeys (grows P day) uuid_New.
Proof.
  intros c w r c' w' [= <- <- <-]. rewrite draw_advance.
  apply grows_world; [constructor|reflexivity].
Qed.

Lemma obeys_emit (e : Event) :
  P e -> isMint day e = false -> obeys (grows P day) (emit e).
Proof.
  intros HP He c w r c' w' [= <- <- <-]. rewrite record_advance.
  apply grows_world; [repeat constructor; exact HP|].
  unfold mints. simpl. rewrite He. reflexivity.
Qed.

Lemma obeys_RawJSON (req : Request) :
  P (Sent req) -> obeys (grows P day) (RawJSON req).
Proof.
  intros HP c w r c' w' Hrun. unfold RawJSON in Hrun.
  destruct (transport w (trace w) req); injection Hrun as <- <- <-;
    rewrite record_advance;
    (apply grows_world; [repeat constructor; exact HP|reflexivity]).
Qed.

Lemma obeys_ParseResponseJSON {T} (decode : payload -> option T) (resp : Response) :
  obeys (grows P day) (ParseResponseJSON decode resp).
Proof.
  unfold ParseResponseJSON.
  destruct (isSuccess (StatusCode resp)); [|apply obeys_fail].
  destruct (decode (Payload resp)); [apply obeys_ret|apply obeys_fail].
Qed.

End Grows.

Lemma grows_weaken (P Q : Event -> Prop) (day : string)
    (c : Client) (w : World) (c' : Client) (w' : World) :
  (forall e, P e -> Q e) -> grows P day c w c' w' -> grows Q day c w c' w'.
Proof.
  intros HPQ [(n & evs & -> & HP & Hb) Hk]. split; [|exact Hk].
  exists n, evs. split; [reflexivity|]. split; [|exact Hb].
  eapply Forall_impl; [exact HP|exact HPQ].
Qed.

End Effects.

(** ** The operations, one by one *)

Module Operations.
Import Civil CivilFacts GoTimeFacts Effects.

Create HintDb obeys discriminated.

#[local] Hint Resolve obeys_ret obeys_fail obeys_lift obeys_getClient
  obeys_getCache obeys_getLocal obeys_assertLoggedIn obeys_uuid_New
  obeys_ParseResponseJSON : obeys.

(** Walk along the binds of a call; calls with a lemma of their own are
    closed by it. *)
Ltac obey :=
  repeat first
    [ solve [auto 1 with obeys nocore]
    | apply obeys_wrapErr
    | apply obeys_bind; [|intros ?] ].

Lemma lookupEvent_GET (req : Request) : Method req = "GET" -> lookupEvent (Sent req).
Proof. intros H. split; [exact H|reflexivity]. Qed.

Lemma lookupEvent_cached (day : string) (id : UUID) :
  lookupEvent (LogDebug "Cached existing UUID for day." day id).
Proof. split; [exact I|reflexivity]. Qed.

Lemma GetAttendanceCalendar_obeys (day : string) (employeeID : Z)
    (startDate endDate : Time) :
  obeys (grows lookupEvent day) (GetAttendanceCalendar employeeID startDate endDate).
Proof.
  unfold GetAttendanceCalendar. obey.
  apply obeys_RawJSON. apply lookupEvent_GET. reflexivity.
Qed.
#[local] Hint Resolve GetAttendanceCalendar_obeys : obeys.

Lemma GetMyAttendanceCalendar_obeys (day : string) (startDate endDate : Time) :
  obeys (grows lookupEvent day) (GetMyAttendanceCalendar startDate endDate).
Proof. unfold GetMyAttendanceCalendar. obey. Qed.
#[local] Hint Resolve GetMyAttendanceCalendar_obeys : obeys.

Lemma cacheKnownDays_obeys (day : string) (days : list CalendarDay) :
  obeys (grows lookupEvent day) (cacheKnownDays days).
Proof.
  induction days as [|d rest IH]; cbn [cacheKnownDays]; [obey|].
  intros c w r c' w' Hrun. unfold bind at 1 2, setDayID, emit in Hrun.
  eapply grows_trans; [|eapply IH; exact Hrun].
  set (k := Day (Attributes d)). set (id := CalendarDay_ID d).
  split.
  - exists 0%nat, [LogDebug "Cached existing UUID for day." k id].
    split; [reflexivity|]. split; [repeat constructor; apply lookupEvent_cached|].
    unfold mints, mintBudget, hasID. simpl.
    destruct (decide (k = day)) as [->|Hne].
    + rewrite lookup_insert_eq. split; [lia|].
      intros id0 _. right. exists id. left. reflexivity.
    + rewrite lookup_insert_ne by exact Hne. split; [lia|]. auto.
  - intros k' Hk'. simpl.
    destruct (decide (k = k')) as [->|Hne].
    + rewrite lookup_insert_eq. eauto.
    + rewrite lookup_insert_ne by exact Hne. exact Hk'.
Qed.
#[local] Hint Resolve cacheKnownDays_obeys : obeys.

Lemma setUnknownDays_obeys (day : string) (fuel : nat) (date loopEnd : Time) :
  obeys (grows lookupEvent day) (setUnknownDays fuel date loopEnd).
Proof.
  revert date. induction fuel as [|fuel IH]; intros date;
    cbn [setUnknownDays]; [obey|].
  destruct (Before date loopEnd); [|obey].
  remember (Format date timeDateOnlyLayout) as ds eqn:Hds. clear Hds.
  intros c w r c' w' Hrun. unfold bind, getCache in Hrun.
  destruct (dayIDCache c !! ds) as [v|] eqn:Hlook.
  - unfold ret in Hrun. eapply IH. exact Hrun.
  - unfold setDayID in Hrun. eapply grows_trans; [|eapply IH; exact Hrun].
    split.
    + exists 0%nat, []. rewrite advance_0_nil.
      split; [reflexivity|]. split; [constructor|].
      unfold mints, mintBudget, hasID. simpl.
      destruct (decide (ds = day)) as [<-|Hne].
      * rewrite Hlook, lookup_insert_eq. split; [lia|]. intros id; discriminate.
      * rewrite lookup_insert_ne by exact Hne. split; [lia|]. auto.
    + intros k Hk. simpl.
      destruct (decide (ds = k)) as [<-|Hne].
      * rewrite lookup_insert_eq. eauto.
      * rewrite lookup_insert_ne by exact Hne. exact Hk.
Qed.
#[local] Hint Resolve setUnknownDays_obeys : obeys.

Lemma cacheDayIDs_obeys (day : string) (days : list CalendarDay)
    (startDate endDate : Time) :
  obeys (grows lookupEvent day) (cacheDayIDs days startDate endDate).
Proof. unfold cacheDayIDs. obey. Qed.
#[local] Hint Resolve cacheDayIDs_obeys : obeys.

Lemma GetDayUUID_obeys (day : string) (date : Time) :
  obeys (grows lookupEvent day) (GetDayUUID date).
Proof.
  unfold GetDayUUID. obey.
  destruct (a !! Format date timeDateOnlyLayout); [obey|].
  destruct (TimeFullMonth date) as [startDate endDate]. obey.
Qed.
#[local] Hint Resolve GetDayUUID_obeys : obeys.

(** *** The month window *)

Lemma oneDay_value : 24 * Hour = 86400000000000.
Proof. reflexivity. Qed.

(** The window of [TimeFullMonth]: midnight of the first and of the last day
    of the date's month, in the date's location. *)
Lemma TimeFullMonth_window (date : Time) :
  TimeFullMonth date
  = (midnight (days_from_civil (Year date) (Month date) 1) (location date),
     midnight (days_from_civil (Year date) (Month date)
                               (daysIn (Year date) (Month date)))
              (location date)).
Proof.
  destruct (Date_range date) as (Hm & Hd & _).
  unfold TimeFullMonth, Year, Month in *.
  destruct (Date date) as [[y m] d]. simpl in *.
  rewrite (time_Date_first y m _ Hm). f_equal.
  unfold AddDate.
  pose proof (Date_midnight_plus (days_from_civil y m 1) (location date) 0) as HD.
  rewrite Z.mul_0_l, Add_0, Z.add_0_r in HD.
  rewrite HD, civil_from_days_of_civil by (pose proof (daysIn_pos y m); lia).
  rewrite Clock_midnight, Nanosecond_midnight. simpl location.
  apply time_Date_last. exact Hm.
Qed.

Lemma loopFuel_month (z len : Z) (loc : Location) :
  0 <= len ->
  loopFuel (midnight z loc) (Add (midnight (z + len - 1) loc) (24 * Hour))
  = Z.to_nat len.
Proof.
  intros Hlen. unfold loopFuel, Add, midnight. simpl unixNano.
  f_equal. rewrite oneDay_value.
  replace (((z + len - 1) * secondsPerDay - zoneOffset loc) * Second + 86400000000000
           - (z * secondsPerDay - zoneOffset loc) * Second + 86400000000000 - 1)
    with (len * 86400000000000 + 86399999999999)
    by (unfold secondsPerDay, Second, Nanosecond; lia).
  rewrite Z.div_add_l, Z.div_small by lia. lia.
Qed.

(** Every date of the month is met by the loop of [cacheDayIDs]: some turn
    [j] of it, within the fuel and passing the loop test, formats to the
    same day. *)
Lemma month_covered (date d : Time) (startDate endDate : Time) :
  TimeFullMonth date = (startDate, endDate) ->
  sameMonth date d = true ->
  exists j : nat,
    (j < loopFuel startDate (Add endDate (24 * Hour)%Z))%nat
    /\ Before (Add startDate (Z.of_nat j * (24 * Hour))) (Add endDate (24 * Hour)) = true
    /\ Format (Add startDate (Z.of_nat j * (24 * Hour))) DateOnly = Format d DateOnly.
Proof.
  rewrite TimeFullMonth_window. intros [= <- <-] Hsame.
  unfold sameMonth in Hsame. apply andb_prop in Hsame as [Hy Hm].
  apply Z.eqb_eq in Hy, Hm.
  destruct (Date_range d) as (Hmd & Hdd & Hz).
  rewrite <- Hy, <- Hm in *.
  set (y := Year date) in *. set (m := Month date) in *.
  set (z := days_from_civil y m 1).
  pose proof (daysIn_pos y m) as Hlen.
  assert (Hlast : days_from_civil y m (daysIn y m) = z + daysIn y m - 1).
  { replace (z + daysIn y m - 1) with (z + (daysIn y m - 1)) by lia.
    unfold z. rewrite <- days_from_civil_day. f_equal. lia. }
  rewrite Hlast. rewrite loopFuel_month by lia.
  exists (Z.to_nat (GoTime.Day d - 1)).
  rewrite Z2Nat.id by lia.
  split; [lia|]. split.
  - unfold Before, Add, midnight. simpl unixNano. apply Z.ltb_lt.
    rewrite oneDay_value. unfold secondsPerDay, Second, Nanosecond. lia.
  - apply Format_DateOnly_Date. rewrite Date_midnight_plus.
    unfold Date at 1. rewrite <- Hz. f_equal.
    unfold z. rewrite <- days_from_civil_day. f_equal. lia.
Qed.

(** *** The loop over the window *)

Lemma Before_later (date loopEnd : Time) (k : Z) :
  0 <= k -> Before (Add date k) loopEnd = true -> Before date loopEnd = true.
Proof.
  unfold Before, Add. simpl. intros Hk H.
  apply Z.ltb_lt in H. apply Z.ltb_lt. lia.
Qed.

Lemma setUnknownDays_covers (fuel : nat) (date loopEnd : Time)
    (c : Client) (w : World) r c' w' :
  setUnknownDays fuel date loopEnd c w = (r, c', w') ->
  forall j : nat, (j < fuel)%nat ->
    Before (Add date (Z.of_nat j * (24 * Hour))) loopEnd = true ->
    is_Some (dayIDCache c' !! Format (Add date (Z.of_nat j * (24 * Hour))) DateOnly).
Proof.
  revert date c w. induction fuel as [|fuel IH]; intros date c w Hrun j Hj Hbefore;
    [lia|].
  cbn [setUnknownDays] in Hrun.
  assert (Hfirst : Before date loopEnd = true).
  { eapply (Before_later _ _ (Z.of_nat j * (24 * Hour))); [|exact Hbefore].
    rewrite oneDay_value. lia. }
  rewrite Hfirst in Hrun.
  unfold bind, getCache in Hrun.
  destruct j as [|j].
  - (* the day of this turn: stored now, kept by the later turns *)
    rewrite Z.mul_0_l, Add_0. change timeDateOnlyLayout with DateOnly in Hrun.
    remember (Format date DateOnly) as ds eqn:Hds. clear Hds.
    destruct (dayIDCache c !! ds) as [v|] eqn:Hlook.
    + unfold ret in Hrun.
      apply (setUnknownDays_obeys ds) in Hrun. destruct Hrun as [_ Hkeep].
      apply Hkeep. rewrite Hlook. eauto.
    + unfold setDayID in Hrun.
      apply (setUnknownDays_obeys ds) in Hrun. destruct Hrun as [_ Hkeep].
      apply Hkeep. simpl. rewrite lookup_insert_eq. eauto.
  - (* a later day: a turn of the rest of the loop *)
    replace (Z.of_nat (S j) * (24 * Hour)) with (24 * Hour + Z.of_nat j * (24 * Hour))
      in * by lia.
    rewrite <- Add_Add in *.
    destruct (dayIDCache c !! Format date timeDateOnlyLayout) as [v|].
    + unfold ret in Hrun. eapply IH; [exact Hrun|lia|exact Hbefore].
    + unfold setDayID in Hrun. eapply IH; [exact Hrun|lia|exact Hbefore].
Qed.

(** The fuel is enough: with more of it the loop does the same, that is, it
    ends because its test fails. *)
Lemma setUnknownDays_enough_fuel (fuel : nat) (date loopEnd : Time)
    (c : Client) (w : World) :
  (loopFuel date loopEnd <= fuel)%nat ->
  setUnknownDays fuel date loopEnd c w
  = setUnknownDays (loopFuel date loopEnd) date loopEnd c w.
Proof.
  revert date c w. induction fuel as [|fuel IH]; intros date c w Hfuel.
  - replace (loopFuel date loopEnd) with 0%nat by lia. reflexivity.
  - destruct (Before date loopEnd) eqn:Hb.
    + assert (Hn : loopFuel date loopEnd = S (loopFuel (Add date (24 * Hour)) loopEnd)).
      { unfold loopFuel, Before, Add in *. simpl unixNano. apply Z.ltb_lt in Hb.
        rewrite oneDay_value.
        replace (unixNano loopEnd - unixNano date + 86400000000000 - 1)
          with (1 * 86400000000000
                + (unixNano loopEnd - (unixNano date + 86400000000000)
                   + 86400000000000 - 1)) by lia.
        rewrite Z.div_add_l by lia.
        assert (0 <= (unixNano loopEnd - (unixNano date + 86400000000000)
                      + 86400000000000 - 1) / 86400000000000)
          by (apply Z.div_pos; lia).
        lia. }
      rewrite Hn. cbn [setUnknownDays]. rewrite Hb.
      unfold bind, getCache.
      destruct (dayIDCache c !! Format date timeDateOnlyLayout);
        [unfold ret|unfold setDayID]; apply IH; lia.
    + cbn [setUnknownDays]. rewrite Hb.
      destruct (loopFuel date loopEnd); [reflexivity|].
      cbn [setUnknownDays]. rewrite Hb. reflexivity.
Qed.

(** *** Counting requests *)

Lemma requests_app (a b : list Event) : requests (a ++ b) = requests a ++ requests b.
Proof. unfold requests. apply omap_app. Qed.

Lemma sentCount_advance (n : nat) (evs : list Event) (w : World) :
  sentCount (advance n evs w) = (sentCount w + length (requests evs))%nat.
Proof. unfold sentCount, advance. simpl. rewrite requests_app, length_app. reflexivity. Qed.

Lemma sentCount_record (req : Request) (w : World) :
  sentCount (record (Sent req) w) = S (sentCount w).
Proof. rewrite record_advance, sentCount_advance. simpl. lia. Qed.

Lemma requests_cachedLog (days : list CalendarDay) :
  requests (map cachedLog days) = [].
Proof. induction days as [|d rest IH]; [reflexivity|exact IH]. Qed.

(** *** The calendar request *)

Lemma GetAttendanceCalendar_run (employeeID : Z) (startDate endDate : Time)
    (c : Client) (w : World) r c' w' :
  GetAttendanceCalendar employeeID startDate endDate c w = (r, c', w') ->
  c' = c
  /\ ((w' = w /\ r = Err ErrNotLoggedIn)
      \/ exists req, w' = record (Sent req) w /\ Method req = "GET")
  /\ (forall cal, r = Ok cal -> exists req, w' = record (Sent req) w)
  /\ (forall msg, r <> Panic msg).
Proof.
  unfold GetAttendanceCalendar, bind, assertLoggedIn.
  destruct (authenticationState c).
  1,2: intros [= <- <- <-]; split; [reflexivity|]; split; [left; auto|];
       split; discriminate.
  unfold calendarQuery. rewrite apply_calendarQuery. unfold lift.
  set (req := NewRequest _ _ _). unfold RawJSON.
  destruct (transport w (trace w) req) as [resp|msg].
  - unfold ParseResponseJSON.
    destruct (isSuccess (StatusCode resp));
      [destruct (asCalendar (Payload resp))|];
      intros [= <- <- <-]; (split; [reflexivity|]);
      (split; [right; exists req; split; reflexivity|]);
      (split; [intros; exists req; reflexivity|discriminate]).
  - intros [= <- <- <-]. split; [reflexivity|].
    split; [right; exists req; split; reflexivity|]. split; discriminate.
Qed.

(** *** The two loops of [cacheDayIDs] always finish *)

Lemma cacheKnownDays_run (days : list CalendarDay) (c : Client) (w : World) :
  exists c', cacheKnownDays days c w = (Ok tt, c', advance 0 (map cachedLog days) w).
Proof.
  revert c w. induction days as [|d rest IH]; intros c w.
  - exists c. simpl. rewrite advance_0_nil. reflexivity.
  - cbn [cacheKnownDays]. unfold bind, setDayID, emit.
    destruct (IH (withCache c (<[Day (Attributes d) := Some (CalendarDay_ID d)]>
                                 (dayIDCache c)))
                 (record (cachedLog d) w)) as [c' Hrest].
    exists c'. unfold cachedLog in Hrest at 1. rewrite Hrest.
    rewrite record_advance, advance_advance. reflexivity.
Qed.

Lemma setUnknownDays_run (fuel : nat) (date loopEnd : Time) (c : Client) (w : World) :
  exists c', setUnknownDays fuel date loopEnd c w = (Ok tt, c', w).
Proof.
  revert date c. induction fuel as [|fuel IH]; intros date c.
  - exists c. reflexivity.
  - cbn [setUnknownDays]. destruct (Before date loopEnd); [|exists c; reflexivity].
    unfold bind, getCache.
    destruct (dayIDCache c !! Format date timeDateOnlyLayout);
      [unfold ret|unfold setDayID]; apply IH.
Qed.

Lemma cacheDayIDs_run (date : Time) (days : list CalendarDay)
    (startDate endDate : Time) (c : Client) (w : World) :
  TimeFullMonth date = (startDate, endDate) ->
  exists c', cacheDayIDs days startDate endDate c w
             = (Ok tt, c', advance 0 (map cachedLog days) w)
    /\ forall d, sameMonth date d = true ->
                 is_Some (dayIDCache c' !! Format d DateOnly).
Proof.
  intros Hwin. unfold cacheDayIDs, bind.
  destruct (cacheKnownDays_run days c w) as [c1 ->].
  destruct (setUnknownDays_run
              (loopFuel startDate (Add endDate (24 * Hour)))
              startDate (Add endDate (24 * Hour)) c1
              (advance 0 (map cachedLog days) w)) as [c2 Hloop].
  rewrite Hloop. exists c2. split; [reflexivity|].
  intros d Hd. destruct (month_covered date d _ _ Hwin Hd) as (j & Hj & Hb & <-).
  eapply setUnknownDays_covers; eauto.
Qed.

(** *** [GetDayUUID] *)

Lemma GetDayUUID_hit (date : Time) (c : Client) (w : World) (v : option UUID) :
  dayIDCache c !! Format date DateOnly = Some v ->
  GetDayUUID date c w = (Ok v, c, w).
Proof.
  intros Hlook. unfold GetDayUUID, bind, getCache, timeDateOnlyLayout.
  rewrite Hlook. reflexivity.
Qed.

(** A miss either fails, leaving the client as it was after at most one
    request, or sends exactly one request and caches the whole month. *)
Lemma GetDayUUID_miss (date : Time) (c : Client) (w : World) r c' w' :
  dayIDCache c !! Format date DateOnly = None ->
  GetDayUUID date c w = (r, c', w') ->
  (exists e, r = Err e /\ c' = c
             /\ (w' = w \/ exists req, w' = record (Sent req) w))
  \/ (exists req logs,
        r = Ok (default None (dayIDCache c' !! Format date DateOnly))
        /\ w' = advance 0 (Sent req :: logs) w
        /\ requests logs = []
        /\ forall d, sameMonth date d = true ->
                     is_Some (dayIDCache c' !! Format d DateOnly)).
Proof.
  intros Hlook. unfold GetDayUUID, bind at 1, getCache, timeDateOnlyLayout.
  rewrite Hlook.
  destruct (TimeFullMonth date) as [startDate endDate] eqn:Hwin.
  unfold bind at 1, wrapErr, GetMyAttendanceCalendar, bind at 1, getClient.
  destruct (GetAttendanceCalendar (EmployeeID c) startDate endDate c w)
    as [[r1 c1] w1] eqn:Hcal.
  apply GetAttendanceCalendar_run in Hcal.
  destruct Hcal as (-> & Hw1 & Hok & Hnopanic).
  destruct r1 as [cal|e|msg].
  - destruct (Hok cal eq_refl) as [req ->].
    unfold bind at 1.
    destruct (cacheDayIDs_run date (AttendanceDays cal) startDate endDate c
                              (record (Sent req) w) Hwin) as (c2 & -> & Hcov).
    unfold bind, getCache, ret. intros [= <- <- <-]. right.
    exists req, (map cachedLog (AttendanceDays cal)).
    split; [reflexivity|]. split.
    { rewrite record_advance, advance_advance. reflexivity. }
    split; [apply requests_cachedLog|exact Hcov].
  - intros [= <- <- <-]. left. eexists. split; [reflexivity|]. split; [reflexivity|].
    destruct Hw1 as [[-> _]|[req [-> _]]]; [left; reflexivity|right; eauto].
  - exfalso. exact (Hnopanic msg eq_refl).
Qed.

Lemma GetDayUUID_result (date : Time) (c : Client) (w : World) v c' w' :
  GetDayUUID date c w = (Ok v, c', w') ->
  default None (dayIDCache c' !! Format date DateOnly) = v.
Proof.
  intros Hrun.
  destruct (dayIDCache c !! Format date DateOnly) as [v0|] eqn:Hlook.
  - rewrite (GetDayUUID_hit _ _ _ _ Hlook) in Hrun.
    injection Hrun as <- <- <-. rewrite Hlook. reflexivity.
  - destruct (GetDayUUID_miss _ _ _ _ _ _ Hlook Hrun)
      as [(e & He & _)|(req & logs & Hr & _)]; [discriminate|].
    congruence.
Qed.

(** One lookup costs at most one request. *)
Lemma GetDayUUID_count (date : Time) (c : Client) (w : World) r c' w' :
  GetDayUUID date c w = (r, c', w') -> (sentCount w' <= sentCount w + 1)%nat.
Proof.
  intros Hrun.
  destruct (dayIDCache c !! Format date DateOnly) as [v0|] eqn:Hlook.
  - rewrite (GetDayUUID_hit _ _ _ _ Hlook) in Hrun.
    injection Hrun as <- <- <-. lia.
  - destruct (GetDayUUID_miss _ _ _ _ _ _ Hlook Hrun)
      as [(e & _ & _ & [->|[req ->]])|(req & logs & _ & -> & Hlogs & _)].
    + lia.
    + rewrite sentCount_record. lia.
    + rewrite sentCount_advance. simpl. rewrite Hlogs. simpl. lia.
Qed.

(** *** [GetOrNewDayUUID] *)

Lemma GetOrNewDayUUID_run (date : Time) (c : Client) (w : World) r c' w' :
  GetOrNewDayUUID date c w = (r, c', w') ->
  exists r0 c0 w0,
    GetDayUUID date c w = (r0, c0, w0)
    /\ match r0 with
       | Ok (Some id) => r = Ok id /\ c' = c0 /\ w' = w0
       | Ok None =>
           let newID := uuid_fromRandom (entropy w0 (drawn w0)) in
           r = Ok newID
           /\ c' = withCache c0 (<[Format date DateOnly := Some newID]> (dayIDCache c0))
           /\ w' = advance 1 [mintLog (Format date DateOnly) newID] w0
       | Err e => r = Err (ErrWrap "get day UUID" e) /\ c' = c0 /\ w' = w0
       | Panic msg => r = Panic msg /\ c' = c0 /\ w' = w0
       end.
Proof.
  unfold GetOrNewDayUUID, bind at 1, wrapErr.
  destruct (GetDayUUID date c w) as [[r0 c0] w0].
  intros Hrun. exists r0, c0, w0. split; [reflexivity|].
  destruct r0 as [[id|]|e|msg].
  - injection Hrun as <- <- <-. auto.
  - unfold bind, uuid_New, setDayID, emit, ret in Hrun.
    injection Hrun as <- <- <-. cbv zeta.
    split; [reflexivity|]. split; [reflexivity|].
    rewrite record_advance, draw_advance, advance_advance. reflexivity.
  - injection Hrun as <- <- <-. auto.
  - injection Hrun as <- <- <-. auto.
Qed.

Lemma GetOrNewDayUUID_hit (date : Time) (c : Client) (w : World) (id : UUID) :
  dayIDCache c !! Format date DateOnly = Some (Some id) ->
  GetOrNewDayUUID date c w = (Ok id, c, w).
Proof.
  intros Hlook. unfold GetOrNewDayUUID, bind, wrapErr.
  rewrite (GetDayUUID_hit _ _ _ _ Hlook). reflexivity.
Qed.

Lemma default_None_Some (x : option (option UUID)) (id : UUID) :
  default None x = Some id -> x = Some (Some id).
Proof. destruct x as [[?|]|]; simpl; congruence. Qed.

Lemma default_None_None (day : string) (c : Client) :
  default None (dayIDCache c !! day) = None -> hasID day c = false.
Proof. unfold hasID. destruct (dayIDCache c !! day) as [[?|]|]; simpl; congruence. Qed.

(** The identifier that comes back is the one the cache holds from then on. *)
Lemma GetOrNewDayUUID_cached (date : Time) (c : Client) (w : World) id c' w' :
  GetOrNewDayUUID date c w = (Ok id, c', w') ->
  dayIDCache c' !! Format date DateOnly = Some (Some id).
Proof.
  intros Hrun. apply GetOrNewDayUUID_run in Hrun.
  destruct Hrun as (r0 & c0 & w0 & Hday & Hcase).
  destruct r0 as [[id0|]|e|msg].
  - destruct Hcase as ([= <-] & -> & ->).
    apply GetDayUUID_result in Hday. apply default_None_Some. exact Hday.
  - destruct Hcase as ([= <-] & -> & ->). simpl. apply lookup_insert_eq.
  - destruct Hcase as (Habs & _). discriminate.
  - destruct Hcase as (Habs & _). discriminate.
Qed.

Lemma isMint_mintLog (day day' : string) (id : UUID) :
  isMint day (mintLog day' id) = String.eqb day' day.
Proof. reflexivity. Qed.

Lemma lookupEvent_readOnly (e : Event) : lookupEvent e -> readOnly e.
Proof. intros [H _]. exact H. Qed.

Lemma GetOrNewDayUUID_obeys (day : string) (date : Time) :
  obeys (grows readOnly day) (GetOrNewDayUUID date).
Proof.
  intros c w r c' w' Hrun. apply GetOrNewDayUUID_run in Hrun.
  destruct Hrun as (r0 & c0 & w0 & Hday & Hcase).
  pose proof (grows_weaken _ _ _ _ _ _ _ lookupEvent_readOnly
                (GetDayUUID_obeys day date _ _ _ _ _ Hday)) as Hgrow.
  destruct r0 as [[id0|]|e|msg].
  - destruct Hcase as (_ & -> & ->). exact Hgrow.
  - destruct Hcase as (_ & -> & ->).
    eapply grows_trans; [exact Hgrow|].
    apply GetDayUUID_result, default_None_None in Hday.
    set (ds := Format date DateOnly) in *.
    set (newID := uuid_fromRandom _).
    split.
    + exists 1%nat, [mintLog ds newID]. split; [reflexivity|].
      split; [repeat constructor|].
      unfold mints. cbn [List.filter]. rewrite isMint_mintLog.
      unfold mintBudget at 1 2, hasID at 1 2. simpl dayIDCache.
      destruct (String.eqb ds day) eqn:Heq.
      * apply String.eqb_eq in Heq. subst day.
        rewrite lookup_insert_eq. unfold hasID in Hday.
        destruct (dayIDCache c0 !! ds) as [[?|]|]; simpl; try discriminate;
          (split; [lia|intros id; discriminate]).
      * apply String.eqb_neq in Heq.
        rewrite lookup_insert_ne by exact Heq. simpl. split; [lia|]. auto.
    + intros k Hk. simpl.
      destruct (decide (ds = k)) as [<-|Hne].
      * rewrite lookup_insert_eq. eauto.
      * rewrite lookup_insert_ne by exact Hne. exact Hk.
  - destruct Hcase as (_ & -> & ->). exact Hgrow.
  - destruct Hcase as (_ & -> & ->). exact Hgrow.
Qed.

(** A made-up identifier in the trace of [GetOrNewDayUUID] is for the date
    that was asked, is the result, and is in the cache. *)
Lemma GetOrNewDayUUID_mint (date : Time) (c : Client) (w : World) r c' w'
    (day : string) (id : UUID) :
  GetOrNewDayUUID date c w = (r, c', w') ->
  In (mintLog day id) (since w w') ->
  day = Format date DateOnly /\ r = Ok id
  /\ dayIDCache c' !! day = Some (Some id).
Proof.
  intros Hrun Hin. apply GetOrNewDayUUID_run in Hrun.
  destruct Hrun as (r0 & c0 & w0 & Hday & Hcase).
  destruct (GetDayUUID_obeys day date _ _ _ _ _ Hday)
    as [(n & evs & -> & Hevs & _) _].
  assert (Hnot : ~ In (mintLog day id) evs).
  { intros Habs. rewrite Forall_forall in Hevs.
    apply list_elem_of_In, Hevs in Habs. destruct Habs as [_ Habs].
    specialize (Habs day). rewrite isMint_mintLog, String.eqb_refl in Habs.
    discriminate. }
  destruct r0 as [[id0|]|e|msg].
  - destruct Hcase as (_ & _ & ->). rewrite since_advance in Hin. contradiction.
  - destruct Hcase as (-> & -> & ->).
    rewrite advance_advance, since_advance in Hin.
    apply in_app_or in Hin. destruct Hin as [Hin|[Heq|[]]]; [contradiction|].
    injection Heq as <- <-.
    split; [reflexivity|]. split; [reflexivity|]. simpl. apply lookup_insert_eq.
  - destruct Hcase as (_ & _ & ->). rewrite since_advance in Hin. contradiction.
  - destruct Hcase as (_ & _ & ->). rewrite since_advance in Hin. contradiction.
Qed.

(** *** [SetAttendance] *)

Lemma normalizePeriod_run (p : Period) (c : Client) (w : World) :
  exists n p', normalizePeriod p c w = (Ok p', c, advance n [] w) /\ normalizes p p'.
Proof.
  unfold normalizePeriod, bind.
  destruct (decide (ID p = uuid_Nil)) as [Hnil|Hid].
  - unfold uuid_New, ret. exists 1%nat. eexists. rewrite <- draw_advance.
    split; [reflexivity|]. unfold normalizes. simpl. repeat split. congruence.
  - unfold ret. exists 0%nat. eexists. rewrite advance_0_nil.
    split; [reflexivity|]. unfold normalizes. simpl. repeat split.
Qed.

Lemma normalizePeriods_run (periods : list Period) (c : Client) (w : World) :
  exists n periods',
    normalizePeriods periods c w = (Ok periods', c, advance n [] w)
    /\ Forall2 normalizes periods periods'.
Proof.
  revert w. induction periods as [|p rest IH]; intros w.
  - exists 0%nat, []. simpl. rewrite advance_0_nil. split; [reflexivity|constructor].
  - cbn [normalizePeriods]. unfold bind at 1.
    destruct (normalizePeriod_run p c w) as (n1 & p' & -> & Hp).
    unfold bind at 1.
    destruct (IH (advance n1 [] w)) as (n2 & rest' & -> & Hrest).
    unfold ret. exists (n2 + n1)%nat, (p' :: rest').
    rewrite advance_advance. split; [reflexivity|constructor; assumption].
Qed.

(** The course of [SetAttendance] on a logged-in client: the periods are
    normalised, the body is encoded, the day is resolved, and only then is
    the one write sent. *)
Lemma SetAttendance_run (date : Time) (periods : list Period)
    (c : Client) (w : World) r c' w' :
  authenticationState c = LoggedIn ->
  SetAttendance date periods c w = (r, c', w') ->
  exists n periods',
    Forall2 normalizes periods periods'
    /\ match attendanceBody (EmployeeID c) periods' with
       | Ok body =>
           exists r1 c1 w1,
             GetOrNewDayUUID date c (advance n [] w) = (r1, c1, w1)
             /\ c' = c1
             /\ match r1 with
                | Ok dayID =>
                    w' = record (Sent (NewRequest "PUT" (dayPath dayID) (Some body))) w1
                | Err e => r = Err e /\ w' = w1
                | Panic msg => r = Panic msg /\ w' = w1
                end
       | Err e => r = Err e /\ c' = c /\ w' = advance n [] w
       | Panic msg => r = Panic msg /\ c' = c /\ w' = advance n [] w
       end.
Proof.
  intros Hst Hrun. unfold SetAttendance in Hrun.
  rewrite login_check_passes in Hrun by exact Hst.
  unfold bind at 1 in Hrun.
  destruct (normalizePeriods_run periods c w) as (n & periods' & Hn & Hnorm).
  rewrite Hn in Hrun. clear Hn.
  exists n, periods'. split; [exact Hnorm|].
  unfold bind at 1, getClient in Hrun. unfold bind at 1, lift in Hrun.
  destruct (attendanceBody (EmployeeID c) periods') as [body|e|msg].
  - unfold bind at 1 in Hrun.
    destruct (GetOrNewDayUUID date c (advance n [] w)) as [[r1 c1] w1].
    exists r1, c1, w1. split; [reflexivity|].
    destruct r1 as [dayID|e|msg].
    + unfold bind, RawJSON in Hrun.
      set (req := NewRequest "PUT" (dayPath dayID) (Some body)) in *.
      destruct (transport w1 (trace w1) req) as [resp|msg].
      * unfold ParseResponseJSON in Hrun.
        destruct (isSuccess (StatusCode resp));
          [destruct (asAny (Payload resp))|];
          injection Hrun as <- <- <-; auto.
      * injection Hrun as <- <- <-. auto.
    + injection Hrun as <- <- <-. auto.
    + injection Hrun as <- <- <-. auto.
  - injection Hrun as <- <- <-. auto.
  - injection Hrun as <- <- <-. auto.
Qed.

Lemma readOnly_any (e : Event) : readOnly e -> anyEvent e.
Proof. intros _. exact I. Qed.

Lemma lookupEvent_any (e : Event) : lookupEvent e -> anyEvent e.
Proof. intros _. exact I. Qed.

Lemma Forall_anyEvent (evs : list Event) : Forall anyEvent evs.
Proof. apply Forall_forall. intros e _. exact I. Qed.

Lemma SetAttendance_obeys (day : string) (date : Time) (periods : list Period) :
  obeys (grows anyEvent day) (SetAttendance date periods).
Proof.
  intros c w r c' w' Hrun.
  destruct (loggedIn_dec c) as [Hst|Hst].
  - destruct (SetAttendance_run _ _ _ _ _ _ _ Hst Hrun) as (n & periods' & _ & Hcase).
    assert (Hnorm : grows anyEvent day c w c (advance n [] w))
      by (apply grows_world; [constructor|reflexivity]).
    destruct (attendanceBody (EmployeeID c) periods') as [body|e|msg].
    + destruct Hcase as (r1 & c1 & w1 & Hday & -> & Hcase).
      apply (GetOrNewDayUUID_obeys day) in Hday.
      apply (grows_weaken _ _ _ _ _ _ _ readOnly_any) in Hday.
      pose proof (grows_trans _ _ _ _ _ _ _ _ Hnorm Hday) as Hgrow.
      destruct r1 as [dayID|e|msg].
      * subst w'. eapply grows_trans; [exact Hgrow|].
        rewrite record_advance. apply grows_world; [apply Forall_anyEvent|reflexivity].
      * destruct Hcase as [_ ->]. exact Hgrow.
      * destruct Hcase as [_ ->]. exact Hgrow.
    + destruct Hcase as (_ & -> & ->). exact Hnorm.
    + destruct Hcase as (_ & -> & ->). exact Hnorm.
  - unfold SetAttendance in Hrun. rewrite login_check_refuses in Hrun by exact Hst.
    injection Hrun as <- <- <-. apply grows_refl.
Qed.

(** On a day that has its identifier the write goes straight to that
    identifier's path: no lookup, and the client stays as it is. *)
Lemma SetAttendance_hit (date : Time) (periods : list Period)
    (c : Client) (w : World) (id : UUID) r c' w' :
  dayIDCache c !! Format date DateOnly = Some (Some id) ->
  SetAttendance date periods c w = (r, c', w') ->
  c' = c
  /\ exists n evs, w' = advance n evs w
       /\ (evs = [] \/ exists body,
             evs = [Sent (NewRequest "PUT" (dayPath id) (Some body))]).
Proof.
  intros Hlook Hrun.
  destruct (loggedIn_dec c) as [Hst|Hst].
  - destruct (SetAttendance_run _ _ _ _ _ _ _ Hst Hrun) as (n & periods' & _ & Hcase).
    destruct (attendanceBody (EmployeeID c) periods') as [body|e|msg].
    + destruct Hcase as (r1 & c1 & w1 & Hday & -> & Hcase).
      rewrite (GetOrNewDayUUID_hit _ _ _ _ Hlook) in Hday.
      injection Hday as <- <- <-. split; [reflexivity|].
      exists n. eexists. rewrite Hcase, record_advance, advance_advance.
      split; [reflexivity|]. right. exists body. reflexivity.
    + destruct Hcase as (_ & -> & ->). split; [reflexivity|].
      exists n, []. auto.
    + destruct Hcase as (_ & -> & ->). split; [reflexivity|].
      exists n, []. auto.
  - unfold SetAttendance in Hrun. rewrite login_check_refuses in Hrun by exact Hst.
    injection Hrun as <- <- <-. split; [reflexivity|].
    exists 0%nat, []. rewrite advance_0_nil. auto.
Qed.

(** Every write that [SetAttendance] sends carries the normalised periods. *)
Lemma SetAttendance_submits (date : Time) (periods : list Period)
    (c : Client) (w : World) r c' w' (req : Request) :
  SetAttendance date periods c w = (r, c', w') ->
  In (Sent req) (since w w') -> Method req = "PUT" ->
  exists periods' body dayID,
    Forall2 normalizes periods periods'
    /\ attendanceBody (EmployeeID c) periods' = Ok body
    /\ req = NewRequest "PUT" (dayPath dayID) (Some body).
Proof.
  intros Hrun Hin Hput.
  destruct (loggedIn_dec c) as [Hst|Hst].
  - destruct (SetAttendance_run _ _ _ _ _ _ _ Hst Hrun) as (n & periods' & Hnorm & Hcase).
    destruct (attendanceBody (EmployeeID c) periods') as [body|e|msg] eqn:Hbody.
    + destruct Hcase as (r1 & c1 & w1 & Hday & -> & Hcase).
      destruct (GetOrNewDayUUID_obeys "" date _ _ _ _ _ Hday)
        as [(n1 & evs & -> & Hevs & _) _].
      assert (Hget : ~ In (Sent req) evs).
      { intros Habs. rewrite Forall_forall in Hevs.
        apply list_elem_of_In, Hevs in Habs. simpl in Habs. congruence. }
      destruct r1 as [dayID|e|msg].
      * subst w'. rewrite record_advance, !advance_advance, since_advance in Hin.
        simpl in Hin. apply in_app_or in Hin.
        destruct Hin as [Hin|[Heq|[]]]; [contradiction|].
        injection Heq as <-. exists periods', body, dayID. auto.
      * destruct Hcase as [_ ->].
        rewrite advance_advance, since_advance in Hin. contradiction.
      * destruct Hcase as [_ ->].
        rewrite advance_advance, since_advance in Hin. contradiction.
    + destruct Hcase as (_ & _ & ->). rewrite since_advance in Hin. destruct Hin.
    + destruct Hcase as (_ & _ & ->). rewrite since_advance in Hin. destruct Hin.
  - unfold SetAttendance in Hrun. rewrite login_check_refuses in Hrun by exact Hst.
    injection Hrun as <- <- <-. rewrite since_refl in Hin. destruct Hin.
Qed.

End Operations.

(** ** Runs *)

Module Runs.
Import Effects Operations.

Lemma obeys_weaken {A} (P Q : Event -> Prop) (day : string) (m : M A) :
  (forall e, P e -> Q e) -> obeys (grows P day) m -> obeys (grows Q day) m.
Proof.
  intros HPQ Hm c w r c' w' Hrun.
  eapply grows_weaken; [exact HPQ|]. eapply Hm. exact Hrun.
Qed.

Lemma obeys_discard {A} (P : Event -> Prop) (day : string) (m : M A) :
  obeys (grows P day) m -> obeys (grows P day) (discard m).
Proof.
  intros Hm. unfold discard. apply obeys_bind; [exact Hm|].
  intros _. apply obeys_ret.
Qed.

Lemma obeys_any_RawJSON (day : string) (req : Request) :
  obeys (grows anyEvent day) (RawJSON req).
Proof. apply obeys_RawJSON. exact I. Qed.

Lemma Login_obeys (day : string) (creds : Credentials) :
  obeys (grows anyEvent day) (Login creds).
Proof.
  unfold Login. apply obeys_bind; [apply obeys_any_RawJSON|].
  intros resp c w r c' w' Hrun.
  assert (Hsession : forall st cookie employee,
             grows anyEvent day c w (withSession c st cookie employee) w).
  { intros. split; [|auto]. exists 0%nat, []. rewrite advance_0_nil.
    split; [reflexivity|]. split; [constructor|]. split; [simpl; reflexivity|auto]. }
  destruct (Payload resp) as [| | |reply| |];
    try (injection Hrun as <- <- <-; apply grows_refl).
  destruct (newDeviceChallenge reply).
  - injection Hrun as <- <- <-. apply Hsession.
  - destruct (replyCookie reply), (replyEmployeeID reply);
      injection Hrun as <- <- <-; first [apply Hsession|apply grows_refl].
Qed.

Lemma GetWorkingTimes_obeys (day : string) (from to : Time) :
  obeys (grows anyEvent day) (GetWorkingTimes from to).
Proof.
  unfold GetWorkingTimes.
  repeat first
    [ apply obeys_any_RawJSON | apply obeys_ret | apply obeys_lift
    | apply obeys_getClient | apply obeys_getLocal | apply obeys_assertLoggedIn
    | apply obeys_ParseResponseJSON | apply obeys_bind; [|intros ?] ].
Qed.

Lemma SetWorkingTimes_obeys (day : string) (from to : Time) :
  obeys (grows anyEvent day) (SetWorkingTimes from to).
Proof.
  unfold SetWorkingTimes.
  repeat first
    [ apply obeys_any_RawJSON | apply obeys_ret | apply obeys_uuid_New
    | apply obeys_getClient | apply obeys_assertLoggedIn
    | apply obeys_ParseResponseJSON
    | apply obeys_emit; [exact I|reflexivity]
    | apply obeys_bind; [|intros ?] ].
Qed.

Lemma perform_obeys (day : string) (call : Call) :
  obeys (grows anyEvent day) (perform call).
Proof.
  destruct call; cbn [perform].
  - apply Login_obeys.
  - apply obeys_discard, (obeys_weaken lookupEvent); [apply lookupEvent_any|].
    apply GetAttendanceCalendar_obeys.
  - apply obeys_discard, (obeys_weaken lookupEvent); [apply lookupEvent_any|].
    apply GetMyAttendanceCalendar_obeys.
  - apply obeys_discard, (obeys_weaken lookupEvent); [apply lookupEvent_any|].
    apply GetDayUUID_obeys.
  - apply obeys_discard, (obeys_weaken readOnly); [apply readOnly_any|].
    apply GetOrNewDayUUID_obeys.
  - apply SetAttendance_obeys.
  - apply obeys_discard, GetWorkingTimes_obeys.
  - apply SetWorkingTimes_obeys.
Qed.

(** Over a whole run the cache only grows and every made-up identifier is
    paid for. *)
Lemma run_grows (day : string) (calls : list Call) (c : Client) (w : World) :
  grows anyEvent day c w (fst (run calls c w)) (snd (run calls c w)).
Proof.
  revert c w. induction calls as [|call rest IH]; intros c w.
  - apply grows_refl.
  - cbn [run]. destruct (perform call c w) as [[r c1] w1] eqn:Hcall.
    apply (perform_obeys day) in Hcall.
    destruct r; [eapply grows_trans; [exact Hcall|apply IH]
                |eapply grows_trans; [exact Hcall|apply IH]
                |exact Hcall].
Qed.

Lemma grows_mints (P : Event -> Prop) (day : string) c w c' w' :
  grows P day c w c' w' ->
  (mints day (since w w') + mintBudget day c' <= mintBudget day c)%nat.
Proof.
  intros [(n & evs & -> & _ & Hb & _) _]. rewrite since_advance. exact Hb.
Qed.

Lemma grows_stays (P : Event -> Prop) (day : string) c w c' w' (id : UUID) :
  grows P day c w c' w' ->
  dayIDCache c !! day = Some (Some id) ->
  dayIDCache c' !! day = Some (Some id)
  \/ exists id', In (LogDebug "Cached existing UUID for day." day id') (since w w').
Proof.
  intros [(n & evs & -> & _ & _ & Hs) _] Hid. rewrite since_advance. auto.
Qed.

Lemma hasID_budget (day : string) (c : Client) (id : UUID) :
  dayIDCache c !! day = Some (Some id) -> mintBudget day c = 0%nat.
Proof. intros H. unfold mintBudget, hasID. rewrite H. reflexivity. Qed.

Lemma budget_hasID (day : string) (c : Client) :
  mintBudget day c = 0%nat -> hasID day c = true.
Proof. unfold mintBudget. destruct (hasID day c); [reflexivity|discriminate]. Qed.

End Runs.

(** ** Writes of attendance *)

Module Writes.
Import GoTimeFacts Effects Operations.

Lemma Periods_MarshalJSON_Forall2 (periods : list Period) (sent : list json) :
  Periods_MarshalJSON periods = Ok sent ->
  Forall2 (fun p j => Period_MarshalJSON p = Ok j) periods sent.
Proof.
  revert sent. induction periods as [|p rest IH]; intros sent Hm.
  - injection Hm as <-. constructor.
  - cbn [Periods_MarshalJSON] in Hm.
    destruct (Period_MarshalJSON p) as [j|e|msg] eqn:Hp; try discriminate.
    destruct (Periods_MarshalJSON rest) as [js|e|msg]; try discriminate.
    injection Hm as <-. constructor; [exact Hp|apply IH; reflexivity].
Qed.

Lemma attendanceBody_inv (employeeID : Z) (periods : list Period) (body : json) :
  attendanceBody employeeID periods = Ok body ->
  exists sent, body = attendanceJSON employeeID sent
               /\ Forall2 (fun p j => Period_MarshalJSON p = Ok j) periods sent.
Proof.
  unfold attendanceBody.
  destruct (Periods_MarshalJSON periods) as [js|e|msg] eqn:Hm; try discriminate.
  intros [= <-]. exists js. split; [reflexivity|].
  apply Periods_MarshalJSON_Forall2. exact Hm.
Qed.

(** The fields of a period on the wire. *)
Lemma Period_MarshalJSON_fields (p : Period) (j : json) :
  Period_MarshalJSON p = Ok j ->
  jsonField "period_type" j = Some (JString (Period_PeriodType p))
  /\ jsonField "start" j = Some (JString (Format (Start p) RFC3339Nano))
  /\ jsonField "end" j = Some (JString (Format (End_ p) RFC3339Nano)).
Proof.
  unfold Period_MarshalJSON, MarshalJSON.
  destruct ((Year (Start p) <? 0) || (10000 <=? Year (Start p))); [discriminate|].
  destruct ((Year (End_ p) <? 0) || (10000 <=? Year (End_ p))); [discriminate|].
  intros [= <-]. repeat split.
Qed.

Lemma normalized_whole_second (t : Time) :
  wholeSecondUTC t (UTC (Truncate t Second)).
Proof.
  destruct (Truncate_Second_whole t) as [Hns Hb].
  unfold wholeSecondUTC, Nanosecond_of, UTC in *. simpl. auto.
Qed.

(** Every write carries, period by period, what the loop made of the
    periods that were passed in. *)
Lemma SetAttendance_body (date : Time) (periods : list Period)
    (c : Client) (w : World) r c' w' (req : Request) :
  SetAttendance date periods c w = (r, c', w') ->
  In (Sent req) (since w w') -> Method req = "PUT" ->
  exists sent dayID,
    req = NewRequest "PUT" (dayPath dayID)
                     (Some (attendanceJSON (EmployeeID c) sent))
    /\ Forall2 (fun p j => exists p', normalizes p p' /\ Period_MarshalJSON p' = Ok j)
               periods sent.
Proof.
  intros Hrun Hin Hput.
  destruct (SetAttendance_submits _ _ _ _ _ _ _ _ Hrun Hin Hput)
    as (periods' & body & dayID & Hnorm & Hbody & ->).
  apply attendanceBody_inv in Hbody. destruct Hbody as (sent & -> & Hsent).
  exists sent, dayID. split; [reflexivity|].
  clear -Hnorm Hsent. revert sent Hsent.
  induction Hnorm as [|p p' rest rest' Hp Hrest IH]; intros sent Hsent.
  - inversion Hsent. constructor.
  - inversion Hsent as [|? j ? js Hj Hjs]; subst.
    constructor; [exists p'; auto|apply IH; exact Hjs].
Qed.

(** C3. Whatever SetAttendance puts on the wire carries, for every period
    passed in, start and end cut to the whole second and read in UTC: the
    texts sent are the UTC wall clock followed by Z, of an instant that is
    the period's own with the fraction of the second dropped. *)
Theorem SetAttendance_sends_whole_seconds_UTC (date : Time) (periods : list Period)
    (c : Client) (w : World) r c' w' (req : Request) :
  SetAttendance date periods c w = (r, c', w') ->
  In (Sent req) (since w w') -> Method req = "PUT" ->
  exists sent,
    Body req = Some (attendanceJSON (EmployeeID c) sent)
    /\ Forall2 (fun p j =>
                  let start := UTC (Truncate (Start p) Second) in
                  let end_ := UTC (Truncate (End_ p) Second) in
                  wholeSecondUTC (Start p) start
                  /\ wholeSecondUTC (End_ p) end_
                  /\ jsonField "start" j = Some (JString (Format start layoutSecondsZ))
                  /\ jsonField "end" j = Some (JString (Format end_ layoutSecondsZ)))
               periods sent.
Proof.
  intros Hrun Hin Hput.
  destruct (SetAttendance_body _ _ _ _ _ _ _ _ Hrun Hin Hput)
    as (sent & dayID & -> & Hsent).
  exists sent. split; [reflexivity|].
  eapply Forall2_impl; [exact Hsent|].
  intros p j (p' & Hnorm & Hj). cbv zeta.
  destruct Hnorm as (_ & Hstart & Hend & _).
  apply Period_MarshalJSON_fields in Hj. destruct Hj as (_ & Hjs & Hje).
  rewrite Hstart in Hjs. rewrite Hend in Hje.
  pose proof (normalized_whole_second (Start p)) as Hws.
  pose proof (normalized_whole_second (End_ p)) as Hwe.
  split; [exact Hws|]. split; [exact Hwe|].
  rewrite <- !Format_whole_second_UTC;
    try (apply Hws); try (apply Hwe); auto.
Qed.

Lemma jan18Write_sent :
  In (Sent Fixtures.jan18Write)
     (since (Fixtures.worldOf Fixtures.calendarServer)
        (snd (SetAttendance Fixtures.jan18_1300
                [Fixtures.untypedPeriod; Fixtures.breakPeriod]
                Fixtures.loggedIn (Fixtures.worldOf Fixtures.calendarServer)))).
Proof. vm_compute. right. right. right. left. reflexivity. Qed.

Lemma SetAttendance_sends_whole_seconds_UTC_witness :
  Method Fixtures.jan18Write = "PUT"
  /\ exists sent,
       Body Fixtures.jan18Write
       = Some (attendanceJSON (EmployeeID Fixtures.loggedIn) sent)
       /\ Forall2 (fun p j =>
                     let start := UTC (Truncate (Start p) Second) in
                     let end_ := UTC (Truncate (End_ p) Second) in
                     wholeSecondUTC (Start p) start
                     /\ wholeSecondUTC (End_ p) end_
                     /\ jsonField "start" j
                        = Some (JString (Format start layoutSecondsZ))
                     /\ jsonField "end" j
                        = Some (JString (Format end_ layoutSecondsZ)))
                  [Fixtures.untypedPeriod; Fixtures.breakPeriod] sent.
Proof.
  split; [reflexivity|].
  destruct (SetAttendance Fixtures.jan18_1300
              [Fixtures.untypedPeriod; Fixtures.breakPeriod]
              Fixtures.loggedIn (Fixtures.worldOf Fixtures.calendarServer))
    as [[r c'] w'] eqn:Hrun.
  apply (SetAttendance_sends_whole_seconds_UTC _ _ _ _ _ _ _ _ Hrun).
  - pose proof jan18Write_sent as Hin. rewrite Hrun in Hin. exact Hin.
  - reflexivity.
Defined.

(** C8. In whatever SetAttendance puts on the wire, a period that came with
    no type has type work, and a period that came with a type has kept it. *)
Theorem SetAttendance_defaults_type_to_work (date : Time) (periods : list Period)
    (c : Client) (w : World) r c' w' (req : Request) :
  SetAttendance date periods c w = (r, c', w') ->
  In (Sent req) (since w w') -> Method req = "PUT" ->
  exists sent,
    Body req = Some (attendanceJSON (EmployeeID c) sent)
    /\ Forall2 (fun p j =>
                  (Period_PeriodType p = ""
                   -> jsonField "period_type" j = Some (JString PeriodTypeWork))
                  /\ (Period_PeriodType p <> ""
                      -> jsonField "period_type" j
                         = Some (JString (Period_PeriodType p))))
               periods sent.
Proof.
  intros Hrun Hin Hput.
  destruct (SetAttendance_body _ _ _ _ _ _ _ _ Hrun Hin Hput)
    as (sent & dayID & -> & Hsent).
  exists sent. split; [reflexivity|].
  eapply Forall2_impl; [exact Hsent|].
  intros p j (p' & Hnorm & Hj).
  destruct Hnorm as (Htype & _).
  apply Period_MarshalJSON_fields in Hj. destruct Hj as (Hjt & _).
  rewrite Htype in Hjt.
  split; intros Hp.
  - rewrite Hp in Hjt. exact Hjt.
  - apply String.eqb_neq in Hp. rewrite Hp in Hjt. exact Hjt.
Qed.

Lemma SetAttendance_defaults_type_to_work_witness :
  Method Fixtures.jan18Write = "PUT"
  /\ exists sent,
       Body Fixtures.jan18Write
       = Some (attendanceJSON (EmployeeID Fixtures.loggedIn) sent)
       /\ Forall2 (fun p j =>
                     (Period_PeriodType p = ""
                      -> jsonField "period_type" j = Some (JString PeriodTypeWork))
                     /\ (Period_PeriodType p <> ""
                         -> jsonField "period_type" j
                            = Some (JString (Period_PeriodType p))))
                  [Fixtures.untypedPeriod; Fixtures.breakPeriod] sent.
Proof.
  split; [reflexivity|].
  destruct (SetAttendance Fixtures.jan18_1300
              [Fixtures.untypedPeriod; Fixtures.breakPeriod]
              Fixtures.loggedIn (Fixtures.worldOf Fixtures.calendarServer))
    as [[r c'] w'] eqn:Hrun.
  apply (SetAttendance_defaults_type_to_work _ _ _ _ _ _ _ _ Hrun).
  - pose proof jan18Write_sent as Hin. rewrite Hrun in Hin. exact Hin.
  - reflexivity.
Defined.

(** The example of the specification: a start of 2023-01-18T13:00:00.750Z
    goes out as 2023-01-18T13:00:00Z, and a period without type as work. *)
Example spec_example_normalized :
  requests (since (Fixtures.worldOf Fixtures.calendarServer)
              (snd (SetAttendance Fixtures.jan18_1300
                      [Fixtures.untypedPeriod; Fixtures.breakPeriod]
                      Fixtures.loggedIn
                      (Fixtures.worldOf Fixtures.calendarServer))))
  = [NewRequest "GET"
       "/svc/attendance-bff/attendance-calendar/991824?end_date=2023-01-31&start_date=2023-01-01"
       None;
     Fixtures.jan18Write]
  /\ Format Fixtures.jan18_1300 RFC3339Nano = "2023-01-18T13:00:00.75Z".
Proof. vm_compute. split; reflexivity. Qed.

End Writes.

(** ** The day-ID cache *)

Module DayCache.
Import GoTimeFacts Effects Operations Runs.

(** After a run that started with an identifier for the day in the cache,
    none was made up for it, the day still has an identifier, and it is the
    same one unless the server reported one for that day during the run. *)
Lemma run_keeps_identifier (day : string) (calls : list Call)
    (c : Client) (w : World) (id : UUID) :
  dayIDCache c !! day = Some (Some id) ->
  mints day (since w (snd (run calls c w))) = 0%nat
  /\ hasID day (fst (run calls c w)) = true
  /\ (dayIDCache (fst (run calls c w)) !! day = Some (Some id)
      \/ exists id', In (LogDebug "Cached existing UUID for day." day id')
                        (since w (snd (run calls c w)))).
Proof.
  intros Hlook. pose proof (grows_mints _ _ _ _ _ _ (run_grows day calls c w)) as Hb.
  rewrite (hasID_budget _ _ _ Hlook) in Hb.
  split; [lia|]. split; [apply budget_hasID; lia|].
  exact (grows_stays _ _ _ _ _ _ _ (run_grows day calls c w) Hlook).
Qed.

(** In a run, an identifier is made up for a day at most once. *)
Lemma run_mints_once (day : string) (calls : list Call) (c : Client) (w : World) :
  (mints day (since w (snd (run calls c w))) <= 1)%nat.
Proof.
  pose proof (grows_mints _ _ _ _ _ _ (run_grows day calls c w)) as Hb.
  pose proof (mintBudget_le_1 day c). lia.
Qed.

(** An entry of the cache stays an entry through a run. *)
Lemma run_keeps_entries (calls : list Call) (c : Client) (w : World) (k : string) :
  is_Some (dayIDCache c !! k) -> is_Some (dayIDCache (fst (run calls c w)) !! k).
Proof. intros Hk. destruct (run_grows "" calls c w) as [_ Hkeep]. auto. Qed.

(** C2. GetOrNewDayUUID is idempotent within a run: once it has returned an
    identifier for a date, calling it again for that date, in whatever state
    the world is, returns the same identifier and changes nothing (no
    request, no identifier drawn, no log line); so it does after any run of
    calls in between during which the server reported no identifier of its
    own for that day. The first call makes up at most one identifier for the
    day, no run of calls that follows makes up another, and in any run at
    all at most one is made up per day. *)
Theorem GetOrNewDayUUID_idempotent (date : Time) (c : Client) (w : World)
    (id : UUID) (c1 : Client) (w1 : World) :
  GetOrNewDayUUID date c w = (Ok id, c1, w1) ->
  (forall w2, GetOrNewDayUUID date c1 w2 = (Ok id, c1, w2))
  /\ (mints (Format date DateOnly) (since w w1) <= 1)%nat
  /\ (forall calls w2,
        mints (Format date DateOnly) (since w2 (snd (run calls c1 w2))) = 0%nat
        /\ hasID (Format date DateOnly) (fst (run calls c1 w2)) = true
        /\ ((forall id', ~ In (LogDebug "Cached existing UUID for day."
                                        (Format date DateOnly) id')
                              (since w2 (snd (run calls c1 w2)))) ->
            forall w3, GetOrNewDayUUID date (fst (run calls c1 w2)) w3
                       = (Ok id, fst (run calls c1 w2), w3)))
  /\ (forall day calls c0 w0,
        (mints day (since w0 (snd (run calls c0 w0))) <= 1)%nat).
Proof.
  intros Hrun.
  pose proof (GetOrNewDayUUID_cached _ _ _ _ _ _ Hrun) as Hcached.
  split; [|split; [|split]].
  - intros w2. apply GetOrNewDayUUID_hit. exact Hcached.
  - pose proof (grows_mints _ _ _ _ _ _
                  (GetOrNewDayUUID_obeys (Format date DateOnly) date _ _ _ _ _ Hrun)).
    pose proof (mintBudget_le_1 (Format date DateOnly) c). lia.
  - intros calls w2.
    destruct (run_keeps_identifier _ calls c1 w2 _ Hcached) as (Hm & Hhas & Hstay).
    split; [exact Hm|]. split; [exact Hhas|].
    intros Hquiet w3. apply GetOrNewDayUUID_hit.
    destruct Hstay as [Hstay|[id' Hlog]]; [exact Hstay|].
    exfalso. exact (Hquiet id' Hlog).
  - intros. apply run_mints_once.
Qed.

Lemma GetOrNewDayUUID_idempotent_witness :
  fst (fst (GetOrNewDayUUID Fixtures.jan18_1300 Fixtures.loggedIn
              (Fixtures.worldOf Fixtures.calendarServer)))
  = Ok Fixtures.firstID
  /\ forall w2,
       GetOrNewDayUUID Fixtures.jan18_1300
         (snd (fst (GetOrNewDayUUID Fixtures.jan18_1300 Fixtures.loggedIn
                      (Fixtures.worldOf Fixtures.calendarServer)))) w2
       = (Ok Fixtures.firstID,
          snd (fst (GetOrNewDayUUID Fixtures.jan18_1300 Fixtures.loggedIn
                      (Fixtures.worldOf Fixtures.calendarServer))), w2).
Proof.
  assert (Hr : fst (fst (GetOrNewDayUUID Fixtures.jan18_1300 Fixtures.loggedIn
                           (Fixtures.worldOf Fixtures.calendarServer)))
               = Ok Fixtures.firstID) by (vm_compute; reflexivity).
  split; [exact Hr|].
  destruct (GetOrNewDayUUID Fixtures.jan18_1300 Fixtures.loggedIn
              (Fixtures.worldOf Fixtures.calendarServer))
    as [[r c1] w1] eqn:Hrun.
  simpl in Hr. subst r. simpl.
  exact (proj1 (GetOrNewDayUUID_idempotent _ _ _ _ _ _ Hrun)).
Defined.

(** C4, as the code has it. There is no rollback after a failed write: if
    SetAttendance made up an identifier for the day, then whatever came of
    the call, the identifier is in the cache when the call is over. A retry
    for the same day, in whatever state the world is, leaves the client as
    it is, makes up no identifier, sends no request but the write, and sends
    that to the path of the identifier made up before. Through any run of
    calls that follows none is made up for the day again, and the cache
    keeps the identifier for the day unless the server itself reports one
    for it: a calendar answer that lists the day puts the server's
    identifier in its place. Either way a retry after such a run makes up
    no identifier and writes to the path of the identifier the cache then
    holds for the day. *)
Theorem minted_identifier_survives_failed_write (date : Time) (periods : list Period)
    (c : Client) (w : World) r (c1 : Client) (w1 : World)
    (day : string) (id : UUID) :
  SetAttendance date periods c w = (r, c1, w1) ->
  In (mintLog day id) (since w w1) ->
  day = Format date DateOnly
  /\ dayIDCache c1 !! day = Some (Some id)
  /\ (forall date' periods' w2 r2 c2 w2',
        Format date' DateOnly = day ->
        SetAttendance date' periods' c1 w2 = (r2, c2, w2') ->
        c2 = c1
        /\ mints day (since w2 w2') = 0%nat
        /\ forall req, In (Sent req) (since w2 w2') ->
                       Method req = "PUT" /\ URL req = dayPath id)
  /\ (forall calls w2,
        mints day (since w2 (snd (run calls c1 w2))) = 0%nat
        /\ hasID day (fst (run calls c1 w2)) = true
        /\ (dayIDCache (fst (run calls c1 w2)) !! day = Some (Some id)
            \/ exists id', In (LogDebug "Cached existing UUID for day." day id')
                              (since w2 (snd (run calls c1 w2)))))
  /\ (forall calls w2 date' periods' w3 r3 c3 w3',
        Format date' DateOnly = day ->
        SetAttendance date' periods' (fst (run calls c1 w2)) w3 = (r3, c3, w3') ->
        mints day (since w3 w3') = 0%nat
        /\ exists id',
             dayIDCache (fst (run calls c1 w2)) !! day = Some (Some id')
             /\ forall req, In (Sent req) (since w3 w3') ->
                            Method req = "PUT" /\ URL req = dayPath id').
Proof.
  intros Hrun Hin.
  assert (Hst : authenticationState c = LoggedIn).
  { destruct (loggedIn_dec c) as [Hst|Hst]; [exact Hst|].
    unfold SetAttendance in Hrun. rewrite login_check_refuses in Hrun by exact Hst.
    injection Hrun as <- <- <-. rewrite since_refl in Hin. destruct Hin. }
  assert (Hmint : day = Format date DateOnly /\ dayIDCache c1 !! day = Some (Some id)).
  { destruct (SetAttendance_run _ _ _ _ _ _ _ Hst Hrun) as (n & periods' & _ & Hcase).
    destruct (attendanceBody (EmployeeID c) periods') as [body|e|msg].
    - destruct Hcase as (r1 & c0 & w0 & Hday & -> & Hcase).
      pose proof (GetOrNewDayUUID_mint date c (advance n [] w) r1 c0 w0 day id Hday)
        as Hfound.
      destruct (GetOrNewDayUUID_obeys day date _ _ _ _ _ Hday)
        as [(n0 & evs & Hw0 & _ & _) _].
      rewrite Hw0 in Hfound. rewrite since_advance in Hfound.
      assert (Hevs : In (mintLog day id) evs).
      { rewrite Hw0 in Hcase.
        destruct r1 as [dayID|e|msg].
        - subst w1. rewrite record_advance, !advance_advance, since_advance in Hin.
          simpl in Hin. apply in_app_or in Hin.
          destruct Hin as [Hin|[Heq|[]]]; [exact Hin|discriminate].
        - destruct Hcase as [_ ->].
          rewrite advance_advance, since_advance in Hin. exact Hin.
        - destruct Hcase as [_ ->].
          rewrite advance_advance, since_advance in Hin. exact Hin. }
      destruct (Hfound Hevs) as (Hd & _ & Hc). auto.
    - destruct Hcase as (_ & _ & ->). rewrite since_advance in Hin. destruct Hin.
    - destruct Hcase as (_ & _ & ->). rewrite since_advance in Hin. destruct Hin. }
  destruct Hmint as [Hday Hcached].
  assert (Hretry : forall c0 id0 date' periods' w2 r2 c2 w2',
             dayIDCache c0 !! day = Some (Some id0) ->
             Format date' DateOnly = day ->
             SetAttendance date' periods' c0 w2 = (r2, c2, w2') ->
             c2 = c0
             /\ mints day (since w2 w2') = 0%nat
             /\ forall req, In (Sent req) (since w2 w2') ->
                            Method req = "PUT" /\ URL req = dayPath id0).
  { intros c0 id0 date' periods' w2 r2 c2 w2' Hlook Hsame Hagain.
    rewrite <- Hsame in Hlook.
    destruct (SetAttendance_hit _ _ _ _ _ _ _ _ Hlook Hagain)
      as (-> & n & evs & -> & Hevs).
    split; [reflexivity|]. rewrite since_advance.
    destruct Hevs as [->|[body ->]].
    + split; [reflexivity|]. intros req [].
    + split; [reflexivity|]. intros req [[= <-]|[]]. split; reflexivity. }
  split; [exact Hday|]. split; [exact Hcached|]. split; [|split].
  - intros date' periods' w2 r2 c2 w2'. apply Hretry. exact Hcached.
  - intros calls w2. eapply run_keeps_identifier. exact Hcached.
  - intros calls w2 date' periods' w3 r3 c3 w3' Hsame Hagain.
    destruct (run_keeps_identifier day calls c1 w2 id Hcached) as (_ & Hhas & _).
    unfold hasID in Hhas.
    destruct (dayIDCache (fst (run calls c1 w2)) !! day) as [[id'|]|] eqn:Hlook;
      try discriminate Hhas.
    destruct (Hretry _ id' _ _ _ _ _ _ Hlook Hsame Hagain) as (_ & Hnone & Hput).
    split; [exact Hnone|]. exists id'. split; [reflexivity|exact Hput].
Qed.

Lemma minted_identifier_survives_failed_write_witness :
  fst (fst (SetAttendance Fixtures.jan18_1300
              [Fixtures.untypedPeriod; Fixtures.breakPeriod] Fixtures.loggedIn
              (Fixtures.worldOf Fixtures.readOnlyServer)))
  = Err (ErrStatus 500)
  /\ In (mintLog "2023-01-18" Fixtures.secondID)
        (since (Fixtures.worldOf Fixtures.readOnlyServer)
           (snd (SetAttendance Fixtures.jan18_1300
                   [Fixtures.untypedPeriod; Fixtures.breakPeriod]
                   Fixtures.loggedIn
                   (Fixtures.worldOf Fixtures.readOnlyServer))))
  /\ dayIDCache
       (snd (fst (SetAttendance Fixtures.jan18_1300
                    [Fixtures.untypedPeriod; Fixtures.breakPeriod]
                    Fixtures.loggedIn
                    (Fixtures.worldOf Fixtures.readOnlyServer))))
     !! "2023-01-18"
     = Some (Some Fixtures.secondID).
Proof.
  assert (Hr : fst (fst (SetAttendance Fixtures.jan18_1300
                           [Fixtures.untypedPeriod; Fixtures.breakPeriod]
                           Fixtures.loggedIn
                           (Fixtures.worldOf Fixtures.readOnlyServer)))
               = Err (ErrStatus 500)) by (vm_compute; reflexivity).
  assert (Hin : In (mintLog "2023-01-18" Fixtures.secondID)
                  (since (Fixtures.worldOf Fixtures.readOnlyServer)
                     (snd (SetAttendance Fixtures.jan18_1300
                             [Fixtures.untypedPeriod; Fixtures.breakPeriod]
                             Fixtures.loggedIn
                             (Fixtures.worldOf Fixtures.readOnlyServer)))))
    by (vm_compute; right; right; left; reflexivity).
  split; [exact Hr|]. split; [exact Hin|].
  destruct (SetAttendance Fixtures.jan18_1300
              [Fixtures.untypedPeriod; Fixtures.breakPeriod] Fixtures.loggedIn
              (Fixtures.worldOf Fixtures.readOnlyServer))
    as [[r c1] w1] eqn:Hrun.
  simpl in Hin |- *.
  exact (proj1 (proj2 (minted_identifier_survives_failed_write
                         _ _ _ _ _ _ _ _ _ Hrun Hin))).
Defined.

(** C4 as it is stated does not hold: the minted identifier does not
    always remain for the rest of the run. A write for 2023-01-31 that the
    server refuses leaves the identifier made up for that day in the cache;
    a lookup of a day of February follows, whose calendar answer names
    2023-01-31; cacheDayIDs stores the server's identifier for it over the
    minted one. *)
Lemma minted_identifier_is_replaced :
  ~ (forall (date : Time) (periods : list Period) (c : Client) (w : World)
            (day : string) (id : UUID) (calls : list Call),
        (exists e, fst (fst (SetAttendance date periods c w)) = Err e) ->
        In (mintLog day id) (since w (snd (SetAttendance date periods c w))) ->
        dayIDCache (fst (run calls (snd (fst (SetAttendance date periods c w)))
                             (snd (SetAttendance date periods c w))))
        !! day = Some (Some id)).
Proof.
  intros Hall.
  specialize (Hall Fixtures.jan31_0900 [Fixtures.untypedPeriod] Fixtures.loggedIn
                   (Fixtures.worldOf Fixtures.relistingServer)
                   "2023-01-31" Fixtures.secondID
                   [CallGetDayUUID Fixtures.feb10_0900]).
  vm_compute in Hall.
  assert (Hfailed : exists e : error, @Err unit (ErrStatus 500) = Err e)
    by (eexists; reflexivity).
  specialize (Hall Hfailed).
  match type of Hall with
  | ?A -> _ => assert (Hminted : A) by (right; left; reflexivity)
  end.
  specialize (Hall Hminted). discriminate Hall.
Qed.

(** The retry after that lookup goes to the server's identifier, not to the
    minted one. *)
Example replaced_identifier_trace :
  let failed := SetAttendance Fixtures.jan31_0900 [Fixtures.untypedPeriod]
                  Fixtures.loggedIn (Fixtures.worldOf Fixtures.relistingServer) in
  let later := run [CallGetDayUUID Fixtures.feb10_0900]
                   (snd (fst failed)) (snd failed) in
  let retry := SetAttendance Fixtures.jan31_0900 [Fixtures.untypedPeriod]
                 (fst later) (snd later) in
  fst (fst failed) = Err (ErrStatus 500)
  /\ map (fun req => (Method req, URL req)) (requests (trace (snd retry)))
     = [("GET", "/svc/attendance-bff/attendance-calendar/991824?end_date=2023-01-31&start_date=2023-01-01");
        ("PUT", "/api/v1/attendances/days/00000010-0000-4000-8000-000000000001");
        ("GET", "/svc/attendance-bff/attendance-calendar/991824?end_date=2023-02-28&start_date=2023-02-01");
        ("PUT", "/api/v1/attendances/days/0a1b2c3d-4e5f-4071-8293-a4b5c6d7e8f9")]%string.
Proof. vm_compute. split; reflexivity. Qed.

(** C1 as it is stated does not hold: when the server answers the calendar
    query with 503, the lookup of 2023-01-18 returns the error and caches
    nothing, and the lookup of 2023-01-19 sends the same query again. *)
Lemma failed_query_is_repeated :
  ~ (forall (c : Client) (w : World) (d1 d2 : Time),
        d1 <> d2 -> sameMonth d1 d2 = true ->
        (twoLookups d1 d2 c w <= 1)%nat).
Proof.
  intros Hall.
  specialize (Hall Fixtures.loggedIn (Fixtures.worldOf Fixtures.unavailableServer)
                     Fixtures.jan18_1300 Fixtures.jan19_0900_cet).
  assert (Hne : Fixtures.jan18_1300 <> Fixtures.jan19_0900_cet).
  { intros Heq. apply (f_equal unixNano) in Heq. vm_compute in Heq. discriminate. }
  specialize (Hall Hne eq_refl).
  vm_compute in Hall. lia.
Qed.

Example failed_query_trace :
  requests (trace (snd (GetDayUUID Fixtures.jan19_0900_cet Fixtures.loggedIn
                     (snd (GetDayUUID Fixtures.jan18_1300 Fixtures.loggedIn
                             (Fixtures.worldOf Fixtures.unavailableServer))))))
  = [NewRequest "GET"
       "/svc/attendance-bff/attendance-calendar/991824?end_date=2023-01-31&start_date=2023-01-01"
       None;
     NewRequest "GET"
       "/svc/attendance-bff/attendance-calendar/991824?end_date=2023-01-31&start_date=2023-01-01"
       None].
Proof. vm_compute. reflexivity. Qed.

End DayCache.

(** ** Working times *)

Module WorkingTimes.
Import Fixtures.

(** What [SetWorkingTimes] sends, whatever the server answers: one request,
    with the wall clock of [from] and [to] as they come, followed by Z. *)
Lemma SetWorkingTimes_body (from to : Time) (c : Client) (w : World) r c' w' :
  authenticationState c = LoggedIn ->
  SetWorkingTimes from to c w = (r, c', w') ->
  c' = c
  /\ requests (since w w')
     = [NewRequest "POST" "/api/v1/attendances/periods"
          (Some (workingTimesBody (uuid_fromRandom (entropy w (drawn w)))
                                  (EmployeeID c) from to))].
Proof.
  intros Hst Hrun. unfold SetWorkingTimes in Hrun.
  rewrite login_check_passes in Hrun by exact Hst.
  unfold bind at 1, uuid_New in Hrun. unfold bind at 1, getClient in Hrun.
  set (req := NewRequest _ _ _) in *.
  unfold bind at 1, RawJSON in Hrun.
  change (transport (draw w) (trace (draw w)) req)
    with (transport w (trace w) req) in Hrun.
  assert (Hsince : forall evs,
             requests evs = [] ->
             requests (since w (advance 0 evs (record (Sent req) (draw w)))) = [req]).
  { intros evs Hevs.
    rewrite Effects.record_advance, Effects.draw_advance,
      !Effects.advance_advance, Effects.since_advance.
    simpl. rewrite Hevs. reflexivity. }
  destruct (transport w (trace w) req) as [resp|msg].
  - unfold ParseResponseJSON in Hrun.
    destruct (isSuccess (StatusCode resp));
      [destruct (asPeriodsResult (Payload resp)) as [results|]|].
    + unfold bind, ret, emit in Hrun. injection Hrun as <- <- <-.
      split; [reflexivity|]. rewrite Effects.record_advance.
      apply (Hsince [LogPrintf "Got %d results" results]). reflexivity.
    + unfold bind, fail in Hrun. injection Hrun as <- <- <-.
      split; [reflexivity|]. rewrite <- (Effects.advance_0_nil (record _ _)).
      apply Hsince. reflexivity.
    + unfold bind, fail in Hrun. injection Hrun as <- <- <-.
      split; [reflexivity|]. rewrite <- (Effects.advance_0_nil (record _ _)).
      apply Hsince. reflexivity.
  - injection Hrun as <- <- <-.
    split; [reflexivity|]. rewrite <- (Effects.advance_0_nil (record _ _)).
    apply Hsince. reflexivity.
Qed.

(** C7 does not hold of the code. For from = 2023-01-18T13:00:00+01:00 and
    to = 2023-01-18T17:00:00+01:00 the one request SetWorkingTimes sends
    carries start 13:00:00Z and end 17:00:00Z, the wall clock at +01:00 with
    a Z behind it, whereas the instants in UTC are 12:00:00Z and
    16:00:00Z. *)
Theorem SetWorkingTimes_sends_wall_clock_as_UTC :
  requests (since (worldOf calendarServer)
              (snd (SetWorkingTimes jan18_1300_cet jan18_1700_cet loggedIn
                                    (worldOf calendarServer))))
  = [jan18WorkingTimes]
  /\ Format (UTC jan18_1300_cet) layoutSecondsZ = "2023-01-18T12:00:00Z"
  /\ Format (UTC jan18_1700_cet) layoutSecondsZ = "2023-01-18T16:00:00Z"
  /\ Format jan18_1300_cet layoutSecondsZ = "2023-01-18T13:00:00Z"
  /\ Format jan18_1700_cet layoutSecondsZ = "2023-01-18T17:00:00Z".
Proof. vm_compute. repeat split. Qed.

End WorkingTimes.

(** ** The session *)

Module Session.
Import Fixtures.

(** C9. A login reply that reports a new-device challenge puts the session
    in AwaitingDeviceChallenge and comes back as the error that carries the
    CSRF token, whether or not the reply also brings a session cookie: the
    session is never LoggedIn after it. *)
Theorem challenge_never_logs_in (creds : Credentials) (c : Client) (w : World)
    (resp : Response) (reply : LoginReply) (csrf : string) r c' w' :
  transport w (trace w) (loginRequest creds) = Replied resp ->
  Payload resp = PayloadLogin reply ->
  newDeviceChallenge reply = Some csrf ->
  Login creds c w = (r, c', w') ->
  authenticationState c' = AwaitingDeviceChallenge
  /\ authenticationState c' <> LoggedIn
  /\ r = Err (ErrAuthChallengeRequired csrf).
Proof.
  intros Hsend Hpayload Hchallenge. unfold Login, bind, RawJSON.
  rewrite Hsend, Hpayload, Hchallenge. intros [= <- <- <-]. simpl.
  repeat split. discriminate.
Qed.

Lemma challenge_never_logs_in_witness :
  newDeviceChallenge
    {| newDeviceChallenge := Some "csrf-5f2a";
       replyCookie := Some "personio_session";
       replyEmployeeID := Some 991824 |} = Some "csrf-5f2a"
  /\ authenticationState
       (snd (fst (Login credentials loggedIn (worldOf challengingServer))))
     = AwaitingDeviceChallenge.
Proof.
  split; [reflexivity|].
  destruct (Login credentials loggedIn (worldOf challengingServer))
    as [[r c'] w'] eqn:Hlogin.
  exact (proj1 (challenge_never_logs_in credentials loggedIn
                  (worldOf challengingServer) _ _ "csrf-5f2a" r c' w'
                  eq_refl eq_refl eq_refl Hlogin)).
Defined.

End Session.

(** * Further properties of the operations *)

(** The three parts of what a call comes back with. *)
Lemma result_inv {A} (r r' : outcome A) (c c' : Client) (w w' : World) :
  (r, c, w) = (r', c', w') -> r = r' /\ c = c' /\ w = w'.
Proof. intros H. inversion H. auto. Qed.

Lemma length_append (a b : string) :
  String.length (a +:+ b) = (String.length a + String.length b)%nat.
Proof. induction a as [|ch a IH]; [reflexivity|]. simpl. rewrite IH. reflexivity. Qed.

(** Two texts that end in parts of the same length agree part by part. *)
Lemma append_inj (a a' b b' : string) :
  a +:+ b = a' +:+ b' -> String.length b = String.length b' -> a = a' /\ b = b'.
Proof.
  revert a'. induction a as [|c a IH]; intros [|c' a'] Heq Hlen.
  - auto.
  - exfalso. apply (f_equal String.length) in Heq.
    rewrite !length_append in Heq. simpl in Heq. lia.
  - exfalso. apply (f_equal String.length) in Heq.
    rewrite !length_append in Heq. simpl in Heq. lia.
  - simpl in Heq. injection Heq as <- Heq.
    destruct (IH a' Heq Hlen) as [-> ->]. auto.
Qed.

(** ** Day-ID lookups, case by case *)

Module Lookups.
Import GoTimeFacts Effects Operations Runs.

(** The one step of [GetDayUUID] on a miss. *)
Lemma GetDayUUID_miss_unfold (date : Time) (c : Client) (w : World) :
  dayIDCache c !! Format date DateOnly = None ->
  GetDayUUID date c w
  = match GetMyAttendanceCalendar (fst (TimeFullMonth date))
                                  (snd (TimeFullMonth date)) c w with
    | (Ok cal, c1, w1) =>
        match cacheDayIDs (AttendanceDays cal) (fst (TimeFullMonth date))
                          (snd (TimeFullMonth date)) c1 w1 with
        | (Ok _, c2, w2) =>
            (Ok (default None (dayIDCache c2 !! Format date DateOnly)), c2, w2)
        | (Err e, c2, w2) => (Err e, c2, w2)
        | (Panic msg, c2, w2) => (Panic msg, c2, w2)
        end
    | (Err e, c1, w1) =>
        (Err (ErrWrap ("get days for range "
                       +:+ Format (fst (TimeFullMonth date)) DateOnly +:+ "-"
                       +:+ Format (snd (TimeFullMonth date)) DateOnly) e), c1, w1)
    | (Panic msg, c1, w1) => (Panic msg, c1, w1)
    end.
Proof.
  intros Hlook. unfold GetDayUUID, bind at 1, getCache, timeDateOnlyLayout.
  rewrite Hlook. destruct (TimeFullMonth date) as [startDate endDate].
  cbn [fst snd]. unfold bind at 1, wrapErr.
  destruct (GetMyAttendanceCalendar startDate endDate c w) as [[r1 c1] w1].
  destruct r1 as [cal|e|msg]; reflexivity.
Qed.

Lemma GetMyAttendanceCalendar_run (startDate endDate : Time)
    (c : Client) (w : World) r c' w' :
  GetMyAttendanceCalendar startDate endDate c w = (r, c', w') ->
  c' = c
  /\ ((w' = w /\ r = Err ErrNotLoggedIn)
      \/ exists req, w' = record (Sent req) w /\ Method req = "GET")
  /\ (forall cal, r = Ok cal -> exists req, w' = record (Sent req) w)
  /\ (forall msg, r <> Panic msg).
Proof.
  unfold GetMyAttendanceCalendar, bind, getClient.
  apply GetAttendanceCalendar_run.
Qed.

(** What the calendar request can fail with. *)
Lemma GetAttendanceCalendar_errors (employeeID : Z) (startDate endDate : Time)
    (c : Client) (w : World) (e : error) c' w' :
  GetAttendanceCalendar employeeID startDate endDate c w = (Err e, c', w') ->
  (e = ErrNotLoggedIn /\ authenticationState c <> LoggedIn /\ w' = w)
  \/ (authenticationState c = LoggedIn
      /\ ((exists msg, e = ErrTransport msg) \/ (exists code, e = ErrStatus code)
          \/ e = ErrDecode)).
Proof.
  destruct (loggedIn_dec c) as [Hst|Hst].
  - unfold GetAttendanceCalendar. rewrite login_check_passes by exact Hst.
    unfold calendarQuery. unfold bind at 1. rewrite apply_calendarQuery.
    unfold lift, bind, RawJSON.
    set (req := NewRequest _ _ _).
    destruct (transport w (trace w) req) as [resp|msg].
    + unfold ParseResponseJSON.
      destruct (isSuccess (StatusCode resp));
        [destruct (asCalendar (Payload resp))|];
        intros [= <- <- <-]; right; split; eauto.
    + intros [= <- <- <-]. right. split; eauto.
  - unfold GetAttendanceCalendar. rewrite login_check_refuses by exact Hst.
    intros [= <- <- <-]. left. auto.
Qed.

(** X1. When GetDayUUID returns an error nothing was cached: the client is
    as before, the date had no entry, at most one request went out, and the
    error is that of the calendar request (not logged in, transport, status
    or decoding) wrapped with the month window. *)
Theorem GetDayUUID_failure_caches_nothing (date : Time) (c : Client) (w : World)
    (e : error) c' w' :
  GetDayUUID date c w = (Err e, c', w') ->
  c' = c
  /\ dayIDCache c !! Format date DateOnly = None
  /\ (sentCount w' <= sentCount w + 1)%nat
  /\ exists cause,
       e = ErrWrap ("get days for range "
                    +:+ Format (fst (TimeFullMonth date)) DateOnly +:+ "-"
                    +:+ Format (snd (TimeFullMonth date)) DateOnly) cause
       /\ (cause = ErrNotLoggedIn \/ (exists msg, cause = ErrTransport msg)
           \/ (exists code, cause = ErrStatus code) \/ cause = ErrDecode).
Proof.
  intros Hrun.
  destruct (dayIDCache c !! Format date DateOnly) as [v|] eqn:Hlook.
  - rewrite (GetDayUUID_hit _ _ _ _ Hlook) in Hrun.
    apply result_inv in Hrun as (Hr & _). discriminate Hr.
  - pose proof (GetDayUUID_count _ _ _ _ _ _ Hrun) as Hcount.
    rewrite (GetDayUUID_miss_unfold _ _ _ Hlook) in Hrun.
    destruct (GetMyAttendanceCalendar (fst (TimeFullMonth date))
                (snd (TimeFullMonth date)) c w) as [[r1 c1] w1] eqn:Hcal.
    pose proof (GetMyAttendanceCalendar_run _ _ _ _ _ _ _ Hcal)
      as (-> & _ & _ & Hnopanic).
    destruct r1 as [cal|e1|msg1].
    + destruct (cacheDayIDs_run date (AttendanceDays cal) _ _ c w1
                  (surjective_pairing _)) as (c2 & Hcache & _).
      rewrite Hcache in Hrun. apply result_inv in Hrun as (Hr & _).
      discriminate Hr.
    + apply result_inv in Hrun as (He & <- & <-).
      split; [reflexivity|]. split; [reflexivity|].
      split; [exact Hcount|]. exists e1. split; [congruence|].
      unfold GetMyAttendanceCalendar, bind, getClient in Hcal.
      apply GetAttendanceCalendar_errors in Hcal.
      destruct Hcal as [(-> & _)|(_ & [H|[H|H]])]; auto.
    + exfalso. exact (Hnopanic msg1 eq_refl).
Qed.

Lemma GetDayUUID_failure_caches_nothing_witness :
  fst (fst (GetDayUUID Fixtures.jan18_1300 Fixtures.loggedIn
              (Fixtures.worldOf Fixtures.unavailableServer)))
  = Err (ErrWrap "get days for range 2023-01-01-2023-01-31" (ErrStatus 503))
  /\ snd (fst (GetDayUUID Fixtures.jan18_1300 Fixtures.loggedIn
                  (Fixtures.worldOf Fixtures.unavailableServer)))
     = Fixtures.loggedIn.
Proof.
  assert (Hr : fst (fst (GetDayUUID Fixtures.jan18_1300 Fixtures.loggedIn
                           (Fixtures.worldOf Fixtures.unavailableServer)))
               = Err (ErrWrap "get days for range 2023-01-01-2023-01-31"
                              (ErrStatus 503))) by (vm_compute; reflexivity).
  split; [exact Hr|].
  destruct (GetDayUUID Fixtures.jan18_1300 Fixtures.loggedIn
              (Fixtures.worldOf Fixtures.unavailableServer))
    as [[r c'] w'] eqn:Hrun.
  cbn [fst snd] in *. subst r.
  exact (proj1 (GetDayUUID_failure_caches_nothing _ _ _ _ _ _ Hrun)).
Defined.



(** *** What [cacheDayIDs] leaves in the cache *)

Lemma cacheKnownDays_cache (days : list CalendarDay) (c : Client) (w : World)
    r c' w' :
  cacheKnownDays days c w = (r, c', w') ->
  forall k, dayIDCache c' !! k
            = match lastListed k days with
              | Some id => Some (Some id)
              | None => dayIDCache c !! k
              end.
Proof.
  revert c w. induction days as [|d rest IH]; intros c w Hrun k.
  - apply result_inv in Hrun as (_ & <- & _). reflexivity.
  - cbn [cacheKnownDays] in Hrun. unfold bind at 1 2, setDayID, emit in Hrun.
    rewrite (IH _ _ Hrun k). cbn [lastListed].
    destruct (lastListed k rest) as [id|]; [reflexivity|].
    simpl dayIDCache.
    destruct (String.eqb (Day (Attributes d)) k) eqn:Hk.
    + apply String.eqb_eq in Hk. subst k. apply lookup_insert_eq.
    + apply String.eqb_neq in Hk. apply lookup_insert_ne. exact Hk.
Qed.

Lemma setUnknownDays_entries (fuel : nat) (date loopEnd : Time)
    (c : Client) (w : World) r c' w' :
  setUnknownDays fuel date loopEnd c w = (r, c', w') ->
  forall k, match dayIDCache c !! k with
            | Some v => dayIDCache c' !! k = Some v
            | None => dayIDCache c' !! k = None \/ dayIDCache c' !! k = Some None
            end.
Proof.
  revert date c. induction fuel as [|fuel IH]; intros date c Hrun k.
  - apply result_inv in Hrun as (_ & <- & _).
    destruct (dayIDCache c !! k); auto.
  - cbn [setUnknownDays] in Hrun. destruct (Before date loopEnd).
    + unfold bind, getCache in Hrun.
      remember (Format date timeDateOnlyLayout) as ds eqn:Hds. clear Hds.
      destruct (dayIDCache c !! ds) as [v|] eqn:Hlook.
      * unfold ret in Hrun. exact (IH _ _ Hrun k).
      * unfold setDayID in Hrun. pose proof (IH _ _ Hrun k) as Hk.
        simpl dayIDCache in Hk.
        destruct (decide (ds = k)) as [<-|Hne].
        -- rewrite lookup_insert_eq in Hk. rewrite Hlook. right. exact Hk.
        -- rewrite lookup_insert_ne in Hk by exact Hne. exact Hk.
    + apply result_inv in Hrun as (_ & <- & _).
      destruct (dayIDCache c !! k); auto.
Qed.

(** A day the answer names ends up with the identifier the answer gives. *)
Lemma cacheDayIDs_listed (days : list CalendarDay) (startDate endDate : Time)
    (c : Client) (w : World) r c' w' (k : string) (id : UUID) :
  cacheDayIDs days startDate endDate c w = (r, c', w') ->
  lastListed k days = Some id ->
  dayIDCache c' !! k = Some (Some id).
Proof.
  unfold cacheDayIDs, bind. intros Hrun Hlast.
  destruct (cacheKnownDays_run days c w) as [c1 Hknown].
  pose proof (cacheKnownDays_cache _ _ _ _ _ _ Hknown k) as Hc1.
  rewrite Hlast in Hc1. rewrite Hknown in Hrun.
  pose proof (setUnknownDays_entries _ _ _ _ _ _ _ _ Hrun k) as Hc2.
  rewrite Hc1 in Hc2. exact Hc2.
Qed.

(** X3. After cacheDayIDs every day the answer names holds the identifier
    the answer gives for it (the last one, if it is named more than once),
    whatever the cache held before; an entry for a day the answer does not
    name is left exactly as it was; and a day that had no entry has none or
    the undefined marker. So the marker is never put in the place of an
    identifier. *)
Theorem cacheDayIDs_entries (days : list CalendarDay) (startDate endDate : Time)
    (c : Client) (w : World) r c' w' :
  cacheDayIDs days startDate endDate c w = (r, c', w') ->
  forall k,
    match lastListed k days, dayIDCache c !! k with
    | Some id, _ => dayIDCache c' !! k = Some (Some id)
    | None, Some v => dayIDCache c' !! k = Some v
    | None, None => dayIDCache c' !! k = None \/ dayIDCache c' !! k = Some None
    end.
Proof.
  unfold cacheDayIDs, bind. intros Hrun k.
  destruct (cacheKnownDays_run days c w) as [c1 Hknown].
  pose proof (cacheKnownDays_cache _ _ _ _ _ _ Hknown k) as Hc1.
  rewrite Hknown in Hrun.
  pose proof (setUnknownDays_entries _ _ _ _ _ _ _ _ Hrun k) as Hc2.
  rewrite Hc1 in Hc2.
  destruct (lastListed k days) as [id|]; [exact Hc2|].
  destruct (dayIDCache c !! k); exact Hc2.
Qed.

Lemma cacheDayIDs_entries_witness :
  dayIDCache
    (snd (fst (cacheDayIDs [Fixtures.day20]
                 (fst (TimeFullMonth Fixtures.jan18_1300))
                 (snd (TimeFullMonth Fixtures.jan18_1300))
                 (withCache Fixtures.loggedIn {["2023-01-20" := None]})
                 (Fixtures.worldOf Fixtures.calendarServer))))
  !! "2023-01-20"
  = Some (Some (CalendarDay_ID Fixtures.day20)).
Proof.
  destruct (cacheDayIDs [Fixtures.day20]
              (fst (TimeFullMonth Fixtures.jan18_1300))
              (snd (TimeFullMonth Fixtures.jan18_1300))
              (withCache Fixtures.loggedIn {["2023-01-20" := None]})
              (Fixtures.worldOf Fixtures.calendarServer))
    as [[r c'] w'] eqn:Hrun.
  exact (cacheDayIDs_entries _ _ _ _ _ _ _ _ Hrun "2023-01-20").
Defined.

(** X4. GetDayUUID answers a date once: when it has returned a value, an
    identifier or the undefined marker, the cache holds that value for the
    date, and asking again, in whatever state the world is, returns the same
    value without request or any other effect. A day found undefined is not
    asked about again. *)
Theorem GetDayUUID_answers_once (date : Time) (c : Client) (w : World)
    (v : option UUID) (c1 : Client) (w1 : World) :
  GetDayUUID date c w = (Ok v, c1, w1) ->
  dayIDCache c1 !! Format date DateOnly = Some v
  /\ forall w2, GetDayUUID date c1 w2 = (Ok v, c1, w2).
Proof.
  intros Hrun.
  assert (Hentry : dayIDCache c1 !! Format date DateOnly = Some v).
  { pose proof (GetDayUUID_result _ _ _ _ _ _ Hrun) as Hres.
    destruct (dayIDCache c !! Format date DateOnly) as [v0|] eqn:Hlook.
    - rewrite (GetDayUUID_hit _ _ _ _ Hlook) in Hrun.
      apply result_inv in Hrun as (Hv & <- & _). congruence.
    - destruct (GetDayUUID_miss _ _ _ _ _ _ Hlook Hrun)
        as [(e & He & _)|(req & logs & _ & _ & _ & Hmonth)]; [discriminate|].
      assert (Hsame : sameMonth date date = true)
        by (unfold sameMonth; rewrite !Z.eqb_refl; reflexivity).
      destruct (Hmonth date Hsame) as [v1 Hv1]. rewrite Hv1 in Hres |- *.
      simpl in Hres. congruence. }
  split; [exact Hentry|]. intros w2. apply GetDayUUID_hit. exact Hentry.
Qed.

Lemma GetDayUUID_answers_once_witness :
  fst (fst (GetDayUUID Fixtures.jan18_1300 Fixtures.loggedIn
              (Fixtures.worldOf Fixtures.calendarServer))) = Ok None
  /\ forall w2,
       GetDayUUID Fixtures.jan18_1300
         (snd (fst (GetDayUUID Fixtures.jan18_1300 Fixtures.loggedIn
                      (Fixtures.worldOf Fixtures.calendarServer)))) w2
       = (Ok None,
          snd (fst (GetDayUUID Fixtures.jan18_1300 Fixtures.loggedIn
                      (Fixtures.worldOf Fixtures.calendarServer))), w2).
Proof.
  assert (Hr : fst (fst (GetDayUUID Fixtures.jan18_1300 Fixtures.loggedIn
                           (Fixtures.worldOf Fixtures.calendarServer))) = Ok None)
    by (vm_compute; reflexivity).
  split; [exact Hr|].
  destruct (GetDayUUID Fixtures.jan18_1300 Fixtures.loggedIn
              (Fixtures.worldOf Fixtures.calendarServer))
    as [[r c1] w1] eqn:Hrun.
  cbn [fst snd] in *. subst r.
  exact (proj2 (GetDayUUID_answers_once _ _ _ _ _ _ Hrun)).
Defined.

End Lookups.

(** ** The text of an identifier *)

Module Identifiers.

Lemma hexDigit_inj (a b : Z) :
  0 <= a < 16 -> 0 <= b < 16 -> hexDigit a = hexDigit b -> a = b.
Proof.
  intros Ha Hb H. apply (f_equal nat_of_ascii) in H. unfold hexDigit in H.
  destruct (Z.ltb_spec a 10), (Z.ltb_spec b 10);
    rewrite !nat_ascii_embedding in H by lia; lia.
Qed.

Lemma hex_length (n : nat) (u : Z) : String.length (hex n u) = n.
Proof.
  revert u. induction n as [|k IH]; intros u; [reflexivity|].
  cbn [hex]. rewrite length_append, IH. simpl. lia.
Qed.

Lemma hex_inj (n : nat) (u v : Z) :
  hex n u = hex n v -> u mod 16 ^ Z.of_nat n = v mod 16 ^ Z.of_nat n.
Proof.
  revert u v. induction n as [|k IH]; intros u v H.
  - simpl. rewrite !Z.mod_1_r. reflexivity.
  - cbn [hex] in H. apply append_inj in H; [|reflexivity].
    destruct H as [Hhigh Hlow]. apply IH in Hhigh.
    injection Hlow as Hlow.
    apply hexDigit_inj in Hlow; try (apply Z.mod_pos_bound; lia).
    rewrite Nat2Z.inj_succ, Z.pow_succ_r by lia.
    rewrite !Z.rem_mul_r by lia. congruence.
Qed.

Lemma uuidText_inj (A A' B B' C C' D D' E E' : string) :
  String.length B = String.length B' -> String.length C = String.length C' ->
  String.length D = String.length D' -> String.length E = String.length E' ->
  A +:+ "-" +:+ B +:+ "-" +:+ C +:+ "-" +:+ D +:+ "-" +:+ E
  = A' +:+ "-" +:+ B' +:+ "-" +:+ C' +:+ "-" +:+ D' +:+ "-" +:+ E' ->
  A = A' /\ B = B' /\ C = C' /\ D = D' /\ E = E'.
Proof.
  intros HB HC HD HE H.
  apply append_inj in H; [|rewrite !length_append; simpl; lia].
  destruct H as [-> H]. split; [reflexivity|].
  assert (H1 : B +:+ "-" +:+ C +:+ "-" +:+ D +:+ "-" +:+ E
               = B' +:+ "-" +:+ C' +:+ "-" +:+ D' +:+ "-" +:+ E')
    by (injection H as H; exact H).
  apply append_inj in H1; [|rewrite !length_append; simpl; lia].
  destruct H1 as [-> H1]. split; [reflexivity|].
  assert (H2 : C +:+ "-" +:+ D +:+ "-" +:+ E = C' +:+ "-" +:+ D' +:+ "-" +:+ E')
    by (injection H1 as H1; exact H1).
  apply append_inj in H2; [|rewrite !length_append; simpl; lia].
  destruct H2 as [-> H2]. split; [reflexivity|].
  assert (H3 : D +:+ "-" +:+ E = D' +:+ "-" +:+ E')
    by (injection H2 as H2; exact H2).
  apply append_inj in H3; [|rewrite !length_append; simpl; lia].
  destruct H3 as [-> H3]. split; [reflexivity|].
  injection H3 as H3. exact H3.
Qed.

(** The text of an identifier tells its 128 bits. *)
Lemma UUID_String_bits (u v : UUID) :
  UUID_String u = UUID_String v -> u mod 2 ^ 128 = v mod 2 ^ 128.
Proof.
  unfold UUID_String. intros H.
  apply uuidText_inj in H; try (rewrite !hex_length; reflexivity).
  destruct H as (H1 & H2 & H3 & H4 & H5).
  apply hex_inj in H1, H2, H3, H4, H5.
  change (16 ^ Z.of_nat 8) with 4294967296 in H1.
  change (16 ^ Z.of_nat 4) with 65536 in H2, H3, H4.
  change (16 ^ Z.of_nat 12) with 281474976710656 in H5.
  change (2 ^ 96) with 79228162514264337593543950336 in H1.
  change (2 ^ 80) with 1208925819614629174706176 in H2.
  change (2 ^ 64) with 18446744073709551616 in H3.
  change (2 ^ 48) with 281474976710656 in H4.
  change (2 ^ 128) with 340282366920938463463374607431768211456.
  Z.div_mod_to_equations. lia.
Qed.

Lemma UUID_String_inj (u v : UUID) :
  validUUID u -> validUUID v -> UUID_String u = UUID_String v -> u = v.
Proof.
  unfold validUUID. intros Hu Hv H. apply UUID_String_bits in H.
  rewrite !Z.mod_small in H by assumption. exact H.
Qed.

Lemma uuid_fromRandom_bit (raw : Z) : Z.testbit (uuid_fromRandom raw) 78 = true.
Proof.
  unfold uuid_fromRandom. rewrite Z.lor_spec.
  replace (Z.testbit (Z.lor (Z.shiftl 4 76) (Z.shiftl 2 62)) 78) with true
    by reflexivity.
  apply orb_true_r.
Qed.

Lemma uuid_fromRandom_text (raw : Z) :
  UUID_String (uuid_fromRandom raw) <> UUID_String uuid_Nil.
Proof.
  intros H. apply UUID_String_bits in H.
  apply (f_equal (fun x => Z.testbit x 78)) in H.
  rewrite Z.mod_pow2_bits_low in H by lia.
  rewrite uuid_fromRandom_bit in H. discriminate H.
Qed.

Lemma uuid_fromRandom_valid (raw : Z) : validUUID (uuid_fromRandom raw).
Proof.
  unfold validUUID.
  assert (Hmod : uuid_fromRandom raw mod 2 ^ 128 = uuid_fromRandom raw).
  { apply Z.bits_inj'. intros n Hn.
    destruct (Z.ltb_spec n 128) as [Hlow|Hhigh].
    - apply Z.mod_pow2_bits_low. lia.
    - rewrite Z.mod_pow2_bits_high by lia.
      unfold uuid_fromRandom. rewrite Z.lor_spec, Z.ldiff_spec.
      rewrite Z.mod_pow2_bits_high by lia.
      change (Z.lor (Z.shiftl 4 76) (Z.shiftl 2 62))
        with (Z.lor (Z.shiftl 4 76) (Z.shiftl 2 62) mod 2 ^ 128).
      rewrite Z.mod_pow2_bits_high by lia. reflexivity. }
  rewrite <- Hmod. apply Z.mod_pos_bound. lia.
Qed.

Lemma valid_text_not_Nil (u : UUID) :
  validUUID u -> u <> uuid_Nil -> UUID_String u <> UUID_String uuid_Nil.
Proof.
  intros Hu Hne H. apply Hne. apply UUID_String_inj; [exact Hu| |exact H].
  unfold validUUID, uuid_Nil. lia.
Qed.

End Identifiers.

(** ** The calendar answer and the write, step by step *)

Module Attendance.
Import GoTimeFacts Effects Operations Runs Writes Lookups Identifiers.

(** The calendar request on a logged-in client whose server answers with a
    calendar. *)
Lemma GetAttendanceCalendar_ok (employeeID : Z) (startDate endDate : Time)
    (c : Client) (w : World) (resp : Response) (cal : AttendanceCalendar) :
  authenticationState c = LoggedIn ->
  transport w (trace w) (calendarRequest employeeID startDate endDate)
  = Replied resp ->
  isSuccess (StatusCode resp) = true ->
  Payload resp = PayloadCalendar cal ->
  GetAttendanceCalendar employeeID startDate endDate c w
  = (Ok cal, c, record (Sent (calendarRequest employeeID startDate endDate)) w).
Proof.
  intros Hst Hreply Hstatus Hpayload. unfold GetAttendanceCalendar.
  rewrite login_check_passes by exact Hst.
  unfold calendarQuery. rewrite apply_calendarQuery.
  unfold bind at 1, lift. fold (calendarRequest employeeID startDate endDate).
  unfold bind, RawJSON. rewrite Hreply.
  unfold ParseResponseJSON. rewrite Hstatus, Hpayload. reflexivity.
Qed.

(** X5. When the month's calendar names the day, GetOrNewDayUUID returns the
    server's identifier for it (the last one listed) and caches it: no
    identifier is drawn, and all that happens is the one calendar request
    followed by the log lines of the days the answer names. *)
Theorem server_identifier_is_used (date : Time) (c : Client) (w : World)
    (resp : Response) (cal : AttendanceCalendar) (id : UUID) :
  authenticationState c = LoggedIn ->
  dayIDCache c !! Format date DateOnly = None ->
  transport w (trace w)
    (calendarRequest (EmployeeID c) (fst (TimeFullMonth date))
                     (snd (TimeFullMonth date)))
  = Replied resp ->
  isSuccess (StatusCode resp) = true ->
  Payload resp = PayloadCalendar cal ->
  lastListed (Format date DateOnly) (AttendanceDays cal) = Some id ->
  exists c' w',
    GetOrNewDayUUID date c w = (Ok id, c', w')
    /\ dayIDCache c' !! Format date DateOnly = Some (Some id)
    /\ drawn w' = drawn w
    /\ since w w'
       = Sent (calendarRequest (EmployeeID c) (fst (TimeFullMonth date))
                               (snd (TimeFullMonth date)))
         :: map cachedLog (AttendanceDays cal).
Proof.
  intros Hst Hlook Hreply Hstatus Hpayload Hlast.
  unfold GetOrNewDayUUID, bind at 1, wrapErr.
  rewrite (GetDayUUID_miss_unfold _ _ _ Hlook).
  unfold GetMyAttendanceCalendar, bind at 1, getClient.
  rewrite (GetAttendanceCalendar_ok _ _ _ _ _ _ _ Hst Hreply Hstatus Hpayload).
  set (req := calendarRequest _ _ _).
  destruct (cacheDayIDs_run date (AttendanceDays cal) (fst (TimeFullMonth date))
              (snd (TimeFullMonth date)) c (record (Sent req) w)
              (surjective_pairing _)) as (c2 & Hcache & _).
  rewrite Hcache.
  pose proof (cacheDayIDs_listed _ _ _ _ _ _ _ _ _ _ Hcache Hlast) as Hentry.
  rewrite Hentry. cbn [default]. unfold ret.
  exists c2, (advance 0 (map cachedLog (AttendanceDays cal)) (record (Sent req) w)).
  split; [reflexivity|]. split; [exact Hentry|]. split; [reflexivity|].
  rewrite record_advance, advance_advance. apply since_advance.
Qed.

Lemma server_identifier_is_used_witness :
  exists c' w',
    GetOrNewDayUUID (time_Date 2023 1 20 8 0 0 0 UTCLoc) Fixtures.loggedIn
                    (Fixtures.worldOf Fixtures.calendarServer)
    = (Ok (CalendarDay_ID Fixtures.day20), c', w')
    /\ drawn w' = 0%nat.
Proof.
  destruct (server_identifier_is_used (time_Date 2023 1 20 8 0 0 0 UTCLoc)
              Fixtures.loggedIn (Fixtures.worldOf Fixtures.calendarServer)
              {| StatusCode := 200;
                 Payload := PayloadCalendar {| AttendanceDays := [Fixtures.day20] |} |}
              {| AttendanceDays := [Fixtures.day20] |}
              (CalendarDay_ID Fixtures.day20)
              eq_refl eq_refl eq_refl eq_refl eq_refl eq_refl)
    as (c' & w' & Hrun & _ & Hdrawn & _).
  exists c', w'. split; [exact Hrun|exact Hdrawn].
Defined.

(** *** The write *)

Lemma marshalable_false (t : Time) :
  marshalable t = false -> MarshalJSON t = None.
Proof.
  unfold marshalable, MarshalJSON. intros H.
  destruct (Z.leb_spec 0 (Year t)), (Z.ltb_spec (Year t) 10000);
    try discriminate H.
  - destruct (Z.ltb_spec (Year t) 0); [reflexivity|].
    destruct (Z.leb_spec 10000 (Year t)); [reflexivity|lia].
  - destruct (Z.ltb_spec (Year t) 0); [reflexivity|lia].
  - destruct (Z.ltb_spec (Year t) 0); [reflexivity|lia].
Qed.

Lemma Period_MarshalJSON_cases (p : Period) :
  (exists j, Period_MarshalJSON p = Ok j)
  \/ exists msg, Period_MarshalJSON p = Err (ErrMarshal msg).
Proof.
  unfold Period_MarshalJSON.
  destruct (MarshalJSON (Start p)), (MarshalJSON (End_ p)); eauto.
Qed.

Lemma Periods_MarshalJSON_refuses (periods periods' : list Period) :
  Forall2 normalizes periods periods' ->
  Exists (fun p => marshalable (UTC (Truncate (Start p) Second)) = false
                   \/ marshalable (UTC (Truncate (End_ p) Second)) = false)
         periods ->
  exists msg, Periods_MarshalJSON periods' = Err (ErrMarshal msg).
Proof.
  induction 1 as [|p p' rest rest' Hp Hrest IH]; intros Hex.
  - inversion Hex.
  - cbn [Periods_MarshalJSON].
    destruct (Period_MarshalJSON_cases p') as [[j Hj]|[msg Hmsg]].
    + rewrite Hj. apply Exists_cons in Hex. destruct Hex as [Hbad|Hex].
      * exfalso. destruct Hp as (_ & Hs & He & _).
        unfold Period_MarshalJSON in Hj. rewrite Hs, He in Hj.
        destruct Hbad as [Hbad|Hbad]; apply marshalable_false in Hbad;
          rewrite Hbad in Hj;
          [|destruct (MarshalJSON (UTC (Truncate (Start p) Second)))];
          discriminate Hj.
      * destruct (IH Hex) as [msg ->]. eauto.
    + rewrite Hmsg. eauto.
Qed.

(** X6. A period whose start or end, cut to the second and read in UTC,
    falls in a year outside 0..9999 cannot be encoded: SetAttendance then
    returns the encoder's error before the day is looked up, so no request
    is sent, nothing is logged and the client is as it was. *)
Theorem unencodable_period_sends_nothing (date : Time) (periods : list Period)
    (c : Client) (w : World) r c' w' :
  authenticationState c = LoggedIn ->
  Exists (fun p => marshalable (UTC (Truncate (Start p) Second)) = false
                   \/ marshalable (UTC (Truncate (End_ p) Second)) = false)
         periods ->
  SetAttendance date periods c w = (r, c', w') ->
  (exists msg, r = Err (ErrMarshal msg)) /\ c' = c /\ since w w' = [].
Proof.
  intros Hst Hbad Hrun.
  destruct (SetAttendance_run _ _ _ _ _ _ _ Hst Hrun) as (n & periods' & Hnorm & Hcase).
  destruct (Periods_MarshalJSON_refuses _ _ Hnorm Hbad) as [msg Hmsg].
  unfold attendanceBody in Hcase. rewrite Hmsg in Hcase.
  destruct Hcase as (-> & -> & ->).
  split; [eauto|]. split; [reflexivity|apply since_advance].
Qed.

Lemma unencodable_period_sends_nothing_witness :
  since (Fixtures.worldOf Fixtures.calendarServer)
        (snd (SetAttendance Fixtures.jan18_1300
                [{| ID := uuid_Nil; Period_PeriodType := PeriodTypeWork;
                    Comment := None; ProjectID := None;
                    Start := Fixtures.jan18_1300;
                    End_ := time_Date 10000 1 1 0 0 0 0 UTCLoc;
                    LegacyBreakMin := 0 |}]
                Fixtures.loggedIn (Fixtures.worldOf Fixtures.calendarServer)))
  = [].
Proof.
  destruct (SetAttendance Fixtures.jan18_1300
              [{| ID := uuid_Nil; Period_PeriodType := PeriodTypeWork;
                  Comment := None; ProjectID := None;
                  Start := Fixtures.jan18_1300;
                  End_ := time_Date 10000 1 1 0 0 0 0 UTCLoc;
                  LegacyBreakMin := 0 |}]
              Fixtures.loggedIn (Fixtures.worldOf Fixtures.calendarServer))
    as [[r c'] w'] eqn:Hrun.
  cbn [snd].
  refine (proj2 (proj2 (unencodable_period_sends_nothing
                          _ _ Fixtures.loggedIn _ _ _ _ eq_refl _ Hrun))).
  apply Exists_cons_hd. right. vm_compute. reflexivity.
Defined.

(** *** The identifiers of the periods sent *)

(** What the loop makes of a period's identifier: it is kept, or, if it was
    nil, made by [uuid.New]. *)
Lemma normalizePeriod_ids (p : Period) (c : Client) (w : World) r c1 w1 :
  normalizePeriod p c w = (r, c1, w1) ->
  exists p', r = Ok p'
             /\ if decide (ID p = uuid_Nil)
                then exists raw, ID p' = uuid_fromRandom raw
                else ID p' = ID p.
Proof.
  unfold normalizePeriod, bind.
  destruct (decide (ID p = uuid_Nil)) as [Hnil|Hid].
  - unfold uuid_New, ret. intros Hrun. apply result_inv in Hrun as (<- & _ & _).
    eexists. split; [reflexivity|]. cbn [ID]. eexists. reflexivity.
  - unfold ret. intros Hrun. apply result_inv in Hrun as (<- & _ & _).
    eexists. split; [reflexivity|]. reflexivity.
Qed.

Lemma normalizePeriods_ids (periods : list Period) (c : Client) (w : World)
    periods' c1 w1 :
  normalizePeriods periods c w = (Ok periods', c1, w1) ->
  Forall2 (fun p p' => if decide (ID p = uuid_Nil)
                       then exists raw, ID p' = uuid_fromRandom raw
                       else ID p' = ID p)
          periods periods'.
Proof.
  revert c w periods' c1 w1.
  induction periods as [|p rest IH]; intros c w periods' c1 w1 Hrun.
  - apply result_inv in Hrun as (Hr & _ & _). injection Hr as <-. constructor.
  - cbn [normalizePeriods] in Hrun. unfold bind at 1 in Hrun.
    destruct (normalizePeriod p c w) as [[r0 c0] w0] eqn:Hp.
    destruct (normalizePeriod_ids _ _ _ _ _ _ Hp) as (p' & -> & Hids).
    unfold bind at 1 in Hrun.
    destruct (normalizePeriods rest c0 w0) as [[r2 c2] w2] eqn:Hrest.
    destruct r2 as [rest'|e|msg].
    + unfold ret in Hrun. apply result_inv in Hrun as (Hr & _ & _).
      injection Hr as <-. constructor; [exact Hids|].
      exact (IH _ _ _ _ _ Hrest).
    + apply result_inv in Hrun as (Hr & _ & _). discriminate Hr.
    + apply result_inv in Hrun as (Hr & _ & _). discriminate Hr.
Qed.

Lemma Period_MarshalJSON_id (p : Period) (j : json) :
  Period_MarshalJSON p = Ok j ->
  jsonField "id" j = Some (JString (UUID_String (ID p))).
Proof.
  unfold Period_MarshalJSON.
  destruct (MarshalJSON (Start p)); [|discriminate].
  destruct (MarshalJSON (End_ p)); [|discriminate].
  intros [= <-]. reflexivity.
Qed.

(** The course of [SetAttendance] once more, with the loop's own result. *)
Lemma SetAttendance_unfold (date : Time) (periods : list Period)
    (c : Client) (w : World) r c' w' :
  authenticationState c = LoggedIn ->
  SetAttendance date periods c w = (r, c', w') ->
  exists n periods',
    normalizePeriods periods c w = (Ok periods', c, advance n [] w)
    /\ match attendanceBody (EmployeeID c) periods' with
       | Ok body =>
           exists r1 c1 w1,
             GetOrNewDayUUID date c (advance n [] w) = (r1, c1, w1)
             /\ c' = c1
             /\ match r1 with
                | Ok dayID =>
                    w' = record (Sent (NewRequest "PUT" (dayPath dayID) (Some body))) w1
                    /\ (r = Ok tt
                        \/ exists e, r = Err e /\ isRemoteError e = true)
                | Err e => r = Err e /\ w' = w1
                | Panic msg => r = Panic msg /\ w' = w1
                end
       | Err e => r = Err e /\ c' = c /\ w' = advance n [] w
       | Panic msg => r = Panic msg /\ c' = c /\ w' = advance n [] w
       end.
Proof.
  intros Hst Hrun. unfold SetAttendance in Hrun.
  rewrite login_check_passes in Hrun by exact Hst.
  unfold bind at 1 in Hrun.
  destruct (normalizePeriods_run periods c w) as (n & periods' & Hn & _).
  rewrite Hn in Hrun.
  exists n, periods'. split; [exact Hn|]. clear Hn.
  unfold bind at 1, getClient in Hrun. unfold bind at 1, lift in Hrun.
  destruct (attendanceBody (EmployeeID c) periods') as [body|e|msg].
  - unfold bind at 1 in Hrun.
    destruct (GetOrNewDayUUID date c (advance n [] w)) as [[r1 c1] w1].
    exists r1, c1, w1. split; [reflexivity|].
    destruct r1 as [dayID|e|msg].
    + unfold bind, RawJSON in Hrun.
      set (req := NewRequest "PUT" (dayPath dayID) (Some body)) in *.
      destruct (transport w1 (trace w1) req) as [resp|msg].
      * unfold ParseResponseJSON in Hrun.
        destruct (isSuccess (StatusCode resp));
          [destruct (asAny (Payload resp)) as [[]|]|];
          apply result_inv in Hrun as (<- & <- & <-);
          (split; [reflexivity|]); (split; [reflexivity|]);
          [left; reflexivity| |]; right; eexists; split; reflexivity.
      * apply result_inv in Hrun as (<- & <- & <-).
        split; [reflexivity|]. split; [reflexivity|].
        right. eexists. split; reflexivity.
    + apply result_inv in Hrun as (<- & <- & <-). auto.
    + apply result_inv in Hrun as (<- & <- & <-). auto.
  - apply result_inv in Hrun as (<- & <- & <-). auto.
  - apply result_inv in Hrun as (<- & <- & <-). auto.
Qed.

(** What a lookup puts on the wire: at most one request, a GET, and none
    when the cache knows the day. *)
Lemma GetOrNewDayUUID_requests (date : Time) (c : Client) (w : World) r c' w' :
  GetOrNewDayUUID date c w = (r, c', w') ->
  exists n evs,
    w' = advance n evs w
    /\ (length (requests evs) <= 1)%nat
    /\ Forall (fun req => Method req = "GET") (requests evs)
    /\ (dayIDCache c !! Format date DateOnly <> None -> requests evs = []).
Proof.
  intros Hrun.
  destruct (GetOrNewDayUUID_obeys "" date _ _ _ _ _ Hrun)
    as [(n & evs & -> & Hevs & _) _].
  exists n, evs. split; [reflexivity|].
  assert (Hcount : (sentCount (advance n evs w) <= sentCount w + 1)%nat).
  { apply GetOrNewDayUUID_run in Hrun.
    destruct Hrun as (r0 & c0 & w0 & Hday & Hcase).
    apply GetDayUUID_count in Hday.
    destruct r0 as [[id0|]|e|msg].
    - destruct Hcase as (_ & _ & ->). exact Hday.
    - destruct Hcase as (_ & _ & ->). rewrite sentCount_advance. simpl. lia.
    - destruct Hcase as (_ & _ & ->). exact Hday.
    - destruct Hcase as (_ & _ & ->). exact Hday. }
  rewrite sentCount_advance in Hcount.
  split; [lia|]. split.
  - clear -Hevs. induction Hevs as [|e evs He _ IH]; [constructor|].
    destruct e as [req| |]; cbn;
      [constructor; [exact He|exact IH]|exact IH|exact IH].
  - intros Hknown.
    destruct (dayIDCache c !! Format date DateOnly) as [v|] eqn:Hlook;
      [|congruence].
    apply GetOrNewDayUUID_run in Hrun.
    destruct Hrun as (r0 & c0 & w0 & Hday & Hcase).
    rewrite (GetDayUUID_hit _ _ _ _ Hlook) in Hday.
    apply result_inv in Hday as (<- & <- & <-).
    destruct v as [id0|].
    + destruct Hcase as (_ & _ & Hw).
      apply (f_equal (since w)) in Hw. rewrite since_advance, since_refl in Hw.
      rewrite Hw. reflexivity.
    + destruct Hcase as (_ & _ & Hw).
      apply (f_equal (since w)) in Hw. rewrite !since_advance in Hw.
      rewrite Hw. reflexivity.
Qed.



(** X8. SetAttendance puts at most two requests on the wire, in this order:
    at most one GET, the calendar of the month, and none when the cache
    knows the day; then at most one PUT, to the path of the identifier the
    cache holds for the date when the call is over. A call that returns
    without error has sent that PUT. *)
Theorem SetAttendance_request_order (date : Time) (periods : list Period)
    (c : Client) (w : World) r c' w' :
  SetAttendance date periods c w = (r, c', w') ->
  exists gets puts,
    requests (since w w') = gets ++ puts
    /\ (length gets <= 1)%nat /\ (length puts <= 1)%nat
    /\ Forall (fun req => Method req = "GET") gets
    /\ Forall (fun req =>
                 Method req = "PUT"
                 /\ exists id,
                      dayIDCache c' !! Format date DateOnly = Some (Some id)
                      /\ URL req = dayPath id) puts
    /\ (r = Ok tt -> length puts = 1%nat)
    /\ (dayIDCache c !! Format date DateOnly <> None -> gets = []).
Proof.
  intros Hrun.
  assert (Hnone : forall n : nat,
             w' = advance n [] w ->
             (r = Ok tt -> False) ->
             exists gets puts : list Request,
               requests (since w w') = gets ++ puts
               /\ (length gets <= 1)%nat /\ (length puts <= 1)%nat
               /\ Forall (fun req => Method req = "GET") gets
               /\ Forall (fun req =>
                            Method req = "PUT"
                            /\ exists id,
                                 dayIDCache c' !! Format date DateOnly
                                 = Some (Some id)
                                 /\ URL req = dayPath id) puts
               /\ (r = Ok tt -> length puts = 1%nat)
               /\ (dayIDCache c !! Format date DateOnly <> None -> gets = [])).
  { intros n -> Hr. exists [], []. rewrite since_advance.
    split; [reflexivity|]. split; [simpl; lia|]. split; [simpl; lia|].
    split; [constructor|]. split; [constructor|].
    split; [intros H; destruct (Hr H)|reflexivity]. }
  destruct (loggedIn_dec c) as [Hst|Hst].
  - destruct (SetAttendance_unfold _ _ _ _ _ _ _ Hst Hrun)
      as (n & periods' & _ & Hcase).
    destruct (attendanceBody (EmployeeID c) periods') as [body|e|msg].
    + destruct Hcase as (r1 & c1 & w1 & Hday & -> & Hcase).
      destruct (GetOrNewDayUUID_requests _ _ _ _ _ _ Hday)
        as (n1 & evs & -> & Hlen & Hgets & Hknown).
      destruct r1 as [dayID|e|msg].
      * destruct Hcase as [-> _].
        exists (requests evs), [NewRequest "PUT" (dayPath dayID) (Some body)].
        rewrite record_advance, !advance_advance, since_advance.
        split; [rewrite !requests_app; reflexivity|].
        split; [exact Hlen|]. split; [simpl; lia|]. split; [exact Hgets|].
        split.
        { constructor; [|constructor]. split; [reflexivity|].
          exists dayID. split; [|reflexivity].
          exact (GetOrNewDayUUID_cached _ _ _ _ _ _ Hday). }
        split; [reflexivity|exact Hknown].
      * destruct Hcase as [-> ->].
        exists (requests evs), []. rewrite advance_advance, since_advance.
        split; [rewrite requests_app, app_nil_r; reflexivity|].
        split; [exact Hlen|]. split; [simpl; lia|]. split; [exact Hgets|].
        split; [constructor|]. split; [discriminate|exact Hknown].
      * destruct Hcase as [-> ->].
        exists (requests evs), []. rewrite advance_advance, since_advance.
        split; [rewrite requests_app, app_nil_r; reflexivity|].
        split; [exact Hlen|]. split; [simpl; lia|]. split; [exact Hgets|].
        split; [constructor|]. split; [discriminate|exact Hknown].
    + destruct Hcase as (-> & -> & ->). apply (Hnone n); [reflexivity|discriminate].
    + destruct Hcase as (-> & -> & ->). apply (Hnone n); [reflexivity|discriminate].
  - unfold SetAttendance in Hrun. rewrite login_check_refuses in Hrun by exact Hst.
    apply result_inv in Hrun as (<- & <- & <-).
    apply (Hnone 0%nat); [symmetry; apply advance_0_nil|discriminate].
Qed.

Lemma SetAttendance_request_order_witness :
  exists gets puts,
    requests (since (Fixtures.worldOf Fixtures.calendarServer)
                (snd (SetAttendance Fixtures.jan18_1300
                        [Fixtures.untypedPeriod; Fixtures.breakPeriod]
                        Fixtures.loggedIn
                        (Fixtures.worldOf Fixtures.calendarServer))))
    = gets ++ puts
    /\ (length gets <= 1)%nat /\ (length puts <= 1)%nat.
Proof.
  destruct (SetAttendance Fixtures.jan18_1300
              [Fixtures.untypedPeriod; Fixtures.breakPeriod]
              Fixtures.loggedIn (Fixtures.worldOf Fixtures.calendarServer))
    as [[r c'] w'] eqn:Hrun.
  cbn [snd].
  destruct (SetAttendance_request_order _ _ _ _ _ _ _ Hrun)
    as (gets & puts & Heq & Hg & Hp & _).
  exists gets, puts. auto.
Defined.

End Attendance.

(** ** The requests as they go on the wire *)

Module Requests.
Import GoTimeFacts Effects Operations Runs.

(** Text made of letters, digits, [-], [_], [.] and [~] is not escaped. *)
Lemma plain_app (a b : string) : plain (a +:+ b) = plain a && plain b.
Proof.
  unfold plain. induction a as [|ch a IH]; [reflexivity|].
  simpl. rewrite IH. apply andb_assoc.
Qed.

Lemma QueryEscape_plain (s : string) : plain s = true -> QueryEscape s = s.
Proof.
  unfold plain. induction s as [|ch s IH]; [reflexivity|].
  cbn [list_ascii_of_string forallb QueryEscape].
  intros H. apply andb_true_iff in H. destruct H as [Hch Hs].
  rewrite (IH Hs). apply negb_true_iff in Hch. rewrite Hch.
  destruct (Ascii.eqb_spec ch " ") as [->|_]; [discriminate Hch|reflexivity].
Qed.

Lemma plain_digit (d : Z) : 0 <= d < 10 -> shouldEscape (digit d) = false.
Proof.
  intros H.
  assert (Hd : d = 0 \/ d = 1 \/ d = 2 \/ d = 3 \/ d = 4 \/ d = 5 \/ d = 6
               \/ d = 7 \/ d = 8 \/ d = 9) by lia.
  repeat (destruct Hd as [->|Hd]; [reflexivity|]). subst d. reflexivity.
Qed.

Lemma plain_utoa_aux (fuel : nat) (u : Z) (acc : string) :
  plain acc = true -> plain (utoa_aux fuel u acc) = true.
Proof.
  revert u acc. induction fuel as [|k IH]; intros u acc Hacc; [exact Hacc|].
  cbn [utoa_aux].
  assert (Hnext : plain (String (digit (u mod 10)) acc) = true).
  { unfold plain in *. cbn [list_ascii_of_string forallb].
    rewrite Hacc, plain_digit by (apply Z.mod_pos_bound; lia). reflexivity. }
  destruct (u <? 10); [exact Hnext|apply IH; exact Hnext].
Qed.

Lemma plain_zeros (n : nat) : plain (zeros n) = true.
Proof. induction n as [|n IH]; [reflexivity|exact IH]. Qed.

Lemma plain_appendInt (x : Z) (width : nat) : plain (appendInt x width) = true.
Proof.
  unfold appendInt. rewrite !plain_app, plain_zeros.
  unfold utoa. rewrite plain_utoa_aux by reflexivity.
  destruct (x <? 0); reflexivity.
Qed.

Lemma plain_DateOnly (t : Time) : plain (Format t DateOnly) = true.
Proof.
  unfold Format, DateOnly. cbn [fold_right]. unfold formatChunk.
  destruct (Date t) as [[year month] day]. destruct (Clock t) as [[hour min] sec].
  rewrite !plain_app, !plain_appendInt. reflexivity.
Qed.

(** The encoded query of the calendar: the keys come out sorted. *)
Lemma Values_Encode_calendar (a b : string) :
  Values_Encode (Some (<["end_date" := [b]]> (<["start_date" := [a]]> ∅)))
  = "end_date=" +:+ QueryEscape b +:+ "&start_date=" +:+ QueryEscape a.
Proof. reflexivity. Qed.

Lemma apply_periodsQuery (a b e : string) :
  Values_apply Values_Add Values_empty
    [("filter[startDate]", a); ("filter[endDate]", b); ("filter[employee]", e)]
  = Ok (Some (<["filter[employee]" := [e]]>
                (<["filter[endDate]" := [b]]> (<["filter[startDate]" := [a]]> ∅)))).
Proof. reflexivity. Qed.

Lemma Values_Encode_periods (a b e : string) :
  Values_Encode (Some (<["filter[employee]" := [e]]>
                         (<["filter[endDate]" := [b]]>
                            (<["filter[startDate]" := [a]]> ∅))))
  = "filter%5Bemployee%5D=" +:+ QueryEscape e
    +:+ "&filter%5BendDate%5D=" +:+ QueryEscape b
    +:+ "&filter%5BstartDate%5D=" +:+ QueryEscape a.
Proof. reflexivity. Qed.

Lemma calendarRequest_text (employeeID : Z) (startDate endDate : Time) :
  calendarRequest employeeID startDate endDate
  = {| Method := "GET";
       URL := "/svc/attendance-bff/attendance-calendar/" +:+ itoa employeeID
              +:+ "?end_date=" +:+ Format endDate DateOnly
              +:+ "&start_date=" +:+ Format startDate DateOnly;
       Body := None |}.
Proof.
  unfold calendarRequest, calendarPath, NewRequest, timeDateOnlyLayout.
  rewrite Values_Encode_calendar.
  rewrite !QueryEscape_plain by apply plain_DateOnly. reflexivity.
Qed.

(** X9. A logged-in GetAttendanceCalendar sends exactly one request,
    whatever comes back: a GET without body for the calendar of the
    employee, with end_date before start_date in the query (the keys are
    sorted) and both dates written as year-month-day, unescaped. The client
    is not changed and nothing else happens. *)
Theorem GetAttendanceCalendar_request (employeeID : Z) (startDate endDate : Time)
    (c : Client) (w : World) r c' w' :
  authenticationState c = LoggedIn ->
  GetAttendanceCalendar employeeID startDate endDate c w = (r, c', w') ->
  c' = c /\ drawn w' = drawn w
  /\ since w w'
     = [Sent {| Method := "GET";
                URL := "/svc/attendance-bff/attendance-calendar/"
                       +:+ itoa employeeID
                       +:+ "?end_date=" +:+ Format endDate DateOnly
                       +:+ "&start_date=" +:+ Format startDate DateOnly;
                Body := None |}].
Proof.
  intros Hst. unfold GetAttendanceCalendar.
  rewrite login_check_passes by exact Hst.
  unfold calendarQuery. rewrite apply_calendarQuery.
  unfold bind at 1, lift. fold (calendarRequest employeeID startDate endDate).
  rewrite calendarRequest_text. set (req := {| Method := "GET" |}).
  unfold bind, RawJSON.
  destruct (transport w (trace w) req) as [resp|msg].
  - unfold ParseResponseJSON.
    destruct (isSuccess (StatusCode resp));
      [destruct (asCalendar (Payload resp))|];
      intros Hrun; apply result_inv in Hrun as (_ & <- & <-);
      (split; [reflexivity|]); (split; [reflexivity|]);
      rewrite record_advance; apply since_advance.
  - intros Hrun. apply result_inv in Hrun as (_ & <- & <-).
    split; [reflexivity|]. split; [reflexivity|].
    rewrite record_advance. apply since_advance.
Qed.

Lemma GetAttendanceCalendar_request_witness :
  since (Fixtures.worldOf Fixtures.unavailableServer)
        (snd (GetAttendanceCalendar 991824
                (time_Date 2023 1 1 0 0 0 0 UTCLoc)
                (time_Date 2023 1 31 0 0 0 0 UTCLoc)
                Fixtures.loggedIn (Fixtures.worldOf Fixtures.unavailableServer)))
  = [Sent {| Method := "GET";
             URL := "/svc/attendance-bff/attendance-calendar/"
                    +:+ itoa 991824
                    +:+ "?end_date="
                    +:+ Format (time_Date 2023 1 31 0 0 0 0 UTCLoc) DateOnly
                    +:+ "&start_date="
                    +:+ Format (time_Date 2023 1 1 0 0 0 0 UTCLoc) DateOnly;
             Body := None |}].
Proof.
  destruct (GetAttendanceCalendar 991824
              (time_Date 2023 1 1 0 0 0 0 UTCLoc)
              (time_Date 2023 1 31 0 0 0 0 UTCLoc)
              Fixtures.loggedIn (Fixtures.worldOf Fixtures.unavailableServer))
    as [[r c'] w'] eqn:Hrun.
  cbn [snd].
  exact (proj2 (proj2 (GetAttendanceCalendar_request
                         _ _ _ Fixtures.loggedIn _ _ _ _ eq_refl Hrun))).
Defined.

Example calendar_request_text_example :
  URL (calendarRequest 991824 (time_Date 2023 1 1 0 0 0 0 UTCLoc)
                       (time_Date 2023 1 31 0 0 0 0 UTCLoc))
  = "/svc/attendance-bff/attendance-calendar/991824?end_date=2023-01-31&start_date=2023-01-01".
Proof. vm_compute. reflexivity. Qed.

(** *** Working times *)

Lemma toLocal_localized (loc : Location) (ps : list PersonioPeriod) :
  Forall2 (localized loc) ps (map (toLocal loc) ps).
Proof.
  induction ps as [|p ps IH]; [constructor|].
  constructor; [|exact IH]. unfold localized, sameInstantIn, toLocal, Local.
  simpl. repeat split.
Qed.

(** The course of [GetWorkingTimes] on a logged-in client. *)
Lemma GetWorkingTimes_run (from to : Time) (c : Client) (w : World) :
  authenticationState c = LoggedIn ->
  let req := {| Method := "GET";
                URL := "/api/v1/attendances/periods?filter%5Bemployee%5D="
                       +:+ itoa (EmployeeID c)
                       +:+ "&filter%5BendDate%5D=" +:+ Format to DateOnly
                       +:+ "&filter%5BstartDate%5D=" +:+ Format from DateOnly;
                Body := None |} in
  GetWorkingTimes from to c w
  = (match transport w (trace w) req with
     | Replied resp =>
         if isSuccess (StatusCode resp) then
           match asPeriods (Payload resp) with
           | Some ps => Ok (map (toLocal (localZone w)) ps)
           | None => Err ErrDecode
           end
         else Err (ErrStatus (StatusCode resp))
     | TransportFailed msg => Err (ErrTransport msg)
     end, c, record (Sent req) w).
Proof.
  intros Hst req. unfold GetWorkingTimes.
  rewrite login_check_passes by exact Hst.
  unfold bind at 1, getClient. rewrite apply_periodsQuery.
  unfold bind at 1, lift. rewrite Values_Encode_periods.
  rewrite !QueryEscape_plain
    by first [apply plain_DateOnly|apply plain_appendInt].
  change (NewRequest "GET" _ None) with req. unfold bind at 1, RawJSON.
  destruct (transport w (trace w) req) as [resp|msg]; [|reflexivity].
  unfold bind at 1, ParseResponseJSON.
  destruct (isSuccess (StatusCode resp)); [|reflexivity].
  destruct (asPeriods (Payload resp)) as [ps|]; reflexivity.
Qed.

(** X10. A logged-in GetWorkingTimes sends exactly one request, whatever
    comes back: a GET without body whose query carries the three filters
    sorted by key (employee, endDate, startDate), the brackets of the keys
    escaped and the dates written as year-month-day. The client is not
    changed and no identifier is drawn. *)
Theorem GetWorkingTimes_request (from to : Time) (c : Client) (w : World)
    r c' w' :
  authenticationState c = LoggedIn ->
  GetWorkingTimes from to c w = (r, c', w') ->
  c' = c /\ drawn w' = drawn w
  /\ since w w'
     = [Sent {| Method := "GET";
                URL := "/api/v1/attendances/periods?filter%5Bemployee%5D="
                       +:+ itoa (EmployeeID c)
                       +:+ "&filter%5BendDate%5D=" +:+ Format to DateOnly
                       +:+ "&filter%5BstartDate%5D=" +:+ Format from DateOnly;
                Body := None |}].
Proof.
  intros Hst Hrun. rewrite (GetWorkingTimes_run from to c w Hst) in Hrun.
  cbv zeta in Hrun. apply result_inv in Hrun as (_ & <- & <-).
  split; [reflexivity|]. split; [reflexivity|].
  rewrite record_advance. apply since_advance.
Qed.

Lemma GetWorkingTimes_request_witness :
  since (Fixtures.worldOf Fixtures.periodsServer)
        (snd (GetWorkingTimes Fixtures.jan18_1300 Fixtures.jan19_0900_cet
                Fixtures.loggedIn (Fixtures.worldOf Fixtures.periodsServer)))
  = [Sent {| Method := "GET";
             URL := "/api/v1/attendances/periods?filter%5Bemployee%5D="
                    +:+ itoa (EmployeeID Fixtures.loggedIn)
                    +:+ "&filter%5BendDate%5D="
                    +:+ Format Fixtures.jan19_0900_cet DateOnly
                    +:+ "&filter%5BstartDate%5D="
                    +:+ Format Fixtures.jan18_1300 DateOnly;
             Body := None |}].
Proof.
  destruct (GetWorkingTimes Fixtures.jan18_1300 Fixtures.jan19_0900_cet
              Fixtures.loggedIn (Fixtures.worldOf Fixtures.periodsServer))
    as [[r c'] w'] eqn:Hrun.
  cbn [snd].
  exact (proj2 (proj2 (GetWorkingTimes_request
                         _ _ Fixtures.loggedIn _ _ _ _ eq_refl Hrun))).
Defined.

Example periods_request_text_example :
  requests (since (Fixtures.worldOf Fixtures.periodsServer)
              (snd (GetWorkingTimes Fixtures.jan18_1300 Fixtures.jan19_0900_cet
                      Fixtures.loggedIn (Fixtures.worldOf Fixtures.periodsServer))))
  = [{| Method := "GET";
        URL := "/api/v1/attendances/periods?filter%5Bemployee%5D=991824&filter%5BendDate%5D=2023-01-19&filter%5BstartDate%5D=2023-01-18";
        Body := None |}].
Proof. vm_compute. reflexivity. Qed.

(** X11. What GetWorkingTimes returns is the server's list, in the server's
    order, each period with its four times (start, end, created, updated)
    turned to the local zone: the instants are the server's, only the zone
    they are shown in changes, and no other field is touched. *)
Theorem GetWorkingTimes_shows_local_time (from to : Time) (c : Client) (w : World)
    (res : list PersonioPeriod) c' w' :
  GetWorkingTimes from to c w = (Ok res, c', w') ->
  exists req resp ps,
    transport w (trace w) req = Replied resp
    /\ since w w' = [Sent req]
    /\ Payload resp = PayloadPeriods ps
    /\ Forall2 (localized (localZone w)) ps res.
Proof.
  intros Hrun.
  destruct (loggedIn_dec c) as [Hst|Hst].
  - rewrite (GetWorkingTimes_run from to c w Hst) in Hrun. cbv zeta in Hrun.
    set (req := {| Method := "GET" |}) in Hrun.
    apply result_inv in Hrun as (Hr & _ & <-).
    destruct (transport w (trace w) req) as [resp|msg] eqn:Hreply;
      [|discriminate Hr].
    destruct (isSuccess (StatusCode resp)); [|discriminate Hr].
    destruct (Payload resp) as [|ps| | | |] eqn:Hpayload; try discriminate Hr.
    cbn [asPeriods] in Hr. injection Hr as <-.
    exists req, resp, ps. split; [exact Hreply|].
    split; [rewrite record_advance; apply since_advance|].
    split; [exact Hpayload|apply toLocal_localized].
  - unfold GetWorkingTimes in Hrun.
    rewrite login_check_refuses in Hrun by exact Hst.
    apply result_inv in Hrun as (Hr & _). discriminate Hr.
Qed.

Lemma GetWorkingTimes_shows_local_time_witness :
  exists res,
    fst (fst (GetWorkingTimes Fixtures.jan18_1300 Fixtures.jan19_0900_cet
                Fixtures.loggedIn (Fixtures.worldOf Fixtures.periodsServer)))
    = Ok res
    /\ exists ps, Forall2 (localized
                            (localZone (Fixtures.worldOf Fixtures.periodsServer)))
                         ps res.
Proof.
  destruct (GetWorkingTimes Fixtures.jan18_1300 Fixtures.jan19_0900_cet
              Fixtures.loggedIn (Fixtures.worldOf Fixtures.periodsServer))
    as [[r c'] w'] eqn:Hrun.
  assert (Hr : exists res, r = Ok res).
  { apply (f_equal (fun x => fst (fst x))) in Hrun. cbn [fst] in Hrun.
    rewrite <- Hrun. vm_compute. eexists. reflexivity. }
  destruct Hr as [res ->]. exists res. split; [reflexivity|].
  destruct (GetWorkingTimes_shows_local_time _ _ _ _ _ _ _ Hrun)
    as (req & resp & ps & _ & _ & _ & Hall).
  exists ps. exact Hall.
Defined.

End Requests.

(** ** What a call may change in the client *)

Module Sessions.
Import GoTimeFacts Effects Operations Runs.

(** The login check, the executor and the decoder, as they are modelled,
    leave the client alone. *)
Lemma assertLoggedIn_leaves_client (R : Client -> Client -> Prop) :
  (forall c, R c c) -> obeys (onClient R) assertLoggedIn.
Proof.
  intros Hrefl c w r c' w' Hrun. unfold assertLoggedIn in Hrun.
  destruct (authenticationState c);
    apply result_inv in Hrun as (_ & <- & _); apply Hrefl.
Qed.

Lemma RawJSON_leaves_client (R : Client -> Client -> Prop) (req : Request) :
  (forall c, R c c) -> obeys (onClient R) (RawJSON req).
Proof.
  intros Hrefl c w r c' w' Hrun. unfold RawJSON in Hrun.
  destruct (transport w (trace w) req);
    apply result_inv in Hrun as (_ & <- & _); apply Hrefl.
Qed.

Lemma ParseResponseJSON_leaves_client (R : Client -> Client -> Prop) {T}
    (decode : payload -> option T) (resp : Response) :
  (forall c, R c c) -> obeys (onClient R) (ParseResponseJSON decode resp).
Proof.
  intros Hrefl c w r c' w'. unfold ParseResponseJSON.
  destruct (isSuccess (StatusCode resp)); [destruct (decode (Payload resp))|];
    intros Hrun; apply result_inv in Hrun as (_ & <- & _); apply Hrefl.
Qed.

(** The operations, for any relation on clients that the callees outside
    [attendance.go] keep. *)
Section Steady.
Variable R : Client -> Client -> Prop.
Hypothesis R_refl : forall c, R c c.
Hypothesis R_trans : forall c1 c2 c3, R c1 c2 -> R c2 c3 -> R c1 c3.
Hypothesis R_check : obeys (onClient R) assertLoggedIn.
Hypothesis R_send : forall req, obeys (onClient R) (RawJSON req).
Hypothesis R_decode :
  forall T (decode : payload -> option T) (resp : Response),
    obeys (onClient R) (ParseResponseJSON decode resp).

Lemma steady_ret {A} (a : A) : obeys (onClient R) (ret a).
Proof. intros c w r c' w' H. apply result_inv in H as (_ & <- & _). apply R_refl. Qed.

Lemma steady_fail {A} (e : error) : obeys (onClient R) (@fail A e).
Proof. intros c w r c' w' H. apply result_inv in H as (_ & <- & _). apply R_refl. Qed.

Lemma steady_lift {A} (o : outcome A) : obeys (onClient R) (lift o).
Proof. intros c w r c' w' H. apply result_inv in H as (_ & <- & _). apply R_refl. Qed.

Lemma steady_bind {A B} (m : M A) (k : A -> M B) :
  obeys (onClient R) m -> (forall a, obeys (onClient R) (k a)) ->
  obeys (onClient R) (bind m k).
Proof.
  intros Hm Hk c w r c' w' Hrun. unfold bind in Hrun.
  destruct (m c w) as [[r1 c1] w1] eqn:Em. specialize (Hm _ _ _ _ _ Em).
  unfold onClient in *. destruct r1 as [a|e|s].
  - eapply R_trans; [exact Hm|]. eapply (Hk a). exact Hrun.
  - apply result_inv in Hrun as (_ & <- & _). exact Hm.
  - apply result_inv in Hrun as (_ & <- & _). exact Hm.
Qed.

Lemma steady_wrapErr {A} (f : error -> error) (m : M A) :
  obeys (onClient R) m -> obeys (onClient R) (wrapErr f m).
Proof.
  intros Hm c w r c' w' Hrun. unfold wrapErr in Hrun.
  destruct (m c w) as [[r1 c1] w1] eqn:Em. specialize (Hm _ _ _ _ _ Em).
  destruct r1; apply result_inv in Hrun as (_ & <- & _); exact Hm.
Qed.

Lemma steady_getClient : obeys (onClient R) getClient.
Proof. intros c w r c' w' H. apply result_inv in H as (_ & <- & _). apply R_refl. Qed.

Lemma steady_getCache : obeys (onClient R) getCache.
Proof. intros c w r c' w' H. apply result_inv in H as (_ & <- & _). apply R_refl. Qed.

Lemma steady_getLocal : obeys (onClient R) getLocal.
Proof. intros c w r c' w' H. apply result_inv in H as (_ & <- & _). apply R_refl. Qed.

Lemma steady_uuid_New : obeys (onClient R) uuid_New.
Proof. intros c w r c' w' H. apply result_inv in H as (_ & <- & _). apply R_refl. Qed.

Lemma steady_emit (e : Event) : obeys (onClient R) (emit e).
Proof. intros c w r c' w' H. apply result_inv in H as (_ & <- & _). apply R_refl. Qed.

Lemma steady_discard {A} (m : M A) :
  obeys (onClient R) m -> obeys (onClient R) (discard m).
Proof.
  intros Hm. unfold discard. apply steady_bind; [exact Hm|].
  intros _. apply steady_ret.
Qed.

Lemma GetAttendanceCalendar_steady (employeeID : Z) (startDate endDate : Time) :
  obeys (onClient R) (GetAttendanceCalendar employeeID startDate endDate).
Proof.
  unfold GetAttendanceCalendar.
  apply steady_bind; [exact R_check|intros _].
  apply steady_bind; [apply steady_lift|intros queryParams].
  apply steady_bind; [apply R_send|intros resp]. apply R_decode.
Qed.

Lemma GetMyAttendanceCalendar_steady (startDate endDate : Time) :
  obeys (onClient R) (GetMyAttendanceCalendar startDate endDate).
Proof.
  unfold GetMyAttendanceCalendar.
  apply steady_bind; [apply steady_getClient|intros c0].
  apply GetAttendanceCalendar_steady.
Qed.

Lemma GetWorkingTimes_steady (from to : Time) :
  obeys (onClient R) (GetWorkingTimes from to).
Proof.
  unfold GetWorkingTimes.
  apply steady_bind; [exact R_check|intros _].
  apply steady_bind; [apply steady_getClient|intros c0].
  apply steady_bind; [apply steady_lift|intros q].
  apply steady_bind; [apply R_send|intros resp].
  apply steady_bind; [apply R_decode|intros res].
  apply steady_bind; [apply steady_getLocal|intros local]. apply steady_ret.
Qed.

Lemma SetWorkingTimes_steady (from to : Time) :
  obeys (onClient R) (SetWorkingTimes from to).
Proof.
  unfold SetWorkingTimes.
  apply steady_bind; [exact R_check|intros _].
  apply steady_bind; [apply steady_uuid_New|intros id].
  apply steady_bind; [apply steady_getClient|intros c0].
  apply steady_bind; [apply R_send|intros resp].
  apply steady_bind; [apply R_decode|intros results]. apply steady_emit.
Qed.

(** The calls that store into the cache, given that storing is allowed. *)
Hypothesis R_store : forall day id, obeys (onClient R) (setDayID day id).

Lemma cacheKnownDays_steady (days : list CalendarDay) :
  obeys (onClient R) (cacheKnownDays days).
Proof.
  induction days as [|d rest IH]; cbn [cacheKnownDays]; [apply steady_ret|].
  apply steady_bind; [apply R_store|intros _].
  apply steady_bind; [apply steady_emit|intros _]. exact IH.
Qed.

Lemma setUnknownDays_steady (fuel : nat) (date loopEnd : Time) :
  obeys (onClient R) (setUnknownDays fuel date loopEnd).
Proof.
  revert date. induction fuel as [|fuel IH]; intros date;
    cbn [setUnknownDays]; [apply steady_ret|].
  destruct (Before date loopEnd); [|apply steady_ret].
  apply steady_bind; [apply steady_getCache|intros cache].
  apply steady_bind; [|intros _; apply IH].
  destruct (cache !! Format date timeDateOnlyLayout);
    [apply steady_ret|apply R_store].
Qed.

Lemma cacheDayIDs_steady (days : list CalendarDay) (startDate endDate : Time) :
  obeys (onClient R) (cacheDayIDs days startDate endDate).
Proof.
  unfold cacheDayIDs.
  apply steady_bind; [apply cacheKnownDays_steady|intros _].
  apply setUnknownDays_steady.
Qed.

Lemma GetDayUUID_steady (date : Time) : obeys (onClient R) (GetDayUUID date).
Proof.
  unfold GetDayUUID. apply steady_bind; [apply steady_getCache|intros cache].
  destruct (cache !! Format date timeDateOnlyLayout); [apply steady_ret|].
  destruct (TimeFullMonth date) as [startDate endDate].
  apply steady_bind;
    [apply steady_wrapErr, GetMyAttendanceCalendar_steady|intros cal].
  apply steady_bind; [apply cacheDayIDs_steady|intros _].
  apply steady_bind; [apply steady_getCache|intros cache']. apply steady_ret.
Qed.

Lemma GetOrNewDayUUID_steady (date : Time) :
  obeys (onClient R) (GetOrNewDayUUID date).
Proof.
  unfold GetOrNewDayUUID.
  apply steady_bind; [apply steady_wrapErr, GetDayUUID_steady|intros [id|]].
  - apply steady_ret.
  - apply steady_bind; [apply steady_uuid_New|intros newID].
    apply steady_bind; [apply R_store|intros _].
    apply steady_bind; [apply steady_emit|intros _]. apply steady_ret.
Qed.

Lemma normalizePeriods_steady (periods : list Period) :
  obeys (onClient R) (normalizePeriods periods).
Proof.
  induction periods as [|p rest IH]; cbn [normalizePeriods]; [apply steady_ret|].
  apply steady_bind.
  - unfold normalizePeriod. apply steady_bind; [|intros ?; apply steady_ret].
    destruct (decide (ID p = uuid_Nil)); [apply steady_uuid_New|apply steady_ret].
  - intros p'. apply steady_bind; [exact IH|intros ?; apply steady_ret].
Qed.

Lemma SetAttendance_steady (date : Time) (periods : list Period) :
  obeys (onClient R) (SetAttendance date periods).
Proof.
  unfold SetAttendance.
  apply steady_bind; [exact R_check|intros _].
  apply steady_bind; [apply normalizePeriods_steady|intros periods'].
  apply steady_bind; [apply steady_getClient|intros c0].
  apply steady_bind; [apply steady_lift|intros body].
  apply steady_bind; [apply GetOrNewDayUUID_steady|intros dayID].
  apply steady_bind; [apply R_send|intros resp]. apply R_decode.
Qed.

Lemma perform_untouched (call : Call) :
  isLogin call = false -> usesDayCache call = false ->
  obeys (onClient R) (perform call).
Proof.
  destruct call; cbn [perform isLogin usesDayCache]; intros Hcall Hcache;
    try discriminate Hcall; try discriminate Hcache.
  - apply steady_discard, GetAttendanceCalendar_steady.
  - apply steady_discard, GetMyAttendanceCalendar_steady.
  - apply steady_discard, GetWorkingTimes_steady.
  - apply SetWorkingTimes_steady.
Qed.

Lemma perform_stores (call : Call) :
  isLogin call = false -> obeys (onClient R) (perform call).
Proof.
  destruct call; cbn [perform isLogin]; intros Hcall; try discriminate Hcall.
  - apply steady_discard, GetAttendanceCalendar_steady.
  - apply steady_discard, GetMyAttendanceCalendar_steady.
  - apply steady_discard, GetDayUUID_steady.
  - apply steady_discard, GetOrNewDayUUID_steady.
  - apply SetAttendance_steady.
  - apply steady_discard, GetWorkingTimes_steady.
  - apply SetWorkingTimes_steady.
Qed.

End Steady.

Lemma run_steady (R : Client -> Client -> Prop) (allowed : Call -> bool) :
  (forall c, R c c) ->
  (forall c1 c2 c3, R c1 c2 -> R c2 c3 -> R c1 c3) ->
  (forall call, allowed call = true -> obeys (onClient R) (perform call)) ->
  forall calls c w, forallb allowed calls = true -> R c (fst (run calls c w)).
Proof.
  intros Hrefl Htrans Hperform calls.
  induction calls as [|call rest IH]; intros c w Hcalls; [apply Hrefl|].
  cbn [forallb] in Hcalls. apply andb_true_iff in Hcalls.
  destruct Hcalls as [Hcall Hrest].
  cbn [run]. destruct (perform call c w) as [[r c1] w1] eqn:Hrun.
  pose proof (Hperform call Hcall _ _ _ _ _ Hrun) as Hstep.
  unfold onClient in Hstep.
  destruct r; [eapply Htrans; [exact Hstep|apply IH; exact Hrest]
              |eapply Htrans; [exact Hstep|apply IH; exact Hrest]
              |exact Hstep].
Qed.

Lemma sameSession_refl (c : Client) : sameSession c c.
Proof. unfold sameSession. auto. Qed.

Lemma sameSession_trans (c1 c2 c3 : Client) :
  sameSession c1 c2 -> sameSession c2 c3 -> sameSession c1 c3.
Proof. unfold sameSession. intros (? & ? & ?) (? & ? & ?). repeat split; congruence. Qed.

Lemma setDayID_session (day : string) (id : option UUID) :
  obeys (onClient sameSession) (setDayID day id).
Proof.
  intros c w r c' w' H. apply result_inv in H as (_ & <- & _).
  unfold onClient, sameSession, withCache. simpl. auto.
Qed.



End Sessions.

(** ** The days a lookup touches *)

Module Window.
Import GoTimeFacts Effects Operations Runs.

Lemma setUnknownDays_only_window (fuel : nat) (date loopEnd : Time)
    (c : Client) (w : World) r c' w' (k : string) :
  setUnknownDays fuel date loopEnd c w = (r, c', w') ->
  dayIDCache c !! k = None ->
  (forall j : Z, 0 <= j ->
     Before (Add date (j * (24 * Hour))) loopEnd = true ->
     Format (Add date (j * (24 * Hour))) DateOnly <> k) ->
  dayIDCache c' !! k = None.
Proof.
  revert date c. induction fuel as [|fuel IH]; intros date c Hrun Hk Hwin.
  - apply result_inv in Hrun as (_ & <- & _). exact Hk.
  - cbn [setUnknownDays] in Hrun.
    destruct (Before date loopEnd) eqn:Hb.
    + assert (Hds : Format date DateOnly <> k).
      { specialize (Hwin 0 ltac:(lia)). rewrite Z.mul_0_l, Add_0 in Hwin.
        exact (Hwin Hb). }
      assert (Hnext : forall j : Z, 0 <= j ->
                Before (Add (Add date (24 * Hour)) (j * (24 * Hour))) loopEnd = true ->
                Format (Add (Add date (24 * Hour)) (j * (24 * Hour))) DateOnly <> k).
      { intros j Hj. rewrite Add_Add.
        replace (24 * Hour + j * (24 * Hour)) with ((j + 1) * (24 * Hour)) by ring.
        apply Hwin. lia. }
      unfold bind, getCache, timeDateOnlyLayout in Hrun.
      remember (Format date DateOnly) as ds eqn:Eds. clear Eds.
      destruct (dayIDCache c !! ds) as [v|] eqn:Hlook.
      * unfold ret in Hrun. exact (IH _ _ Hrun Hk Hnext).
      * unfold setDayID in Hrun. refine (IH _ _ Hrun _ Hnext).
        simpl dayIDCache. rewrite lookup_insert_ne by exact Hds. exact Hk.
    + apply result_inv in Hrun as (_ & <- & _). exact Hk.
Qed.

(** X13. cacheDayIDs adds nothing outside its window: a key the cache did
    not hold, that the answer does not name and that is the date of none of
    the days from startDate to endDate (in steps of 24 hours), is still
    absent afterwards. *)
Theorem cacheDayIDs_adds_only_the_window (days : list CalendarDay)
    (startDate endDate : Time) (c : Client) (w : World) r c' w' (k : string) :
  cacheDayIDs days startDate endDate c w = (r, c', w') ->
  dayIDCache c !! k = None ->
  lastListed k days = None ->
  (forall j : Z, 0 <= j ->
     Before (Add startDate (j * (24 * Hour))) (Add endDate (24 * Hour)) = true ->
     Format (Add startDate (j * (24 * Hour))) DateOnly <> k) ->
  dayIDCache c' !! k = None.
Proof.
  unfold cacheDayIDs, bind. intros Hrun Hk Hlast Hwin.
  destruct (cacheKnownDays_run days c w) as [c1 Hknown].
  pose proof (Lookups.cacheKnownDays_cache _ _ _ _ _ _ Hknown k) as Hc1.
  rewrite Hlast, Hk in Hc1. rewrite Hknown in Hrun.
  exact (setUnknownDays_only_window _ _ _ _ _ _ _ _ _ Hrun Hc1 Hwin).
Qed.

Lemma cacheDayIDs_adds_only_the_window_witness :
  dayIDCache
    (snd (fst (cacheDayIDs [Fixtures.day20]
                 (time_Date 2023 1 1 0 0 0 0 UTCLoc)
                 (time_Date 2023 1 31 0 0 0 0 UTCLoc)
                 Fixtures.loggedIn (Fixtures.worldOf Fixtures.calendarServer))))
  !! "2023-02-01" = None.
Proof.
  destruct (cacheDayIDs [Fixtures.day20]
              (time_Date 2023 1 1 0 0 0 0 UTCLoc)
              (time_Date 2023 1 31 0 0 0 0 UTCLoc)
              Fixtures.loggedIn (Fixtures.worldOf Fixtures.calendarServer))
    as [[r c'] w'] eqn:Hrun.
  cbn [fst snd].
  refine (cacheDayIDs_adds_only_the_window _ _ _ _ _ _ _ _ "2023-02-01" Hrun
            eq_refl eq_refl _).
  intros j Hj Hb.
  assert (Hs : unixNano (time_Date 2023 1 1 0 0 0 0 UTCLoc) = 1672531200000000000)
    by (vm_compute; reflexivity).
  assert (He : unixNano (time_Date 2023 1 31 0 0 0 0 UTCLoc) = 1675123200000000000)
    by (vm_compute; reflexivity).
  unfold Before, Add in Hb. cbn [unixNano] in Hb.
  rewrite Hs, He, oneDay_value in Hb. apply Z.ltb_lt in Hb.
  assert (Hn : (Z.to_nat j < 31)%nat) by lia.
  rewrite <- (Z2Nat.id j Hj). revert Hn. generalize (Z.to_nat j) as n.
  intros n Hn.
  do 31 (destruct n as [|n]; [vm_compute; discriminate|]). lia.
Defined.

Lemma GetDayUUID_by_civil_date (d1 d2 : Time) :
  Date d1 = Date d2 -> location d1 = location d2 ->
  GetDayUUID d1 = GetDayUUID d2.
Proof.
  intros Hdate Hloc. pose proof (Format_DateOnly_Date _ _ Hdate) as Hfmt.
  assert (Hwin : TimeFullMonth d1 = TimeFullMonth d2)
    by (unfold TimeFullMonth; rewrite Hdate, Hloc; reflexivity).
  unfold GetDayUUID, timeDateOnlyLayout. rewrite Hfmt, Hwin. reflexivity.
Qed.

Lemma GetOrNewDayUUID_by_civil_date (d1 d2 : Time) :
  Date d1 = Date d2 -> location d1 = location d2 ->
  GetOrNewDayUUID d1 = GetOrNewDayUUID d2.
Proof.
  intros Hdate Hloc. pose proof (Format_DateOnly_Date _ _ Hdate) as Hfmt.
  unfold GetOrNewDayUUID, timeDateOnlyLayout.
  rewrite (GetDayUUID_by_civil_date _ _ Hdate Hloc), Hfmt. reflexivity.
Qed.

(** X14. The date passed to GetDayUUID, GetOrNewDayUUID and SetAttendance
    counts only through its civil date and its zone: two times of the same
    day in the same zone give the same result, the same client and the same
    requests, whatever the time of day. *)
Theorem day_lookup_ignores_time_of_day (d1 d2 : Time) (c : Client) (w : World) :
  Date d1 = Date d2 -> location d1 = location d2 ->
  GetDayUUID d1 c w = GetDayUUID d2 c w
  /\ GetOrNewDayUUID d1 c w = GetOrNewDayUUID d2 c w
  /\ forall periods, SetAttendance d1 periods c w = SetAttendance d2 periods c w.
Proof.
  intros Hdate Hloc.
  split; [rewrite (GetDayUUID_by_civil_date _ _ Hdate Hloc); reflexivity|].
  split; [rewrite (GetOrNewDayUUID_by_civil_date _ _ Hdate Hloc); reflexivity|].
  intros periods. unfold SetAttendance.
  rewrite (GetOrNewDayUUID_by_civil_date _ _ Hdate Hloc). reflexivity.
Qed.

Lemma day_lookup_ignores_time_of_day_witness :
  GetOrNewDayUUID Fixtures.jan18_1300 Fixtures.loggedIn
                  (Fixtures.worldOf Fixtures.calendarServer)
  = GetOrNewDayUUID Fixtures.jan18_1700 Fixtures.loggedIn
                    (Fixtures.worldOf Fixtures.calendarServer).
Proof.
  assert (Hdate : Date Fixtures.jan18_1300 = Date Fixtures.jan18_1700)
    by (vm_compute; reflexivity).
  exact (proj1 (proj2 (day_lookup_ignores_time_of_day
                         Fixtures.jan18_1300 Fixtures.jan18_1700
                         Fixtures.loggedIn
                         (Fixtures.worldOf Fixtures.calendarServer)
                         Hdate eq_refl))).
Defined.

End Window.

(** * The helpers *)

(** ** [ToCamelCase] *)

Module UtilFacts.
Import Util.

Lemma prefix_length (p s : string) :
  String.prefix p s = true -> (String.length p <= String.length s)%nat.
Proof.
  revert s. induction p as [|a p IH]; intros s H; [simpl; lia|].
  destruct s as [|b s]; [discriminate H|]. simpl in H.
  destruct (ascii_dec a b); [|discriminate H]. simpl. apply IH in H. lia.
Qed.

(** Every pair of the replacer swaps a text for one of the same length, and
    none of the old strings is empty. *)
Lemma camelCase_pairs (old new : string) :
  In (old, new) camelCaseReplacer ->
  String.length new = String.length old /\ (0 < String.length old)%nat.
Proof.
  unfold camelCaseReplacer. simpl. intros H.
  repeat (destruct H as [H|H]; [injection H as <- <-; simpl; lia|]).
  destruct H.
Qed.

Lemma Replacer_lookup_Some (r : Replacer) (s old new : string) :
  Replacer_lookup r s = Some (old, new) ->
  In (old, new) r /\ String.prefix old s = true.
Proof.
  unfold Replacer_lookup. intros H. apply find_some in H. exact H.
Qed.

Lemma Replacer_from_length (skip : nat) (s : string) :
  (skip <= String.length s)%nat ->
  String.length (Replacer_from camelCaseReplacer skip s)
  = (String.length s - skip)%nat.
Proof.
  revert skip. induction s as [|b rest IH]; intros skip Hskip.
  - simpl in *. lia.
  - cbn [Replacer_from]. destruct skip as [|k].
    + destruct (Replacer_lookup camelCaseReplacer (String b rest))
        as [[old new]|] eqn:Hlook.
      * apply Replacer_lookup_Some in Hlook. destruct Hlook as [Hin Hpre].
        apply camelCase_pairs in Hin. apply prefix_length in Hpre.
        simpl in Hpre. rewrite length_append, IH by lia. simpl. lia.
      * simpl. rewrite IH by lia. lia.
    + simpl in Hskip. rewrite IH by lia. simpl. lia.
Qed.

Lemma toLowerByte_not_upper (b : ascii) : isUpperASCII (toLowerByte b) = false.
Proof. destruct b as [[] [] [] [] [] [] [] []]; reflexivity. Qed.

(** X15. ToCamelCase never fails and keeps the length of its argument:
    every replacement swaps a word for one of the same length. The result
    of a non-empty text does not start with a capital letter of ASCII, and
    the empty text is returned as it is. *)
Theorem ToCamelCase_keeps_length (s : string) :
  exists t,
    ToCamelCase s = Some t
    /\ String.length t = String.length s
    /\ match t with
       | String b _ => isUpperASCII b = false
       | EmptyString => s = EmptyString
       end.
Proof.
  unfold ToCamelCase. destruct s as [|b0 rest0]; [exists EmptyString; auto|].
  cbn [String.length Nat.eqb]. unfold Replacer_Replace.
  pose proof (Replacer_from_length 0 (String b0 rest0) ltac:(lia)) as Hlen.
  destruct (Replacer_from camelCaseReplacer 0 (String b0 rest0)) as [|b rest].
  - simpl in Hlen. lia.
  - eexists. split; [reflexivity|]. split; [exact Hlen|].
    apply toLowerByte_not_upper.
Qed.

Lemma not_capital_no_match (b : ascii) (rest : string) :
  isCapital b = false ->
  Replacer_lookup camelCaseReplacer (String b rest) = None.
Proof.
  destruct b as [[] [] [] [] [] [] [] []]; intros H;
    first [discriminate H|reflexivity].
Qed.

Lemma Replacer_from_unchanged (s : string) :
  forallb (fun b => negb (isCapital b)) (list_ascii_of_string s) = true ->
  Replacer_from camelCaseReplacer 0 s = s.
Proof.
  induction s as [|b rest IH]; [reflexivity|].
  cbn [list_ascii_of_string forallb Replacer_from]. intros H.
  apply andb_true_iff in H. destruct H as [Hb Hrest].
  apply negb_true_iff in Hb.
  rewrite (not_capital_no_match b rest Hb), (IH Hrest). reflexivity.
Qed.

(** X16. A text without capital letters comes back from ToCamelCase as it
    went in: no word of the replacer occurs in it, as each starts with a
    capital, and its first byte is its own lower case. *)
Theorem ToCamelCase_lower_case_unchanged (s : string) :
  forallb (fun b => negb (isCapital b)) (list_ascii_of_string s) = true ->
  ToCamelCase s = Some s.
Proof.
  intros H. unfold ToCamelCase, Replacer_Replace.
  rewrite (Replacer_from_unchanged s H).
  destruct s as [|b rest]; [reflexivity|].
  cbn [String.length Nat.eqb]. cbn [list_ascii_of_string forallb] in H.
  apply andb_true_iff in H. destruct H as [Hb _].
  apply negb_true_iff in Hb. unfold isCapital in Hb.
  apply negb_false_iff, Ascii.eqb_eq in Hb. rewrite Hb. reflexivity.
Qed.

Lemma ToCamelCase_lower_case_unchanged_witness :
  ToCamelCase "output" = Some "output"%string.
Proof. apply ToCamelCase_lower_case_unchanged. vm_compute. reflexivity. Defined.

Example ToCamelCase_examples :
  ToCamelCase "EmployeeID" = Some "employeeId"%string
  /\ ToCamelCase "BaseURL" = Some "baseUrl"%string
  /\ ToCamelCase "GitHubPR" = Some "githubPr"%string
  /\ ToCamelCase "DERFile" = Some "pemFile"%string.
Proof. vm_compute. repeat split. Qed.

End UtilFacts.

(** ** The output format *)

Module ConfigFacts.
Import Config.

(** X17. The output format takes exactly the texts that the JSON schema
    lists, pretty, json and yaml, in this spelling. Set and UnmarshalText
    store an accepted text, so that String gives it back; any other text is
    refused with the error that names it, and the value is left as it
    was. *)
Theorem OutFormat_accepts_the_schema (f : OutFormat) (text : string) :
  OutFormat_UnmarshalText f text = OutFormat_Set f text
  /\ (In text (Schema_Enum OutFormat_JSONSchema) ->
      OutFormat_Set f text = (text, None)
      /\ OutFormat_String (fst (OutFormat_Set f text)) = text)
  /\ (~ In text (Schema_Enum OutFormat_JSONSchema) ->
      OutFormat_Set f text = (f, Some (UnknownOutputFormat text))).
Proof.
  split; [reflexivity|]. unfold OutFormat_Set, OutFormat_JSONSchema.
  cbn [Schema_Enum In]. split.
  - intros [<-|[<-|[<-|[]]]]; split; reflexivity.
  - intros Hnot.
    destruct (String.eqb_spec text OutFormatPretty) as [->|_];
      [exfalso; apply Hnot; auto|].
    destruct (String.eqb_spec text OutFormatJSON) as [->|_];
      [exfalso; apply Hnot; auto|].
    destruct (String.eqb_spec text OutFormatYAML) as [->|_];
      [exfalso; apply Hnot; auto|].
    reflexivity.
Qed.

Lemma OutFormat_accepts_the_schema_witness :
  OutFormat_Set OutFormatPretty "yaml" = ("yaml"%string, None)
  /\ OutFormat_Set OutFormatPretty "YAML"
     = (OutFormatPretty, Some (UnknownOutputFormat "YAML")).
Proof.
  destruct (OutFormat_accepts_the_schema OutFormatPretty "yaml") as (_ & Hin & _).
  destruct (OutFormat_accepts_the_schema OutFormatPretty "YAML") as (_ & _ & Hout).
  split.
  - apply Hin. simpl. auto.
  - apply Hout. simpl. intros [H|[H|[H|[]]]]; discriminate H.
Defined.

End ConfigFacts.

(** ** The keys of the day cache *)

Module Keys.
Import Civil CivilFacts GoTimeFacts.

Lemma digit_value (d : Z) :
  0 <= d < 10 -> Z.of_nat (nat_of_ascii (digit d)) - 48 = d.
Proof.
  intros H. unfold digit. rewrite nat_ascii_embedding by lia. lia.
Qed.

Lemma digit_not_minus (d : Z) : 0 <= d < 10 -> Ascii.eqb (digit d) "-" = false.
Proof.
  intros H.
  assert (Hd : d = 0 \/ d = 1 \/ d = 2 \/ d = 3 \/ d = 4 \/ d = 5 \/ d = 6
               \/ d = 7 \/ d = 8 \/ d = 9) by lia.
  repeat (destruct Hd as [->|Hd]; [reflexivity|]). subst d. reflexivity.
Qed.

Lemma digitsValue_utoa_aux (fuel : nat) (u : Z) (tail : string) :
  0 <= u < 10 ^ Z.of_nat fuel ->
  digitsValue 0 (utoa_aux fuel u tail) = digitsValue u tail.
Proof.
  revert u tail. induction fuel as [|k IH]; intros u tail Hu.
  - simpl in Hu. assert (u = 0) by lia. subst u. reflexivity.
  - cbn [utoa_aux]. destruct (Z.ltb_spec u 10) as [Hlt|Hge].
    + cbn [digitsValue]. rewrite digit_value by (apply Z.mod_pos_bound; lia).
      rewrite Z.mod_small by lia. f_equal.
    + rewrite IH.
      * cbn [digitsValue]. rewrite digit_value by (apply Z.mod_pos_bound; lia).
        f_equal. pose proof (Z.div_mod u 10). lia.
      * rewrite Nat2Z.inj_succ, Z.pow_succ_r in Hu by lia.
        split; [apply Z.div_pos; lia|].
        apply Z.div_lt_upper_bound; lia.
Qed.

Lemma utoa_fuel (u : Z) : 0 <= u -> u < 10 ^ Z.of_nat (S (Z.to_nat (Z.log2 u))).
Proof.
  intros Hu. rewrite Nat2Z.inj_succ, Z2Nat.id by apply Z.log2_nonneg.
  destruct (Z.eq_dec u 0) as [->|Hne]; [reflexivity|].
  destruct (Z.log2_spec u ltac:(lia)) as [_ Hlt].
  eapply Z.lt_le_trans; [exact Hlt|].
  apply Z.pow_le_mono_l. lia.
Qed.

Lemma digitsValue_utoa (u : Z) : 0 <= u -> digitsValue 0 (utoa u) = u.
Proof.
  intros Hu. unfold utoa. rewrite digitsValue_utoa_aux; [reflexivity|].
  split; [exact Hu|apply utoa_fuel; exact Hu].
Qed.

Lemma digitsValue_app_zeros (n : nat) (s : string) :
  digitsValue 0 (zeros n +:+ s) = digitsValue 0 s.
Proof. induction n as [|n IH]; [reflexivity|exact IH]. Qed.

Lemma utoa_aux_head (fuel : nat) (u : Z) (tail : string) :
  exists d rest, 0 <= d < 10 /\ utoa_aux (S fuel) u tail = String (digit d) rest.
Proof.
  revert u tail. induction fuel as [|k IH]; intros u tail.
  - cbn [utoa_aux]. exists (u mod 10). eexists.
    split; [apply Z.mod_pos_bound; lia|]. destruct (u <? 10); reflexivity.
  - remember (S k) as f. cbn [utoa_aux]. destruct (u <? 10).
    + exists (u mod 10). eexists. split; [apply Z.mod_pos_bound; lia|reflexivity].
    + subst f. apply IH.
Qed.

Lemma readInt_appendInt (x : Z) (width : nat) : readInt (appendInt x width) = x.
Proof.
  unfold appendInt. destruct (Z.ltb_spec x 0) as [Hneg|Hpos].
  - change ("-" +:+ ?s) with (String "-" s). cbn [readInt].
    rewrite Ascii.eqb_refl, digitsValue_app_zeros, digitsValue_utoa by lia. lia.
  - change ("" +:+ ?s) with s.
    assert (Hval : digitsValue 0 (zeros (width - String.length (utoa (Z.abs x)))
                                  +:+ utoa (Z.abs x)) = x)
      by (rewrite digitsValue_app_zeros, digitsValue_utoa by lia; lia).
    destruct (width - String.length (utoa (Z.abs x)))%nat as [|n].
    + cbn [zeros] in *. change ("" +:+ ?s) with s in *.
      unfold utoa in *.
      destruct (utoa_aux_head (Z.to_nat (Z.log2 (Z.abs x))) (Z.abs x) "")
        as (d & rest & Hd & Heq).
      rewrite Heq in *. cbn [readInt]. rewrite digit_not_minus by exact Hd.
      exact Hval.
    + cbn [zeros] in *. change (String "0" ?a +:+ ?b) with (String "0" (a +:+ b)) in *.
      cbn [readInt]. change (Ascii.eqb "0" "-") with false. cbv iota. exact Hval.
Qed.

Lemma appendInt_inj (x y : Z) (width : nat) :
  appendInt x width = appendInt y width -> x = y.
Proof.
  intros H. apply (f_equal readInt) in H. rewrite !readInt_appendInt in H. exact H.
Qed.

Lemma two_digits (m : Z) : 0 <= m < 100 -> String.length (appendInt m 2) = 2%nat.
Proof.
  intros Hm.
  assert (Hall : all_below 100 (fun m => (String.length (appendInt m 2) =? 2)%nat) = true)
    by (vm_compute; reflexivity).
  apply Nat.eqb_eq. exact (all_below_spec _ _ Hall m Hm).
Qed.

Lemma daysIn_le (y m : Z) : daysIn y m <= 31.
Proof. pose proof (daysIn_pos y m). lia. Qed.

Lemma dateText_inj (Y Y' M M' D D' : string) :
  String.length M = 2%nat -> String.length M' = 2%nat ->
  String.length D = 2%nat -> String.length D' = 2%nat ->
  Y +:+ "-" +:+ M +:+ "-" +:+ D +:+ "" = Y' +:+ "-" +:+ M' +:+ "-" +:+ D' +:+ "" ->
  Y = Y' /\ M = M' /\ D = D'.
Proof.
  intros HM HM' HD HD' Heq.
  apply append_inj in Heq; [|rewrite !length_append; simpl; lia].
  destruct Heq as [-> Heq]. split; [reflexivity|].
  assert (Heq1 : M +:+ "-" +:+ D +:+ "" = M' +:+ "-" +:+ D' +:+ "")
    by (injection Heq as Heq; exact Heq).
  apply append_inj in Heq1; [|rewrite !length_append; simpl; lia].
  destruct Heq1 as [-> Heq1]. split; [reflexivity|].
  assert (Heq2 : D +:+ "" = D' +:+ "") by (injection Heq1 as Heq1; exact Heq1).
  apply append_inj in Heq2; [|reflexivity]. tauto.
Qed.

Lemma Format_DateOnly_inj (t u : Time) :
  Format t DateOnly = Format u DateOnly -> Date t = Date u.
Proof.
  pose proof (Date_range t) as (Hmt & Hdt & _).
  pose proof (Date_range u) as (Hmu & Hdu & _).
  pose proof (daysIn_le (Year t) (Month t)).
  pose proof (daysIn_le (Year u) (Month u)).
  unfold Year, Month, GoTime.Day in *.
  unfold Format, DateOnly. cbn [fold_right]. unfold formatChunk.
  destruct (Date t) as [[y m] d], (Date u) as [[y' m'] d'].
  destruct (Clock t) as [[? ?] ?], (Clock u) as [[? ?] ?].
  cbn [fst snd] in *. intros Heq.
  apply dateText_inj in Heq; try (apply two_digits; lia).
  destruct Heq as (Hy & Hm & Hd).
  apply appendInt_inj in Hy, Hm, Hd. congruence.
Qed.

(** X18. The key under which GetDayUUID, GetOrNewDayUUID and cacheDayIDs
    keep a day is its civil date: two times have the same key exactly when
    they fall on the same year, month and day, each read in its own zone.
    Different days never share an entry of the cache. *)
Theorem cache_key_is_the_civil_date (d1 d2 : Time) :
  Format d1 timeDateOnlyLayout = Format d2 timeDateOnlyLayout
  <-> Date d1 = Date d2.
Proof.
  unfold timeDateOnlyLayout. split.
  - apply Format_DateOnly_inj.
  - apply Format_DateOnly_Date.
Qed.

End Keys.

(** ** What the result tells about what was sent *)

Module Outcomes.
Import GoTimeFacts Effects Operations Runs Writes Lookups Attendance.

(** The course of [SetWorkingTimes] on a logged-in client. *)
Lemma SetWorkingTimes_run (from to : Time) (c : Client) (w : World) :
  authenticationState c = LoggedIn ->
  let req := NewRequest "POST" "/api/v1/attendances/periods"
               (Some (workingTimesBody (uuid_fromRandom (entropy w (drawn w)))
                                       (EmployeeID c) from to)) in
  SetWorkingTimes from to c w
  = match transport w (trace w) req with
    | Replied resp =>
        if isSuccess (StatusCode resp) then
          match asPeriodsResult (Payload resp) with
          | Some n => (Ok tt, c, advance 1 [Sent req; LogPrintf "Got %d results" n] w)
          | None => (Err ErrDecode, c, advance 1 [Sent req] w)
          end
        else (Err (ErrStatus (StatusCode resp)), c, advance 1 [Sent req] w)
    | TransportFailed msg => (Err (ErrTransport msg), c, advance 1 [Sent req] w)
    end.
Proof.
  intros Hst req. unfold SetWorkingTimes.
  rewrite login_check_passes by exact Hst.
  unfold bind at 1, uuid_New. unfold bind at 1, getClient.
  change (NewRequest "POST" _ (Some _)) with req.
  unfold bind at 1, RawJSON.
  change (transport (draw w) (trace (draw w)) req)
    with (transport w (trace w) req).
  assert (Hone : record (Sent req) (draw w) = advance 1 [Sent req] w)
    by (rewrite record_advance, draw_advance, advance_advance; reflexivity).
  destruct (transport w (trace w) req) as [resp|msg]; [|rewrite Hone; reflexivity].
  unfold bind, ParseResponseJSON.
  destruct (isSuccess (StatusCode resp)); [|rewrite Hone; reflexivity].
  destruct (asPeriodsResult (Payload resp)) as [n|];
    [|unfold fail; rewrite Hone; reflexivity].
  unfold ret, emit. rewrite Hone, record_advance, advance_advance. reflexivity.
Qed.

(** X19. A logged-in SetWorkingTimes always draws one identifier and sends
    one POST to the periods path, also when it fails, and it never changes
    the client. The number of results is logged exactly when the call
    succeeds; an error is always that of the request: transport, status or
    decoding. *)
Theorem SetWorkingTimes_effects (from to : Time) (c : Client) (w : World)
    r c' w' :
  authenticationState c = LoggedIn ->
  SetWorkingTimes from to c w = (r, c', w') ->
  c' = c /\ drawn w' = S (drawn w)
  /\ exists req,
       Method req = "POST" /\ URL req = "/api/v1/attendances/periods"
       /\ ((r = Ok tt
            /\ exists n, since w w' = [Sent req; LogPrintf "Got %d results" n])
           \/ ((exists e, r = Err e /\ isRemoteError e = true)
               /\ since w w' = [Sent req])).
Proof.
  intros Hst Hrun. rewrite (SetWorkingTimes_run from to c w Hst) in Hrun.
  cbv zeta in Hrun. set (req := NewRequest _ _ _) in Hrun.
  assert (Hfail : forall e,
             (Err e, c, advance 1 [Sent req] w) = (r, c', w') ->
             isRemoteError e = true ->
             c' = c /\ drawn w' = S (drawn w)
             /\ exists req,
                  Method req = "POST" /\ URL req = "/api/v1/attendances/periods"
                  /\ ((r = Ok tt
                       /\ exists n,
                            since w w' = [Sent req; LogPrintf "Got %d results" n])
                      \/ ((exists e, r = Err e /\ isRemoteError e = true)
                          /\ since w w' = [Sent req]))).
  { intros e H He. apply result_inv in H as (<- & <- & <-).
    split; [reflexivity|]. split; [reflexivity|].
    exists req. split; [reflexivity|]. split; [reflexivity|].
    right. split; [eauto|apply since_advance]. }
  destruct (transport w (trace w) req) as [resp|msg];
    [|exact (Hfail _ Hrun eq_refl)].
  destruct (isSuccess (StatusCode resp)); [|exact (Hfail _ Hrun eq_refl)].
  destruct (asPeriodsResult (Payload resp)) as [n|];
    [|exact (Hfail _ Hrun eq_refl)].
  apply result_inv in Hrun as (<- & <- & <-).
  split; [reflexivity|]. split; [reflexivity|].
  exists req. split; [reflexivity|]. split; [reflexivity|].
  left. split; [reflexivity|]. exists n. apply since_advance.
Qed.

Lemma SetWorkingTimes_effects_witness :
  drawn (snd (SetWorkingTimes Fixtures.jan18_1300_cet Fixtures.jan18_1700_cet
                Fixtures.loggedIn (Fixtures.worldOf Fixtures.unavailableServer)))
  = 1%nat.
Proof.
  destruct (SetWorkingTimes Fixtures.jan18_1300_cet Fixtures.jan18_1700_cet
              Fixtures.loggedIn (Fixtures.worldOf Fixtures.unavailableServer))
    as [[r c'] w'] eqn:Hrun.
  cbn [snd].
  exact (proj1 (proj2 (SetWorkingTimes_effects
                         _ _ Fixtures.loggedIn _ _ _ _ eq_refl Hrun))).
Defined.

Lemma attendanceBody_error (employeeID : Z) (periods : list Period) :
  (exists body, attendanceBody employeeID periods = Ok body)
  \/ exists msg, attendanceBody employeeID periods = Err (ErrMarshal msg).
Proof.
  unfold attendanceBody.
  assert (H : (exists js, Periods_MarshalJSON periods = Ok js)
              \/ exists msg, Periods_MarshalJSON periods = Err (ErrMarshal msg)).
  { induction periods as [|p rest IH]; [left; eexists; reflexivity|].
    cbn [Periods_MarshalJSON].
    destruct (Period_MarshalJSON_cases p) as [[j ->]|[msg ->]]; [|eauto].
    destruct IH as [[js ->]|[msg ->]]; eauto. }
  destruct H as [[js ->]|[msg ->]]; eauto.
Qed.

(** X20. The error of SetAttendance tells whether the write went out. An
    error of the request itself (transport, status, decoding) means that the
    PUT was sent; every other error (not logged in, a period that cannot be
    encoded, a failed day lookup, which comes wrapped) means that no PUT was
    sent. *)
Theorem SetAttendance_error_tells_if_sent (date : Time) (periods : list Period)
    (c : Client) (w : World) (e : error) c' w' :
  SetAttendance date periods c w = (Err e, c', w') ->
  isRemoteError e = true
  <-> exists req, In (Sent req) (since w w') /\ Method req = "PUT".
Proof.
  intros Hrun.
  assert (Hnone : forall (n : nat) (evs : list Event),
             w' = advance n evs w ->
             Forall (fun req => Method req = "GET") (requests evs) ->
             isRemoteError e = false ->
             isRemoteError e = true
             <-> exists req, In (Sent req) (since w w') /\ Method req = "PUT").
  { intros n evs -> Hgets He. rewrite He, since_advance.
    split; [discriminate|]. intros (req & Hin & Hput). exfalso.
    rewrite Forall_forall in Hgets.
    assert (Hreq : req ∈ requests evs).
    { unfold requests. apply list_elem_of_omap. exists (Sent req).
      split; [apply list_elem_of_In; exact Hin|reflexivity]. }
    apply Hgets in Hreq. congruence. }
  destruct (loggedIn_dec c) as [Hst|Hst].
  - destruct (SetAttendance_unfold _ _ _ _ _ _ _ Hst Hrun)
      as (n & periods' & _ & Hcase).
    destruct (attendanceBody_error (EmployeeID c) periods')
      as [[body Hbody]|[msg Hbody]]; rewrite Hbody in Hcase.
    + destruct Hcase as (r1 & c1 & w1 & Hday & -> & Hcase).
      destruct (GetOrNewDayUUID_requests _ _ _ _ _ _ Hday)
        as (n1 & evs & -> & _ & Hgets & _).
      destruct r1 as [dayID|e1|msg1].
      * destruct Hcase as [-> [Hr|(e0 & Hr & He0)]]; [discriminate Hr|].
        injection Hr as ->. rewrite He0. split; [intros _|reflexivity].
        exists (NewRequest "PUT" (dayPath dayID) (Some body)).
        split; [|reflexivity].
        rewrite record_advance, !advance_advance, since_advance.
        rewrite app_nil_l. apply in_or_app. right. apply in_eq.
      * destruct Hcase as [Hr ->].
        apply (Hnone _ _ (advance_advance _ _ _ _ _)).
        -- rewrite requests_app. exact Hgets.
        -- apply GetOrNewDayUUID_run in Hday.
           destruct Hday as (r0 & c0 & w0 & _ & Hcase).
           destruct r0 as [[id0|]|e0|msg0];
             try (destruct Hcase as (Habs & _); discriminate Habs).
           destruct Hcase as (Heq & _). injection Hr as ->.
           injection Heq as ->. reflexivity.
      * destruct Hcase as [Hr _]. discriminate Hr.
    + destruct Hcase as (Hr & _ & ->). injection Hr as ->.
      apply (Hnone n [] eq_refl); [constructor|reflexivity].
  - unfold SetAttendance in Hrun. rewrite login_check_refuses in Hrun by exact Hst.
    apply result_inv in Hrun as (Hr & _ & <-). injection Hr as <-.
    apply (Hnone 0%nat []); [symmetry; apply advance_0_nil|constructor|reflexivity].
Qed.

Lemma SetAttendance_error_tells_if_sent_witness :
  exists req,
    In (Sent req)
       (since (Fixtures.worldOf Fixtures.readOnlyServer)
          (snd (SetAttendance Fixtures.jan18_1300 [Fixtures.untypedPeriod]
                  Fixtures.loggedIn (Fixtures.worldOf Fixtures.readOnlyServer))))
    /\ Method req = "PUT".
Proof.
  assert (Hr : fst (fst (SetAttendance Fixtures.jan18_1300 [Fixtures.untypedPeriod]
                           Fixtures.loggedIn
                           (Fixtures.worldOf Fixtures.readOnlyServer)))
               = Err (ErrStatus 500)) by (vm_compute; reflexivity).
  destruct (SetAttendance Fixtures.jan18_1300 [Fixtures.untypedPeriod]
              Fixtures.loggedIn (Fixtures.worldOf Fixtures.readOnlyServer))
    as [[r c'] w'] eqn:Hrun.
  cbn [fst snd] in *. subst r.
  exact (proj1 (SetAttendance_error_tells_if_sent _ _ _ _ _ _ _ Hrun) eq_refl).
Defined.

End Outcomes.

(** * The month window and the two revisions *)

(** ** One query for a month *)

Module MonthCache.
Import Civil CivilFacts GoTimeFacts Effects Operations Runs Lookups Requests.

Lemma append_nil (s : string) : s +:+ "" = s.
Proof.
  induction s as [|ch s IH]; [reflexivity|].
  change (String ch (s +:+ "") = String ch s). rewrite IH. reflexivity.
Qed.

(** The layout 2006-01-02 writes the civil date. *)
Lemma Format_dateText (t : Time) (y m d : Z) :
  Date t = (y, m, d) -> Format t DateOnly = dateText y m d.
Proof.
  intros Hdate. unfold Format, DateOnly, dateText. cbn [fold_right].
  unfold formatChunk. rewrite Hdate.
  destruct (Clock t) as [[? ?] ?]. cbv beta iota.
  rewrite (append_nil (appendInt d 2)). reflexivity.
Qed.

Lemma Date_midnight (y m d : Z) (loc : Location) :
  1 <= m <= 12 -> 1 <= d <= daysIn y m ->
  Date (midnight (days_from_civil y m d) loc) = (y, m, d).
Proof.
  intros Hm Hd. unfold Date. rewrite abs_midnight.
  rewrite Z.div_mul by (unfold secondsPerDay; lia).
  apply civil_from_days_of_civil; assumption.
Qed.

(** The request for the window of [TimeFullMonth] is the query for the
    whole month. *)
Lemma monthQuery_window (c : Client) (date : Time) :
  calendarRequest (EmployeeID c) (fst (TimeFullMonth date))
                  (snd (TimeFullMonth date))
  = monthQuery c date.
Proof.
  rewrite calendarRequest_text, TimeFullMonth_window. cbn [fst snd].
  destruct (Date_range date) as (Hm & _ & _).
  pose proof (daysIn_pos (Year date) (Month date)) as Hlen.
  rewrite (Format_dateText
             (midnight (days_from_civil (Year date) (Month date) 1) (location date))
             (Year date) (Month date) 1)
    by (apply Date_midnight; lia).
  rewrite (Format_dateText
             (midnight (days_from_civil (Year date) (Month date)
                                        (daysIn (Year date) (Month date)))
                       (location date))
             (Year date) (Month date) (daysIn (Year date) (Month date)))
    by (apply Date_midnight; lia).
  reflexivity.
Qed.

Lemma monthQuery_sameMonth (c c' : Client) (d d' : Time) :
  EmployeeID c' = EmployeeID c -> sameMonth d d' = true ->
  monthQuery c' d' = monthQuery c d.
Proof.
  intros Hid Hsame. unfold sameMonth in Hsame.
  apply andb_true_iff in Hsame. destruct Hsame as [Hy Hm].
  apply Z.eqb_eq in Hy, Hm. unfold monthQuery. rewrite Hid, Hy, Hm. reflexivity.
Qed.

(** A logged-in calendar request always goes out, and the client stays. *)
Lemma GetAttendanceCalendar_sends (employeeID : Z) (startDate endDate : Time)
    (c : Client) (w : World) r c' w' :
  authenticationState c = LoggedIn ->
  GetAttendanceCalendar employeeID startDate endDate c w = (r, c', w') ->
  c' = c /\ w' = record (Sent (calendarRequest employeeID startDate endDate)) w.
Proof.
  intros Hst. unfold GetAttendanceCalendar.
  rewrite login_check_passes by exact Hst.
  unfold calendarQuery. rewrite apply_calendarQuery.
  unfold bind at 1, lift. fold (calendarRequest employeeID startDate endDate).
  set (req := calendarRequest employeeID startDate endDate).
  unfold bind, RawJSON.
  destruct (transport w (trace w) req) as [resp|msg].
  - unfold ParseResponseJSON.
    destruct (isSuccess (StatusCode resp));
      [destruct (asCalendar (Payload resp))|];
      intros Hrun; apply result_inv in Hrun as (_ & <- & <-); auto.
  - intros Hrun. apply result_inv in Hrun as (_ & <- & <-). auto.
Qed.

Lemma session_of_lookup (date : Time) (c : Client) (w : World) r c1 w1 :
  GetDayUUID date c w = (r, c1, w1) -> sameSession c c1.
Proof.
  apply (Sessions.GetDayUUID_steady sameSession
           Sessions.sameSession_refl Sessions.sameSession_trans
           (Sessions.assertLoggedIn_leaves_client _ Sessions.sameSession_refl)
           (fun req => Sessions.RawJSON_leaves_client _ req Sessions.sameSession_refl)
           (fun T decode resp =>
              Sessions.ParseResponseJSON_leaves_client
                _ decode resp Sessions.sameSession_refl)
           Sessions.setDayID_session date).
Qed.

Lemma GetDayUUID_course (date : Time) (c : Client) (w : World) r c1 w1 :
  GetDayUUID date c w = (r, c1, w1) -> lookupCourse date c w r c1 w1.
Proof.
  intros Hrun. pose proof (session_of_lookup _ _ _ _ _ _ Hrun) as Hsession.
  destruct (GetDayUUID_obeys "" date _ _ _ _ _ Hrun) as [_ Hkeep].
  unfold lookupCourse.
  destruct (dayIDCache c !! Format date DateOnly) as [v|] eqn:Hlook.
  - rewrite (GetDayUUID_hit _ _ _ _ Hlook) in Hrun.
    apply result_inv in Hrun as (<- & <- & <-).
    exists 0%nat, []. rewrite advance_0_nil.
    split; [reflexivity|]. split; [exact Hsession|]. split; [exact Hkeep|].
    split; [reflexivity|eauto].
  - rewrite (GetDayUUID_miss_unfold _ _ _ Hlook) in Hrun.
    unfold GetMyAttendanceCalendar, bind at 1, getClient in Hrun.
    destruct (loggedIn_dec c) as [Hst|Hst].
    + rewrite Hst.
      destruct (GetAttendanceCalendar (EmployeeID c) (fst (TimeFullMonth date))
                  (snd (TimeFullMonth date)) c w) as [[r0 c0] w0] eqn:Hcal.
      destruct (GetAttendanceCalendar_sends _ _ _ _ _ _ _ _ Hst Hcal) as [-> ->].
      rewrite monthQuery_window in Hrun.
      destruct r0 as [cal|e|msg].
      * destruct (cacheDayIDs_run date (AttendanceDays cal) _ _ c
                    (record (Sent (monthQuery c date)) w)
                    (surjective_pairing _)) as (c2 & Hcache & Hmonth).
        rewrite Hcache in Hrun. apply result_inv in Hrun as (<- & <- & <-).
        exists 0%nat, (Sent (monthQuery c date) :: map cachedLog (AttendanceDays cal)).
        split; [rewrite record_advance, advance_advance; reflexivity|].
        split; [exact Hsession|]. split; [exact Hkeep|].
        split; [cbn; rewrite requests_cachedLog; reflexivity|].
        right. split; [eauto|exact Hmonth].
      * apply result_inv in Hrun as (<- & <- & <-).
        exists 0%nat, [Sent (monthQuery c date)].
        split; [apply record_advance|].
        split; [exact Hsession|]. split; [exact Hkeep|].
        split; [reflexivity|]. left. split; [eauto|reflexivity].
      * apply GetAttendanceCalendar_run in Hcal.
        destruct Hcal as (_ & _ & _ & Hnopanic). destruct (Hnopanic msg eq_refl).
    + assert (Hcal : GetAttendanceCalendar (EmployeeID c) (fst (TimeFullMonth date))
                       (snd (TimeFullMonth date)) c w = (Err ErrNotLoggedIn, c, w))
        by (unfold GetAttendanceCalendar; apply login_check_refuses, Hst).
      rewrite Hcal in Hrun. apply result_inv in Hrun as (<- & <- & <-).
      exists 0%nat, []. rewrite advance_0_nil.
      split; [reflexivity|]. split; [exact Hsession|]. split; [exact Hkeep|].
      destruct (authenticationState c); try (split; [reflexivity|eauto]).
      congruence.
Qed.

Lemma resolve_course (how : Lookup) (date : Time) (c : Client) (w : World)
    r c1 w1 :
  resolve how date c w = (r, c1, w1) -> lookupCourse date c w r c1 w1.
Proof.
  destruct how; cbn [resolve]; [apply GetDayUUID_course|].
  unfold bind at 1. intros Hrun.
  destruct (GetOrNewDayUUID date c w) as [[r0 c0] w0] eqn:Hnew.
  apply GetOrNewDayUUID_run in Hnew.
  destruct Hnew as (r' & c' & w' & Hday & Hcase).
  apply GetDayUUID_course in Hday.
  destruct Hday as (n & evs & -> & Hsession & Hkeep & Hcases).
  destruct r' as [[id|]|e|msg].
  - (* the lookup found an identifier *)
    destruct Hcase as (-> & -> & ->). unfold ret in Hrun.
    apply result_inv in Hrun as (<- & <- & <-).
    exists n, evs. split; [reflexivity|]. split; [exact Hsession|].
    split; [exact Hkeep|].
    destruct (dayIDCache c !! Format date DateOnly).
    + destruct Hcases as [Hreq _]. split; [exact Hreq|eauto].
    + destruct (authenticationState c);
        try (destruct Hcases as (_ & _ & e & He); discriminate He).
      destruct Hcases as [Hreq [[[e He] _]|[_ Hmonth]]]; [discriminate He|].
      split; [exact Hreq|]. right. split; [eauto|exact Hmonth].
  - (* the day is undefined: an identifier is made up and stored *)
    destruct Hcase as (-> & -> & ->). unfold ret in Hrun.
    apply result_inv in Hrun as (<- & <- & <-).
    set (newID := uuid_fromRandom _).
    assert (Hstored : forall k, is_Some (dayIDCache c' !! k) ->
              is_Some (dayIDCache
                         (withCache c' (<[Format date DateOnly := Some newID]>
                                          (dayIDCache c'))) !! k)).
    { intros k Hk. simpl.
      destruct (decide (Format date DateOnly = k)) as [<-|Hne].
      - rewrite lookup_insert_eq. eauto.
      - rewrite lookup_insert_ne by exact Hne. exact Hk. }
    exists (1 + n)%nat, (evs ++ [mintLog (Format date DateOnly) newID]).
    split; [rewrite advance_advance; reflexivity|].
    split.
    { destruct Hsession as (H1 & H2 & H3). unfold sameSession. simpl. auto. }
    split; [intros k Hk; apply Hstored, Hkeep, Hk|].
    assert (Hreq : requests (evs ++ [mintLog (Format date DateOnly) newID])
                   = requests evs)
      by (rewrite requests_app; simpl; apply app_nil_r).
    rewrite Hreq.
    destruct (dayIDCache c !! Format date DateOnly).
    + destruct Hcases as [Hr _]. split; [exact Hr|eauto].
    + destruct (authenticationState c);
        try (destruct Hcases as (_ & _ & e & He); discriminate He).
      destruct Hcases as [Hr [[[e He] _]|[_ Hmonth]]]; [discriminate He|].
      split; [exact Hr|]. right. split; [eauto|].
      intros d Hd. apply Hstored, Hmonth, Hd.
  - (* the lookup failed *)
    destruct Hcase as (-> & -> & ->).
    apply result_inv in Hrun as (<- & <- & <-).
    exists n, evs. split; [reflexivity|]. split; [exact Hsession|].
    split; [exact Hkeep|].
    destruct (dayIDCache c !! Format date DateOnly).
    + destruct Hcases as (_ & v & Hv). discriminate Hv.
    + destruct (authenticationState c);
        try (destruct Hcases as (Hr & Hc & _); split; [exact Hr|split; eauto]).
      destruct Hcases as [Hr [[_ Hc]|[[v Hv] _]]]; [|discriminate Hv].
      split; [exact Hr|]. left. split; [eauto|exact Hc].
  - destruct (dayIDCache c !! Format date DateOnly).
    + destruct Hcases as (_ & v & Hv). discriminate Hv.
    + destruct (authenticationState c);
        try (destruct Hcases as (_ & _ & e & He); discriminate He).
      destruct Hcases as [_ [[[e He] _]|[[v Hv] _]]]; discriminate.
Qed.

Lemma course_requests {A} (date : Time) (c : Client) (w : World)
    (r : outcome A) c1 w1 :
  lookupCourse date c w r c1 w1 ->
  requests (since w w1) = [] \/ requests (since w w1) = [monthQuery c date].
Proof.
  intros (n & evs & -> & _ & _ & Hcases). rewrite since_advance.
  destruct (dayIDCache c !! Format date DateOnly); [left; apply Hcases|].
  destruct (authenticationState c); [left|left|right]; apply Hcases.
Qed.

(** A lookup of a date the cache holds sends nothing and succeeds. *)
Lemma course_hit {A} (date : Time) (c : Client) (w : World)
    (r : outcome A) c1 w1 :
  is_Some (dayIDCache c !! Format date DateOnly) ->
  lookupCourse date c w r c1 w1 ->
  requests (since w w1) = [] /\ exists v, r = Ok v.
Proof.
  intros [v Hv] (n & evs & -> & _ & _ & Hcases). rewrite since_advance.
  rewrite Hv in Hcases. exact Hcases.
Qed.

Example monthQuery_january :
  monthQuery Fixtures.loggedIn Fixtures.jan18_1300
  = NewRequest "GET"
      "/svc/attendance-bff/attendance-calendar/991824?end_date=2023-01-31&start_date=2023-01-01"
      None.
Proof. vm_compute. reflexivity. Qed.

Example monthQuery_leap_february :
  URL (monthQuery Fixtures.loggedIn (time_Date 2024 2 10 9 0 0 0 UTCLoc))
  = "/svc/attendance-bff/attendance-calendar/991824?end_date=2024-02-29&start_date=2024-02-01".
Proof. vm_compute. reflexivity. Qed.

(** C1, as the code has it. Take two dates of one calendar month, each
    resolved through the day-ID cache by GetDayUUID or by GetOrNewDayUUID.
    The first lookup sends either nothing or exactly one request, the
    calendar query from the first to the last day of the month of the date.
    If it succeeds, the two lookups together send nothing or that one query,
    and if the date was not in the cache, the query was sent, the cache then
    holds an entry for every day of the month, and from then on, after any
    run of calls, every lookup of a day of that month succeeds without a
    request. If it fails, the client is as before, the date is still not in
    the cache, and on a logged-in client each later lookup of an uncached
    day of the month sends the month's query again. *)
Theorem month_cached_by_one_query (how1 how2 : Lookup) (d1 d2 : Time)
    (c : Client) (w : World) (r : outcome (option UUID))
    (c1 : Client) (w1 : World) :
  sameMonth d1 d2 = true ->
  resolve how1 d1 c w = (r, c1, w1) ->
  (requests (since w w1) = [] \/ requests (since w w1) = [monthQuery c d1])
  /\ (forall v, r = Ok v ->
        (forall r2 c2 w2,
            resolve how2 d2 c1 w1 = (r2, c2, w2) ->
            requests (since w w2) = []
            \/ requests (since w w2) = [monthQuery c d1])
        /\ (dayIDCache c !! Format d1 DateOnly = None ->
            requests (since w w1) = [monthQuery c d1]
            /\ (forall d, sameMonth d1 d = true ->
                          is_Some (dayIDCache c1 !! Format d DateOnly))
            /\ (forall how d calls w2 w3 r3 c3 w3',
                   sameMonth d1 d = true ->
                   resolve how d (fst (run calls c1 w2)) w3 = (r3, c3, w3') ->
                   (exists v3, r3 = Ok v3) /\ requests (since w3 w3') = [])))
  /\ (forall e, r = Err e ->
        c1 = c
        /\ dayIDCache c !! Format d1 DateOnly = None
        /\ (forall how d w2 r2 c2 w2',
               sameMonth d1 d = true ->
               dayIDCache c !! Format d DateOnly = None ->
               authenticationState c = LoggedIn ->
               resolve how d c1 w2 = (r2, c2, w2') ->
               requests (since w2 w2') = [monthQuery c d1])).
Proof.
  intros Hsame Hrun. apply resolve_course in Hrun.
  split; [exact (course_requests _ _ _ _ _ _ Hrun)|].
  destruct Hrun as (n & evs & -> & Hsession & Hkeep & Hcases).
  rewrite since_advance. split.
  - intros v ->. split.
    + intros r2 c2 w2 Hrun2. apply resolve_course in Hrun2.
      destruct (dayIDCache c !! Format d1 DateOnly) as [v1|] eqn:Hlook.
      * (* the first date was in the cache: the second lookup may ask *)
        destruct Hcases as [Hnone _].
        destruct (course_requests _ _ _ _ _ _ Hrun2) as [Hreq|Hreq];
          destruct Hrun2 as (n2 & evs2 & -> & _);
          rewrite since_advance in Hreq;
          rewrite advance_advance, since_advance, requests_app, Hnone, Hreq;
          [left; reflexivity|right].
        simpl. f_equal. apply monthQuery_sameMonth; [apply Hsession|exact Hsame].
      * (* the first lookup asked and cached the month *)
        destruct (authenticationState c);
          try (destruct Hcases as (_ & _ & e & He); discriminate He).
        destruct Hcases as [Hreq [[[e He] _]|[_ Hmonth]]]; [discriminate He|].
        destruct (course_hit _ _ _ _ _ _ (Hmonth d2 Hsame) Hrun2) as [Hreq2 _].
        destruct Hrun2 as (n2 & evs2 & -> & _).
        rewrite since_advance in Hreq2.
        rewrite advance_advance, since_advance, requests_app, Hreq, Hreq2.
        right. reflexivity.
    + intros Hlook. rewrite Hlook in Hcases.
      destruct (authenticationState c);
        try (destruct Hcases as (_ & _ & e & He); discriminate He).
      destruct Hcases as [Hreq [[[e He] _]|[_ Hmonth]]]; [discriminate He|].
      split; [exact Hreq|]. split; [exact Hmonth|].
      intros how d calls w2 w3 r3 c3 w3' Hd Hrun3.
      apply resolve_course in Hrun3.
      destruct (course_hit _ _ _ _ _ _
                  (DayCache.run_keeps_entries calls _ w2 _ (Hmonth d Hd)) Hrun3)
        as [Hnone Hok].
      split; [exact Hok|exact Hnone].
  - intros e ->.
    destruct (dayIDCache c !! Format d1 DateOnly) as [v1|] eqn:Hlook.
    { destruct Hcases as (_ & v & Hv). discriminate Hv. }
    assert (Hc : c1 = c).
    { destruct (authenticationState c); try apply Hcases.
      destruct Hcases as [_ [[_ Hc]|[[v Hv] _]]]; [exact Hc|discriminate Hv]. }
    split; [exact Hc|]. split; [reflexivity|].
    intros how d w2 r2 c2 w2' Hd Hmiss Hst Hrun2. subst c1.
    apply resolve_course in Hrun2.
    destruct Hrun2 as (n2 & evs2 & -> & _ & _ & Hcases2).
    rewrite since_advance. rewrite Hmiss, Hst in Hcases2.
    destruct Hcases2 as [-> _].
    f_equal. apply monthQuery_sameMonth; [reflexivity|exact Hd].
Qed.

Lemma month_cached_by_one_query_witness :
  requests (trace (snd (resolve ByGetOrNewDayUUID Fixtures.jan18_1300
                          Fixtures.loggedIn
                          (Fixtures.worldOf Fixtures.calendarServer))))
  = [monthQuery Fixtures.loggedIn Fixtures.jan18_1300]
  /\ forall r2 c2 w2,
       resolve ByGetDayUUID Fixtures.jan19_0900_cet
         (snd (fst (resolve ByGetOrNewDayUUID Fixtures.jan18_1300
                      Fixtures.loggedIn
                      (Fixtures.worldOf Fixtures.calendarServer))))
         (snd (resolve ByGetOrNewDayUUID Fixtures.jan18_1300
                 Fixtures.loggedIn
                 (Fixtures.worldOf Fixtures.calendarServer)))
       = (r2, c2, w2) ->
       requests (since (Fixtures.worldOf Fixtures.calendarServer) w2) = []
       \/ requests (since (Fixtures.worldOf Fixtures.calendarServer) w2)
          = [monthQuery Fixtures.loggedIn Fixtures.jan18_1300].
Proof.
  split; [vm_compute; reflexivity|].
  assert (Hr : fst (fst (resolve ByGetOrNewDayUUID Fixtures.jan18_1300
                           Fixtures.loggedIn
                           (Fixtures.worldOf Fixtures.calendarServer)))
               = Ok (Some Fixtures.firstID)) by (vm_compute; reflexivity).
  destruct (resolve ByGetOrNewDayUUID Fixtures.jan18_1300 Fixtures.loggedIn
              (Fixtures.worldOf Fixtures.calendarServer))
    as [[r c1] w1] eqn:Hrun.
  cbn [fst snd] in *.
  exact (proj1 (proj1 (proj2 (month_cached_by_one_query
                                ByGetOrNewDayUUID ByGetDayUUID
                                Fixtures.jan18_1300 Fixtures.jan19_0900_cet
                                _ _ _ _ _ eq_refl Hrun))
                      _ Hr)).
Defined.

End MonthCache.

(** ** The two revisions of the calendar request *)

Module Revisions.
Import Effects Operations Requests.

Lemma append_cancel (a b b' : string) : a +:+ b = a +:+ b' -> b = b'.
Proof.
  induction a as [|ch a IH]; intros Heq; [exact Heq|].
  apply IH. change (String ch (a +:+ b) = String ch (a +:+ b')) in Heq.
  congruence.
Qed.

(** Two calendar requests for one employee and one start are the same
    request exactly when their ends are the same day. *)
Lemma calendarRequest_same_end (employeeID : Z) (startDate endDate endDate' : Time) :
  calendarRequest employeeID startDate endDate
  = calendarRequest employeeID startDate endDate'
  <-> Format endDate DateOnly = Format endDate' DateOnly.
Proof.
  rewrite !calendarRequest_text. split.
  - intros Heq. apply (f_equal URL) in Heq. cbn [URL] in Heq.
    do 3 apply append_cancel in Heq.
    apply append_inj in Heq; [apply Heq|reflexivity].
  - intros ->. reflexivity.
Qed.

Lemma requests_record (req : Request) (w : World) :
  requests (since w (record (Sent req) w)) = [req].
Proof. rewrite record_advance, since_advance. reflexivity. Qed.

(** With the query values allocated, the older body is the newer function
    asked for the start date twice. *)
Lemma legacy_body_allocated (employeeID : Z) (startDate endDate : Time) :
  Legacy.GetAttendanceCalendarFrom Values_empty employeeID startDate endDate
  = GetAttendanceCalendar employeeID startDate startDate.
Proof. reflexivity. Qed.

(** The newer revision sends the window as it is given. *)
Lemma newer_calendar_requests (employeeID : Z) (startDate endDate : Time)
    (c : Client) (w : World) :
  authenticationState c = LoggedIn ->
  requests (since w (snd (GetAttendanceCalendar employeeID startDate endDate c w)))
  = [calendarRequest employeeID startDate endDate].
Proof.
  intros Hst.
  destruct (GetAttendanceCalendar employeeID startDate endDate c w)
    as [[r c'] w'] eqn:Hrun.
  destruct (MonthCache.GetAttendanceCalendar_sends _ _ _ _ _ _ _ _ Hst Hrun)
    as [_ ->].
  apply requests_record.
Qed.




Example legacy_allocated_trace :
  map (fun req => (Method req, URL req))
      (requests (trace (snd (Legacy.GetAttendanceCalendarFrom Values_empty 991824
                               Fixtures.jan18_1300 Fixtures.jan19_0900_cet
                               Fixtures.loggedIn
                               (Fixtures.worldOf Fixtures.calendarServer)))))
  = [("GET", "/svc/attendance-bff/attendance-calendar/991824?end_date=2023-01-18&start_date=2023-01-18")]%string
  /\ map (fun req => (Method req, URL req))
         (requests (trace (snd (GetAttendanceCalendar 991824
                                  Fixtures.jan18_1300 Fixtures.jan19_0900_cet
                                  Fixtures.loggedIn
                                  (Fixtures.worldOf Fixtures.calendarServer)))))
     = [("GET", "/svc/attendance-bff/attendance-calendar/991824?end_date=2023-01-19&start_date=2023-01-18")]%string.
Proof. vm_compute. split; reflexivity. Qed.

End Revisions.
